(** * SyncFlow: identity, delta, scheduling and normalization core

    A shallow embedding of the parts of the SyncFlow backend that the
    specification's testable properties talk about, together with the
    theorems that settle them.

    Conventions of the embedding.
    - A Python [str] is a Rocq [string] holding its UTF-8 bytes.  Python
      orders strings by code point, and the UTF-8 byte order coincides with
      the code-point order, so [String.compare] is Python's [<] on [str].
    - A Python [dict] is an association list in insertion order whose keys
      are unique ([dict_wf]); [dict_set] updates in place or appends, as
      Python does.
    - An exception is a value of type [error]; a function that may raise
      returns a [result].
    - Functions of third-party libraries (xxhash, blake3, the float [repr],
      the JSON string encoder, dateutil) are fields of the classes
      [HashLib] and [PyRuntime]: the development is parametric in them. *)

From Stdlib Require Import ZArith NArith List Bool Ascii String Permutation Sorted.
From Stdlib Require Import Floats.SpecFloat.
From stdpp Require Import base decidable list sorting strings pretty gmap.

Set Default Proof Using "Type".
Set Warnings "-clear-no-such-hyp".
Local Open Scope Z_scope.

(* ================================================================== *)
(** * Python strings *)
(* ================================================================== *)

Module PyStr.

  (** [sep.join(parts)] *)
Fixpoint join (sep : string) (parts : list string) : string :=
    match parts with
    | [] => ""
    | [p] => p
    | p :: rest => p +:+ sep +:+ join sep rest
    end.

Definition chars (s : string) : list ascii := list_ascii_of_string s.
Definition of_chars (l : list ascii) : string := string_of_list_ascii l.

  (** [sorted(l)] / [l.sort()] on a list of [str]: ascending code-point
      order.  The order is total and antisymmetric, so stability is not
      observable. *)
Definition sorted (l : list string) : list string := merge_sort String.le l.

  (** One hexadecimal digit, lowercase. *)
Definition hex_digit (n : N) : ascii :=
    match n with
    | 0 => "0" | 1 => "1" | 2 => "2" | 3 => "3" | 4 => "4" | 5 => "5"
    | 6 => "6" | 7 => "7" | 8 => "8" | 9 => "9" | 10 => "a" | 11 => "b"
    | 12 => "c" | 13 => "d" | 14 => "e" | _ => "f"
    end%N%char.

  (** The [width] low hexadecimal digits of [n], most significant first:
      the [hexdigest()] of a digest of [4 * width] bits. *)
Fixpoint hex_fixed (width : nat) (n : N) : string :=
    match width with
    | O => ""
    | S w => hex_fixed w (n / 16)%N +:+ String (hex_digit (n mod 16)%N) ""
    end.

Definition is_lower_hex (c : ascii) : bool :=
    let n := N_of_ascii c in
    ((48 <=? n) && (n <=? 57) || (97 <=? n) && (n <=? 102))%N.

Definition all_lower_hex (s : string) : bool := forallb is_lower_hex (chars s).

(** The [width] low decimal digits of [n], most significant first. *)
Fixpoint dec_fixed (width : nat) (n : Z) : string :=
  match width with
  | O => ""
  | S w => dec_fixed w (n / 10) +:+ String (ascii_of_N (48 + Z.to_N (n mod 10))) ""
  end.

(** [s.rstrip(c)] for a single character [c]. *)
Fixpoint rstrip_chars (c : ascii) (l : list ascii) : list ascii :=
  match l with
  | [] => []
  | x :: rest =>
      match rstrip_chars c rest with
      | [] => if Ascii.eqb x c then [] else [x]
      | rest' => x :: rest'
      end
  end.

Definition rstrip_char (c : ascii) (s : string) : string :=
  of_chars (rstrip_chars c (chars s)).

(** Python's white space ([str.isspace]) among the code points below 128:
    tab, line feed, vertical tab, form feed, carriage return, the four
    separators U+001C..U+001F and the space. *)
Definition is_space1 (c : ascii) : bool :=
  let n := N_of_ascii c in
  ((9 <=? n) && (n <=? 13) || (28 <=? n) && (n <=? 32))%N.

(** The two-byte UTF-8 encodings of white space: U+0085 and U+00A0. *)
Definition is_space2 (c1 c2 : ascii) : bool :=
  let a := N_of_ascii c1 in
  let b := N_of_ascii c2 in
  ((a =? 194) && ((b =? 133) || (b =? 160)))%N.

(** The three-byte UTF-8 encodings of white space: U+1680, U+2000..U+200A,
    U+2028, U+2029, U+202F, U+205F and U+3000. *)
Definition is_space3 (c1 c2 c3 : ascii) : bool :=
  let a := N_of_ascii c1 in
  let b := N_of_ascii c2 in
  let c := N_of_ascii c3 in
  ((a =? 225) && (b =? 154) && (c =? 128)
   || (a =? 226) && (b =? 128)
      && ((128 <=? c) && (c <=? 138) || (c =? 168) || (c =? 169) || (c =? 175))
   || (a =? 226) && (b =? 129) && (c =? 159)
   || (a =? 227) && (b =? 128) && (c =? 128))%N.

(** [s.lstrip()] on the UTF-8 bytes of [s]. *)
Fixpoint lstrip_chars (l : list ascii) : list ascii :=
  match l with
  | [] => []
  | c1 :: r1 =>
      if is_space1 c1 then lstrip_chars r1
      else
        match r1 with
        | c2 :: r2 =>
            if is_space2 c1 c2 then lstrip_chars r2
            else
              match r2 with
              | c3 :: r3 => if is_space3 c1 c2 c3 then lstrip_chars r3 else l
              | [] => l
              end
        | [] => l
        end
  end.

(** The same scan from the end of the string, on the reversed bytes. *)
Fixpoint lstrip_rev_chars (l : list ascii) : list ascii :=
  match l with
  | [] => []
  | c1 :: r1 =>
      if is_space1 c1 then lstrip_rev_chars r1
      else
        match r1 with
        | c2 :: r2 =>
            if is_space2 c2 c1 then lstrip_rev_chars r2
            else
              match r2 with
              | c3 :: r3 => if is_space3 c3 c2 c1 then lstrip_rev_chars r3 else l
              | [] => l
              end
        | [] => l
        end
  end.

(** [s.strip()] *)
Definition strip (s : string) : string :=
  of_chars (rev (lstrip_rev_chars (rev (lstrip_chars (chars s))))).

End PyStr.

(* ================================================================== *)
(** * Python values and dictionaries *)
(* ================================================================== *)

Module Py.

(** What a list or a dict held by a record field is made of: records are
    decoded from JSON responses, so composite values are JSON trees. *)
#[warnings="-register-all"]
Inductive json : Type :=
  | JNull
  | JBool (b : bool)
  | JInt (z : Z)
  | JFloat (f : spec_float)
  | JStr (s : string)
  | JArr (items : list json)
  | JObj (entries : list (string * json)).

(** The classes, other than the JSON ones, that the code tests for. *)
Inductive pyclass := Decimal | Datetime | Date | Bytes | Object.

(** The values a record field can hold.  A float is an IEEE-754 double,
    given by its exact value.  [VOther] stands for an object of any other
    class, known by its class, its [str()] and its truth value. *)
Inductive value : Type :=
  | VNone
  | VBool (b : bool)
  | VInt (z : Z)
  | VFloat (f : spec_float)
  | VStr (s : string)
  | VList (items : list json)
  | VDict (entries : list (string * json))
  | VOther (cls : pyclass) (str_form : string) (truth : bool).

Inductive error : Type :=
  | ValueError (msg : string)
  | TypeError (msg : string)
  | HTTPException (status_code : Z) (detail : string).

Inductive result (A : Type) : Type :=
  | Ok (a : A)
  | Raise (e : error).
Arguments Ok {A} a.
Arguments Raise {A} e.

Definition bind {A B} (r : result A) (k : A -> result B) : result B :=
    match r with
    | Ok a => k a
    | Raise e => Raise e
    end.

Definition is_ok {A} (r : result A) : bool :=
    match r with Ok _ => true | Raise _ => false end.

  (** Library functions the code calls and the repository does not define. *)
Class PyRuntime := {
    (** [repr(x)] of a float: the shortest string that reads back as [x] *)
    float_repr : spec_float -> string;
    (** [str(x)] of a list or a dict *)
    container_str : value -> string;
    (** the JSON encoder's rendering of a string, quotes included *)
    json_quote : string -> string
  }.

Class HashLib := {
    (** [xxhash.xxh128(s.encode('utf-8')).intdigest()], a 128-bit number *)
    xxh128_intdigest : string -> N;
    (** [blake3.blake3(s.encode('utf-8'))]'s digest as a 256-bit number *)
    blake3_intdigest : string -> N
  }.

Definition xxh128_hexdigest `{HashLib} (s : string) : string :=
    PyStr.hex_fixed 32 (xxh128_intdigest s).

Definition blake3_hexdigest `{HashLib} (s : string) : string :=
    PyStr.hex_fixed 64 (blake3_intdigest s).

  (** [str(v)], which is also what an f-string field [{v}] renders. *)
Definition py_str `{PyRuntime} (v : value) : string :=
    match v with
    | VNone => "None"
    | VBool true => "True"
    | VBool false => "False"
    | VInt z => pretty z
    | VFloat f => float_repr f
    | VStr s => s
    | VList _ | VDict _ => container_str v
    | VOther _ s _ => s
    end.

  (** ** Dictionaries *)

Abbreviation dict V := (list (string * V)) (only parsing).

Definition keys {V} (d : dict V) : list string := map fst d.

Definition dict_wf {V} (d : dict V) : Prop := NoDup (keys d).

  (** [d[k]] when [k in d] *)
Fixpoint dict_get {V} (d : dict V) (k : string) : option V :=
    match d with
    | [] => None
    | (k', v) :: rest => if String.eqb k k' then Some v else dict_get rest k
    end.

  (** [k in d] *)
Definition dict_mem {V} (d : dict V) (k : string) : bool :=
    match dict_get d k with Some _ => true | None => false end.

  (** [d[k] = v] *)
Fixpoint dict_set {V} (d : dict V) (k : string) (v : V) : dict V :=
    match d with
    | [] => [(k, v)]
    | (k', v') :: rest =>
        if String.eqb k k' then (k', v) :: rest else (k', v') :: dict_set rest k v
    end.

End Py.

(* ================================================================== *)
(** * Business-key hash ([identity/bk_hash.py]) *)
(* ================================================================== *)

Module BKHash.
Import Py.

Section Generate.
Context `{PyRuntime} `{HashLib}.

(** The extraction loop of [BKHashGenerator.generate]: [key_values] is the
    list built so far. *)
Fixpoint extract_key_values (record : dict value) (business_key_fields : list string)
    (key_values : list string) : result (list string) :=
  match business_key_fields with
  | [] => Ok key_values
  | field :: rest =>
      match dict_get record field with
      | None =>
          Raise (ValueError ("Business key field '" +:+ field +:+ "' not found in record"))
      | Some VNone =>
          Raise (ValueError ("Business key field '" +:+ field +:+ "' is NULL"))
      | Some value =>
          extract_key_values record rest (key_values ++ [field +:+ "=" +:+ py_str value])
      end
  end.

(** [if entity_name:] holds for a name that is neither [None] nor empty. *)
Definition name_given (entity_name : option string) : bool :=
  match entity_name with
  | Some n => negb (String.eqb n "")
  | None => false
  end.

(** [BKHashGenerator.generate] *)
Definition generate (record : dict value) (business_key_fields : list string)
    (entity_name : option string) : result string :=
  match business_key_fields with
  | [] => Raise (ValueError "business_key_fields cannot be empty")
  | _ =>
      bind (extract_key_values record business_key_fields []) (fun key_values =>
      let key_values := PyStr.sorted key_values in
      let canonical := PyStr.join "|" key_values in
      let canonical :=
        if name_given entity_name
        then default "" entity_name +:+ "|" +:+ canonical
        else canonical in
      Ok (xxh128_hexdigest canonical))
  end.

(** ** The specification's wording *)

(** The pair ['field=value'] of one business-key field. *)
Definition bk_pair (record : dict value) (field : string) : string :=
  field +:+ "=" +:+ py_str (default VNone (dict_get record field)).

(** The canonical string: the pairs of the configured fields, sorted and
    joined by ['|'], after ['entity_name|'] when a name is given. *)
Definition bk_canonical (record : dict value) (fields : list string)
    (entity_name : option string) : string :=
  let body := PyStr.join "|" (PyStr.sorted (map (bk_pair record) fields)) in
  match entity_name with
  | Some n => if String.eqb n "" then body else n +:+ "|" +:+ body
  | None => body
  end.

(** A business-key field is usable when the record has it with a value
    other than [None]. *)
Definition bk_field_ok (record : dict value) (field : string) : bool :=
  match dict_get record field with
  | None | Some VNone => false
  | Some _ => true
  end.

End Generate.
End BKHash.

(* ================================================================== *)
(** * JSON rendering ([json.dumps(v, sort_keys=True, separators=(',', ':'))]) *)
(* ================================================================== *)

Module Json.
Import Py.

(** [sorted(d.items())]: the entries in ascending order of their keys. *)
Definition key_le {A} (a b : string * A) : Prop := String.le a.1 b.1.

#[global] Instance key_le_dec {A} : RelDecision (@key_le A).
Proof. intros a b. unfold key_le. apply _. Defined.

Definition sort_items {A} (entries : list (string * A)) : list (string * A) :=
  merge_sort key_le entries.

Section Dumps.
Context `{PyRuntime}.

(** A float is written by [float.__repr__], the specials by name. *)
Definition json_float (f : spec_float) : string :=
  match f with
  | S754_nan => "NaN"
  | S754_infinity false => "Infinity"
  | S754_infinity true => "-Infinity"
  | _ => float_repr f
  end.

Definition render_entry (e : string * string) : string :=
  json_quote e.1 +:+ ":" +:+ e.2.

Fixpoint dumps (j : json) : string :=
  match j with
  | JNull => "null"
  | JBool true => "true"
  | JBool false => "false"
  | JInt z => pretty z
  | JFloat f => json_float f
  | JStr s => json_quote s
  | JArr items => "[" +:+ PyStr.join "," (map dumps items) +:+ "]"
  | JObj entries =>
      let rendered := map (fun e : string * json => let (k, v) := e in (k, dumps v)) entries in
      "{" +:+ PyStr.join "," (map render_entry (sort_items rendered)) +:+ "}"
  end.

End Dumps.
End Json.

(* ================================================================== *)
(** * Data hash ([identity/data_hash.py]) *)
(* ================================================================== *)

Module DataHash.
Import Py.

(** The set [exclude_fields] takes when the caller passes [None]. *)
Definition default_exclude_fields : list string :=
  [ "created_at"; "updated_at"; "created_at_utc"; "updated_at_utc";
    "uid"; "id";
    "erp_key_hash"; "erp_data_hash"; "erp_rowversion" ].

(** [field in exclude_fields] *)
Definition in_fields (field : string) (fields : list string) : bool :=
  existsb (String.eqb field) fields.

(** The integer nearest to [num / den], ties to the even one: the rounding
    of [format(x, '.6f')], which is exact on the binary value. *)
Definition round_half_even (num den : Z) : Z :=
  let q := num / den in
  let r := num mod den in
  if 2 * r <? den then q
  else if den <? 2 * r then q + 1
  else if Z.even q then q else q + 1.

(** [f"{x:.6f}"] *)
Definition format_6f (x : spec_float) : string :=
  match x with
  | S754_nan => "nan"
  | S754_infinity false => "inf"
  | S754_infinity true => "-inf"
  | S754_zero s => (if s then "-" else "") +:+ "0.000000"
  | S754_finite s m e =>
      let scaled :=
        if 0 <=? e
        then Z.pos m * 2 ^ e * 1000000
        else round_half_even (Z.pos m * 1000000) (2 ^ (- e)) in
      (if s then "-" else "")
      +:+ pretty (scaled / 1000000) +:+ "." +:+ PyStr.dec_fixed 6 (scaled mod 1000000)
  end.

Section Generate.
Context `{PyRuntime} `{HashLib}.

(** [DataHashGenerator._normalize_value].  The tests come in the order of
    the source: [isinstance(value, int)] precedes [isinstance(value, bool)]
    and holds for [True] and [False], [bool] being a subclass of [int], so
    a boolean is rendered by [str] and the branch that would answer
    ["true"] or ["false"] is never reached. *)
Definition _normalize_value (value : value) : option string :=
  match value with
  | VNone => None
  | VFloat x => Some (PyStr.rstrip_char "." (PyStr.rstrip_char "0" (format_6f x)))
  | VInt _ | VBool _ => Some (py_str value)
  | VStr s => Some (PyStr.strip s)
  | VList items => Some (Json.dumps (JArr items))
  | VDict entries => Some (Json.dumps (JObj entries))
  | VOther _ _ _ => Some (py_str value)
  end.

(** The first loop of [generate_data_hash], over [row.items()]. *)
Fixpoint normalize_fields (items : list (string * value)) (exclude_fields : list string)
    (data_to_hash : dict (option string)) : dict (option string) :=
  match items with
  | [] => data_to_hash
  | (field, value) :: rest =>
      if in_fields field exclude_fields
      then normalize_fields rest exclude_fields data_to_hash
      else normalize_fields rest exclude_fields
             (dict_set data_to_hash field (_normalize_value value))
  end.

(** The second loop, over [sorted_fields]. *)
Fixpoint collect_key_values (sorted_fields : list string)
    (data_to_hash : dict (option string)) (key_values : list string) : list string :=
  match sorted_fields with
  | [] => key_values
  | field :: rest =>
      match dict_get data_to_hash field with
      | Some (Some value) =>
          collect_key_values rest data_to_hash (key_values ++ [field +:+ "=" +:+ value])
      | _ => collect_key_values rest data_to_hash key_values
      end
  end.

(** The string [canonical] that [generate_data_hash] hashes. *)
Definition canonical (row : dict value) (exclude_fields : option (list string)) : string :=
  let exclude_fields := default default_exclude_fields exclude_fields in
  let data_to_hash := normalize_fields row exclude_fields [] in
  let sorted_fields := PyStr.sorted (keys data_to_hash) in
  PyStr.join "|" (collect_key_values sorted_fields data_to_hash []).

(** [DataHashGenerator.generate_data_hash] *)
Definition generate_data_hash (row : dict value) (exclude_fields : option (list string)) : string :=
  blake3_hexdigest (canonical row exclude_fields).

(** ** The specification's wording *)

(** The exclusion set the specification lists. *)
Definition claimed_exclusion_set : list string :=
  [ "created_at"; "updated_at"; "uid"; "id";
    "erp_key_hash"; "erp_data_hash"; "erp_rowversion" ].

(** The normalization the specification lists: nulls omitted, reals with
    up to six fractional digits and no trailing zeros, integers without a
    decimal point, booleans as ["true"] and ["false"], strings trimmed,
    composite values as compact JSON with sorted keys. *)
Definition claimed_normalize (value : value) : option string :=
  match value with
  | VNone => None
  | VFloat x => Some (PyStr.rstrip_char "." (PyStr.rstrip_char "0" (format_6f x)))
  | VInt z => Some (pretty z)
  | VBool b => Some (if b then "true" else "false")
  | VStr s => Some (PyStr.strip s)
  | VList items => Some (Json.dumps (JArr items))
  | VDict entries => Some (Json.dumps (JObj entries))
  | VOther _ s _ => Some s
  end.

(** The canonical string in the specification's words: of all fields but
    the excluded ones, those whose value is not null, sorted, each as
    ['field=value'], joined by ['|']. *)
Definition spec_canonical (exclusion : list string) (normalize : value -> option string)
    (row : dict value) : string :=
  let rendered f := dict_get row f ≫= normalize in
  let kept f := negb (in_fields f exclusion) && bool_decide (is_Some (rendered f)) in
  PyStr.join "|"
    (map (fun f => f +:+ "=" +:+ default "" (rendered f))
         (PyStr.sorted (filter kept (keys row)))).

End Generate.
End DataHash.

(* ================================================================== *)
(** * Row-versions ([identity/rowversion.py]) *)
(* ================================================================== *)

Module Rowversion.
Import Py.

(** What the comparison takes from [dateutil] and from [float()]. *)
Class RowversionLib := {
  datetime : Type;
  (** [dateutil_parser.parse(s)]; [None] when it raises *)
  dateutil_parse : string -> option datetime;
  (** the order of two datetimes; [None] when comparing them raises, as it
      does for an aware and a naive one *)
  datetime_compare : datetime -> datetime -> option comparison;
  (** [float(s)]; [None] when it raises [ValueError] *)
  float_of_string : string -> option spec_float
}.

Section Compare.
Context `{RowversionLib}.

(** [c in value] *)
Definition contains_char (c : ascii) (value : string) : bool :=
  existsb (Ascii.eqb c) (PyStr.chars value).

(** [RowversionHandler._parse_datetime] *)
Definition _parse_datetime (value : string) : option datetime :=
  if contains_char "T" value || contains_char " " value
  then dateutil_parse value
  else None.

(** The first [try] block of [compare_rowversions]; [None] when it falls
    through to the next one. *)
Definition compare_as_datetimes (rv1 rv2 : string) : option Z :=
  match _parse_datetime rv1, _parse_datetime rv2 with
  | Some dt1, Some dt2 =>
      match datetime_compare dt1 dt2 with
      | Some Lt => Some (-1)
      | Some Gt => Some 1
      | Some Eq => Some 0
      | None => None
      end
  | _, _ => None
  end.

(** The second [try] block. *)
Definition compare_as_numbers (rv1 rv2 : string) : option Z :=
  match float_of_string rv1, float_of_string rv2 with
  | Some num1, Some num2 =>
      if SFltb num1 num2 then Some (-1)
      else if SFltb num2 num1 then Some 1
      else Some 0
  | _, _ => None
  end.

(** The fallback: the order of the strings. *)
Definition compare_as_strings (rv1 rv2 : string) : Z :=
  if String.ltb rv1 rv2 then -1
  else if String.ltb rv2 rv1 then 1
  else 0.

(** [RowversionHandler.compare_rowversions] *)
Definition compare_rowversions (rv1 rv2 : option string) : Z :=
  match rv1, rv2 with
  | None, None => 0
  | None, Some _ => -1
  | Some _, None => 1
  | Some s1, Some s2 =>
      match compare_as_datetimes s1 s2 with
      | Some c => c
      | None =>
          match compare_as_numbers s1 s2 with
          | Some c => c
          | None => compare_as_strings s1 s2
          end
      end
  end.

(** [RowversionHandler.is_newer] *)
Definition is_newer (current_rv stored_rv : option string) : bool :=
  0 <? compare_rowversions current_rv stored_rv.

End Compare.
End Rowversion.

(* ================================================================== *)
(** * Delta detection ([delta/detector.py], the two strategies,
      [delta/engine.py]) *)
(* ================================================================== *)

Module Delta.
Import Py Rowversion.

(** A record as the delta engine reads it: the identity fields, each a
    string or null (an absent key reads as null through [record.get]),
    and the remaining fields. *)
Record record := {
  erp_key_hash : option string;
  erp_data_hash : option string;
  erp_rowversion : option string;
  uid : option string;
  payload : dict value
}.

(** Truth value of a string or [None]: [if x:]. *)
Definition truthy (x : option string) : bool :=
  match x with
  | Some s => negb (String.eqb s "")
  | None => false
  end.

Inductive DeltaOperation := INSERT | UPDATE | DELETE | SKIP.

#[global] Instance DeltaOperation_eq_dec : EqDecision DeltaOperation.
Proof. solve_decision. Defined.

Record DeltaRecord := {
  operation : DeltaOperation;
  dr_record : record;
  bk_hash : string;
  data_hash : option string;
  stored_data_hash : option string;
  rowversion : option string;
  stored_rowversion : option string;
  reason : string
}.

(** [s[:8]] *)
Definition first8 (s : string) : string := substring 0 8 s.

Section Detector.
Context `{RowversionLib}.

(** [DeltaDetector._is_rowversion_newer] *)
Definition _is_rowversion_newer (current stored : option string) : bool :=
  is_newer current stored.

(** [DeltaDetector.detect_operation].  Building the reason of a hash-based
    UPDATE slices the stored data hash, which raises when it is [None]. *)
Definition detect_operation (record : record) (stored_record : option Delta.record)
    (use_rowversion : bool) : result DeltaRecord :=
  let bk_hash := erp_key_hash record in
  let data_hash := erp_data_hash record in
  let rowversion := erp_rowversion record in
  if negb (truthy bk_hash) || negb (truthy data_hash)
  then Raise (ValueError "Record missing identity fields (erp_key_hash or erp_data_hash)")
  else
    match stored_record with
    | None =>
        Ok {| operation := INSERT; dr_record := record;
              bk_hash := default "" bk_hash; data_hash := data_hash;
              stored_data_hash := None;
              rowversion := rowversion; stored_rowversion := None;
              reason := "New record (BK_HASH not found in target)" |}
    | Some stored =>
        let stored_data_hash := erp_data_hash stored in
        let stored_rowversion := erp_rowversion stored in
        if use_rowversion && truthy rowversion && truthy stored_rowversion
        then
          if _is_rowversion_newer rowversion stored_rowversion
          then
            Ok {| operation := UPDATE; dr_record := record;
                  bk_hash := default "" bk_hash; data_hash := data_hash;
                  stored_data_hash := stored_data_hash;
                  rowversion := rowversion; stored_rowversion := stored_rowversion;
                  reason := "Rowversion changed: " +:+ default "" stored_rowversion
                            +:+ " → " +:+ default "" rowversion |}
          else
            Ok {| operation := SKIP; dr_record := record;
                  bk_hash := default "" bk_hash; data_hash := data_hash;
                  stored_data_hash := stored_data_hash;
                  rowversion := rowversion; stored_rowversion := stored_rowversion;
                  reason := "Rowversion unchanged" |}
        else
          if negb (bool_decide (data_hash = stored_data_hash))
          then
            match stored_data_hash with
            | None => Raise (TypeError "'NoneType' object is not subscriptable")
            | Some stored_hash =>
                Ok {| operation := UPDATE; dr_record := record;
                      bk_hash := default "" bk_hash; data_hash := data_hash;
                      stored_data_hash := stored_data_hash;
                      rowversion := rowversion; stored_rowversion := stored_rowversion;
                      reason := "Data changed: " +:+ first8 stored_hash +:+ "... → "
                                +:+ first8 (default "" data_hash) +:+ "..." |}
            end
          else
            Ok {| operation := SKIP; dr_record := record;
                  bk_hash := default "" bk_hash; data_hash := data_hash;
                  stored_data_hash := stored_data_hash;
                  rowversion := rowversion; stored_rowversion := stored_rowversion;
                  reason := "Data unchanged" |}
    end.

(** [DeltaDetector.detect_deletes]: [list(stored_bk_hashes - current_bk_hashes)],
    in the order the set happens to enumerate. *)
Definition detect_deletes (current_bk_hashes stored_bk_hashes : gset string) : list string :=
  elements (stored_bk_hashes ∖ current_bk_hashes).

Record categories := {
  insert : list DeltaRecord;
  update : list DeltaRecord;
  skip : list DeltaRecord;
  delete : list DeltaRecord
}.

Definition has_operation (op : DeltaOperation) (dr : DeltaRecord) : Prop :=
  operation dr = op.

#[global] Instance has_operation_dec op dr : Decision (has_operation op dr).
Proof. unfold has_operation. apply _. Defined.

(** [DeltaDetector.categorize_records] *)
Definition categorize_records (delta_records : list DeltaRecord) : categories :=
  {| insert := filter (has_operation INSERT) delta_records;
     update := filter (has_operation UPDATE) delta_records;
     skip := filter (has_operation SKIP) delta_records;
     delete := filter (has_operation DELETE) delta_records |}.

(** The counts of [DeltaDetector.get_metrics], with the three entries that
    [detect_delta] adds.  ([efficiency_percent], a rounded float, is left
    out.) *)
Record metrics := {
  m_total : nat;
  m_insert : nat;
  m_update : nat;
  m_skip : nat;
  m_delete : nat;
  strategy_used : string;
  total_incoming : nat;
  total_stored : nat
}.

(** ** The strategies *)

(** The loop shared by [HashDeltaStrategy.detect_batch], which passes
    [use_rowversion=False], and [RowversionDeltaStrategy.detect_batch]. *)
Fixpoint detect_batch_loop (incoming_records : list record)
    (stored_records_map : gmap string record) (use_rowversion : bool)
    (delta_records : list DeltaRecord) : result (list DeltaRecord) :=
  match incoming_records with
  | [] => Ok delta_records
  | record :: rest =>
      if negb (truthy (erp_key_hash record))
      then detect_batch_loop rest stored_records_map use_rowversion delta_records
      else
        let stored_record := stored_records_map !! default "" (erp_key_hash record) in
        bind (detect_operation record stored_record use_rowversion) (fun delta_record =>
          detect_batch_loop rest stored_records_map use_rowversion
            (delta_records ++ [delta_record]))
  end.

Definition hash_detect_batch (incoming_records : list record)
    (stored_records_map : gmap string record) : result (list DeltaRecord) :=
  detect_batch_loop incoming_records stored_records_map false [].

Definition rowversion_detect_batch (incoming_records : list record)
    (stored_records_map : gmap string record) (use_rowversion : bool)
    : result (list DeltaRecord) :=
  detect_batch_loop incoming_records stored_records_map use_rowversion [].

(** ** The engine *)

Inductive DeltaStrategy := ROWVERSION | HASH | AUTO.

(** [DeltaEngine._build_stored_map] *)
Fixpoint _build_stored_map_loop (stored_records : list record)
    (stored_map : gmap string record) : gmap string record :=
  match stored_records with
  | [] => stored_map
  | record :: rest =>
      if truthy (erp_key_hash record)
      then _build_stored_map_loop rest (<[default "" (erp_key_hash record) := record]> stored_map)
      else _build_stored_map_loop rest stored_map
  end.

Definition _build_stored_map (stored_records : list record) : gmap string record :=
  _build_stored_map_loop stored_records ∅.

(** [DeltaEngine._should_use_rowversion] *)
Definition _should_use_rowversion (strategy : DeltaStrategy) (sample_records : list record)
    : bool :=
  match strategy with
  | HASH => false
  | ROWVERSION => true
  | AUTO =>
      match sample_records with
      | [] => false
      | sample :: _ => bool_decide (erp_rowversion sample <> None)
      end
  end.

(** [r.get("erp_key_hash")] when [if r.get("erp_key_hash")] lets it through. *)
Definition bk_of (r : record) : option string :=
  if truthy (erp_key_hash r) then erp_key_hash r else None.

(** [{r.get("erp_key_hash") for r in records if r.get("erp_key_hash")}] *)
Definition bk_hash_set (records : list record) : gset string :=
  list_to_set (omap bk_of records).

(** [DeltaEngine._detect_deletes] *)
Definition _detect_deletes (incoming_records stored_records : list record) : list string :=
  detect_deletes (bk_hash_set incoming_records) (bk_hash_set stored_records).

(** [DeltaEngine._create_delete_records] *)
Definition _create_delete_records (deleted_bk_hashes : list string)
    (stored_map : gmap string record) : list DeltaRecord :=
  omap (fun bk_hash =>
          match stored_map !! bk_hash with
          | Some stored_record =>
              Some {| operation := DELETE; dr_record := stored_record;
                      bk_hash := bk_hash; data_hash := erp_data_hash stored_record;
                      stored_data_hash := erp_data_hash stored_record;
                      rowversion := None; stored_rowversion := None;
                      reason := "Record missing from source" |}
          | None => None
          end)
       deleted_bk_hashes.

(** [DeltaDetector.get_metrics] and the entries [detect_delta] adds. *)
Definition get_metrics (categorized : categories) (use_rowversion : bool)
    (incoming_records stored_records : list record) : metrics :=
  {| m_total := length (insert categorized) + length (update categorized)
                + length (skip categorized) + length (delete categorized);
     m_insert := length (insert categorized);
     m_update := length (update categorized);
     m_skip := length (skip categorized);
     m_delete := length (delete categorized);
     strategy_used := if use_rowversion then "rowversion" else "hash";
     total_incoming := length incoming_records;
     total_stored := length stored_records |}.

(** [DeltaEngine.detect_delta] *)
Definition detect_delta (strategy : DeltaStrategy)
    (incoming_records stored_records : list record) : result (categories * metrics) :=
  let stored_map := _build_stored_map stored_records in
  let use_rowversion := _should_use_rowversion strategy incoming_records in
  bind (if use_rowversion
        then rowversion_detect_batch incoming_records stored_map true
        else hash_detect_batch incoming_records stored_map)
       (fun delta_records =>
  let deleted_bk_hashes := _detect_deletes incoming_records stored_records in
  let delete_records := _create_delete_records deleted_bk_hashes stored_map in
  let delta_records := delta_records ++ delete_records in
  let categorized := categorize_records delta_records in
  let metrics := get_metrics categorized use_rowversion incoming_records stored_records in
  Ok (categorized, metrics)).

End Detector.
End Delta.

(* ================================================================== *)
(** * The delta stage of the pipeline ([orchestrator/engine.py],
      [smartplan_client/client.py]) *)
(* ================================================================== *)

Module Orchestrator.
Import Py Delta.

Inductive sync_type := Full | Incremental | Background.

(** The sink's answer to [POST /{entity}/batch/query] with the given
    hashes: the list of records in the response body. *)
Definition sink := string -> list string -> list record.

(** The loop of [ScheduleHubClient.get_batch_by_bk_hashes] that builds
    [record_map] from the response. *)
Fixpoint record_map_loop (records : list record) (record_map : dict record) : dict record :=
  match records with
  | [] => record_map
  | record :: rest =>
      if truthy (erp_key_hash record)
      then record_map_loop rest (dict_set record_map (default "" (erp_key_hash record)) record)
      else record_map_loop rest record_map
  end.

(** [ScheduleHubClient.get_batch_by_bk_hashes], for a request that
    succeeds. *)
Definition get_batch_by_bk_hashes (smartplan : sink) (entity : string)
    (bk_hashes : list string) : dict record :=
  record_map_loop (smartplan entity bk_hashes) [].

Section Stages.
Context `{Rowversion.RowversionLib}.

(** [BatchOrchestrator._stage_delta] *)
Definition _stage_delta (smartplan : sink) (incoming_records : list record)
    (entity_name : string) : result (categories * metrics) :=
  let bk_hashes := omap bk_of incoming_records in
  let stored_map := get_batch_by_bk_hashes smartplan entity_name bk_hashes in
  let stored_records := map snd stored_map in
  detect_delta AUTO incoming_records stored_records.

(** Stage 6 as [BatchOrchestrator.sync_entity] runs it: [sync_type] goes
    to the fetch stage and to the batch row, and is not passed on to
    [_stage_delta]. *)
Definition sync_entity_delta (smartplan : sink) (entity_name : string)
    (sync_type : sync_type) (records_with_parent_refs : list record)
    : result (categories * metrics) :=
  _stage_delta smartplan records_with_parent_refs entity_name.

End Stages.

(** The sink answers a batch lookup with records among those asked for. *)
Definition sink_honours_lookup (smartplan : sink) : Prop :=
  forall entity bk_hashes r,
    In r (smartplan entity bk_hashes) ->
    truthy (erp_key_hash r) = true ->
    In (default "" (erp_key_hash r)) bk_hashes.

End Orchestrator.

(* ================================================================== *)
(** * The sync window ([scheduler/scheduler.py], [routers/schedule_router.py]) *)
(* ================================================================== *)

Module Scheduler.
Import Py.

(** A [datetime.time] without time zone. *)
Record time := mk_time {
  hour : Z;
  minute : Z;
  second : Z;
  microsecond : Z
}.

(** The values the constructor of [datetime.time] accepts. *)
Definition valid (t : time) : Prop :=
  0 <= hour t < 24 /\ 0 <= minute t < 60 /\ 0 <= second t < 60
  /\ 0 <= microsecond t < 1000000.

(** The order of two times: that of the tuples
    [(hour, minute, second, microsecond)]. *)
Definition time_compare (a b : time) : comparison :=
  match hour a ?= hour b with
  | Eq =>
      match minute a ?= minute b with
      | Eq =>
          match second a ?= second b with
          | Eq => microsecond a ?= microsecond b
          | c => c
          end
      | c => c
      end
  | c => c
  end.

(** [a <= b] *)
Definition time_le (a b : time) : bool :=
  match time_compare a b with Gt => false | _ => true end.

(** [a >= b] *)
Definition time_ge (a b : time) : bool :=
  match time_compare a b with Lt => false | _ => true end.

(** [BackgroundScheduler._is_within_window] *)
Definition _is_within_window (current window_start window_end : time) : bool :=
  if time_le window_start window_end
  then time_le window_start current && time_le current window_end
  else time_ge current window_start || time_le current window_end.

(** The time [trigger_sync] builds from a window string: the hour and the
    minute, [dt_time(int(parts[0]), int(parts[1]))]; a seconds part of the
    string is not read. *)
Definition trigger_window_time (parsed : time) : time :=
  mk_time (hour parsed) (minute parsed) 0 0.

(** The window check of [trigger_sync], written out in the route. *)
Definition trigger_sync_window_check (force : bool)
    (current_time window_start window_end : time) : result unit :=
  if negb force
  then
    let in_window :=
      if time_le window_start window_end
      then time_le window_start current_time && time_le current_time window_end
      else time_ge current_time window_start || time_le current_time window_end in
    if negb in_window
    then Raise (HTTPException 400 "Outside sync window. Use force=true to override.")
    else Ok tt
  else Ok tt.

(** [time.min], [time.max] and the last whole second of the day. *)
Definition midnight : time := mk_time 0 0 0 0.
Definition end_of_day : time := mk_time 23 59 59 999999.
Definition last_second : time := mk_time 23 59 59 0.

End Scheduler.

(* ================================================================== *)
(** * The dead-letter queue ([repositories/failed_record_repository.py]) *)
(* ================================================================== *)

Module FailedRecords.

(** A row of [failed_records], with the columns the retry logic reads.
    Timestamps are instants on a common clock. *)
Record failed_record := {
  uid : string;
  entity_name : string;
  stage_failed : string;
  error_type : string;
  retry_count : Z;
  max_retries : Z;
  next_retry_at : option Z;
  resolved_at : option Z;
  created_at : Z
}.

(** [ORDER BY created_at] *)
Definition created_before (a b : failed_record) : Prop := created_at a <= created_at b.

#[global] Instance created_before_dec : RelDecision created_before.
Proof. intros a b. unfold created_before. apply _. Defined.

(** The [WHERE] clause of [get_retryable_records]. *)
Definition below_max_retries (max_retries : Z) (r : failed_record) : Prop :=
  retry_count r < max_retries.

#[global] Instance below_max_retries_dec m r : Decision (below_max_retries m r).
Proof. unfold below_max_retries. apply _. Defined.

(** [FailedRecordRepository.get_retryable_records]: the statement
    [select(failed_records).where(retry_count < max_retries)
     .order_by(created_at).limit(limit)] run on the rows of the table.
    Rows created at the same instant come in an order the database is free
    to choose; here, the one the sort leaves them in. *)
Definition get_retryable_records (table : list failed_record) (max_retries : Z)
    (limit : nat) : list failed_record :=
  take limit (merge_sort created_before (filter (below_max_retries max_retries) table)).


End FailedRecords.

(* ================================================================== *)
(** * The five normalization layers ([services/normalization]) *)
(* ================================================================== *)

Module Normalization.
Import Py.

(** ** Text operations on the bytes of a string *)

Definition LF : ascii := ascii_of_N 10.
Definition CR : ascii := ascii_of_N 13.
Definition SP : ascii := ascii_of_N 32.

Definition is_empty (s : string) : bool := String.eqb s "".

(** [c in s] *)
Definition contains_char (c : ascii) (s : string) : bool :=
  existsb (Ascii.eqb c) (PyStr.chars s).

(** [s.replace(c, '')] for a one-byte character [c] *)
Definition remove_char (c : ascii) (s : string) : string :=
  PyStr.of_chars (List.filter (fun x => negb (Ascii.eqb x c)) (PyStr.chars s)).

Fixpoint starts_with (prefix l : list ascii) : bool :=
  match prefix, l with
  | [], _ => true
  | p :: prefix', x :: l' => Ascii.eqb p x && starts_with prefix' l'
  | _ :: _, [] => false
  end.

(** [s.replace(pat, '')], scanning from the left; [skip] counts the bytes
    of a match still to drop. *)
Fixpoint remove_sub_chars (pat : list ascii) (skip : nat) (l : list ascii) : list ascii :=
  match l with
  | [] => []
  | x :: rest =>
      match skip with
      | S k => remove_sub_chars pat k rest
      | O =>
          if starts_with pat l
          then remove_sub_chars pat (length pat - 1) rest
          else x :: remove_sub_chars pat 0 rest
      end
  end.

Definition remove_sub (pat : string) (s : string) : string :=
  PyStr.of_chars (remove_sub_chars (PyStr.chars pat) 0 (PyStr.chars s)).

(** Upper and lower case of an ASCII letter. *)
Definition ascii_upper (c : ascii) : ascii :=
  let n := N_of_ascii c in
  if (97 <=? n)%N && (n <=? 122)%N then ascii_of_N (n - 32) else c.

Definition ascii_lower (c : ascii) : ascii :=
  let n := N_of_ascii c in
  if (65 <=? n)%N && (n <=? 90)%N then ascii_of_N (n + 32) else c.

Definition is_ascii (s : string) : bool :=
  forallb (fun c => (N_of_ascii c <? 128)%N) (PyStr.chars s).

(** The pattern [[\x00-\x08\x0B\x0C\x0E-\x1F\x7F]] *)
Definition is_control (c : ascii) : bool :=
  let n := N_of_ascii c in
  ((n <=? 8) || (n =? 11) || (n =? 12) || (14 <=? n) && (n <=? 31) || (n =? 127))%N.

(** [value.replace('\r\n', '\n')] *)
Fixpoint crlf_to_lf (l : list ascii) : list ascii :=
  match l with
  | [] => []
  | c1 :: r1 =>
      match r1 with
      | c2 :: r2 =>
          if Ascii.eqb c1 CR && Ascii.eqb c2 LF
          then LF :: crlf_to_lf r2
          else c1 :: crlf_to_lf r1
      | [] => [c1]
      end
  end.

(** [value.replace('\r', '\n')] *)
Definition cr_to_lf (l : list ascii) : list ascii :=
  map (fun c => if Ascii.eqb c CR then LF else c) l.

(** [value.split(sep)] for a one-byte separator: at least one part. *)
Fixpoint split_on (sep : ascii) (l : list ascii) : list (list ascii) :=
  match l with
  | [] => [[]]
  | c :: rest =>
      let parts := split_on sep rest in
      if Ascii.eqb c sep then [] :: parts
      else
        match parts with
        | p :: ps => (c :: p) :: ps
        | [] => [[c]]
        end
  end.

(** [sep.join(parts)] *)
Fixpoint join_with (sep : ascii) (parts : list (list ascii)) : list ascii :=
  match parts with
  | [] => []
  | [p] => p
  | p :: rest => p ++ sep :: join_with sep rest
  end.

(** [re.sub(r'\s+', ' ', line)]: every run of white space becomes one
    space; [in_run] tells that the run under way has been written. *)
Fixpoint collapse_ws (in_run : bool) (l : list ascii) : list ascii :=
  let space := if in_run then [] else [SP] in
  match l with
  | [] => []
  | c1 :: r1 =>
      if PyStr.is_space1 c1 then space ++ collapse_ws true r1
      else
        match r1 with
        | c2 :: r2 =>
            if PyStr.is_space2 c1 c2 then space ++ collapse_ws true r2
            else
              match r2 with
              | c3 :: r3 =>
                  if PyStr.is_space3 c1 c2 c3 then space ++ collapse_ws true r3
                  else c1 :: collapse_ws false r1
              | [] => c1 :: collapse_ws false r1
              end
        | [] => c1 :: collapse_ws false r1
        end
  end.

(** [''.join(s.split())]: the string without its white space. *)
Fixpoint remove_ws (l : list ascii) : list ascii :=
  match l with
  | [] => []
  | c1 :: r1 =>
      if PyStr.is_space1 c1 then remove_ws r1
      else
        match r1 with
        | c2 :: r2 =>
            if PyStr.is_space2 c1 c2 then remove_ws r2
            else
              match r2 with
              | c3 :: r3 =>
                  if PyStr.is_space3 c1 c2 c3 then remove_ws r3
                  else c1 :: remove_ws r1
              | [] => c1 :: remove_ws r1
              end
        | [] => c1 :: remove_ws r1
        end
  end.

Definition is_alnum (c : ascii) : bool :=
  let n := N_of_ascii c in
  ((48 <=? n) && (n <=? 57) || (65 <=? n) && (n <=? 90) || (97 <=? n) && (n <=? 122))%N.

(** [re.sub(r'[^a-zA-Z0-9\s]', '', s)]: letters, digits and white space
    stay. *)
Fixpoint keep_alnum_ws (l : list ascii) : list ascii :=
  match l with
  | [] => []
  | c1 :: r1 =>
      if PyStr.is_space1 c1 || is_alnum c1 then c1 :: keep_alnum_ws r1
      else
        match r1 with
        | c2 :: r2 =>
            if PyStr.is_space2 c1 c2 then c1 :: c2 :: keep_alnum_ws r2
            else
              match r2 with
              | c3 :: r3 =>
                  if PyStr.is_space3 c1 c2 c3 then c1 :: c2 :: c3 :: keep_alnum_ws r3
                  else keep_alnum_ws r1
              | [] => keep_alnum_ws r1
              end
        | [] => keep_alnum_ws r1
        end
  end.

Definition strip_chars (l : list ascii) : list ascii :=
  rev (PyStr.lstrip_rev_chars (rev (PyStr.lstrip_chars l))).

(** ** Numbers *)

(** [x.is_integer()] *)
Definition is_integer (x : spec_float) : bool :=
  match x with
  | S754_zero _ => true
  | S754_finite _ m e => (0 <=? e) || (Z.pos m mod 2 ^ (- e) =? 0)
  | _ => false
  end.

(** [int(x)] for a finite [x]: truncation towards zero. *)
Definition int_of_float (x : spec_float) : Z :=
  match x with
  | S754_finite s m e =>
      let magnitude := if 0 <=? e then Z.pos m * 2 ^ e else Z.pos m / 2 ^ (- e) in
      if s then - magnitude else magnitude
  | _ => 0
  end.

(** [bool(v)] *)
Definition py_truthy (v : value) : bool :=
  match v with
  | VNone => false
  | VBool b => b
  | VInt z => negb (z =? 0)
  | VFloat (S754_zero _) => false
  | VFloat _ => true
  | VStr s => negb (is_empty s)
  | VList items => match items with [] => false | _ => true end
  | VDict entries => match entries with [] => false | _ => true end
  | VOther _ _ truth => truth
  end.

(** ** Library functions *)

Class NormLib := {
  (** [s.upper()] and [s.lower()] of a string that is not plain ASCII *)
  unicode_upper : string -> string;
  unicode_lower : string -> string;
  (** [s.title()], [s.capitalize()], [s.isdigit()] *)
  str_title : string -> string;
  str_capitalize : string -> string;
  str_isdigit : string -> bool;
  (** [int(s)], [float(s)]; [None] when they raise [ValueError] *)
  int_of_string : string -> option Z;
  float_of_string : string -> option spec_float;
  (** [Decimal(s)] as a value; [None] when it raises [InvalidOperation] *)
  decimal_of_string : string -> option value;
  (** [datetime.strptime(s, fmt).isoformat()]; [None] on [ValueError] *)
  strptime_iso : string -> string -> option string;
  (** [dateutil_parser.parse(s).isoformat()]; [None] when it raises *)
  dateutil_iso : string -> option string;
  (** [v.isoformat()] of a datetime or a date, [v.hex()] of bytes *)
  obj_isoformat : value -> string;
  obj_hex : value -> string
}.

Section Layers.
Context `{PyRuntime} `{NormLib}.

(** [s.upper()]: on plain ASCII, the letters in upper case. *)
Definition py_upper (s : string) : string :=
  if is_ascii s then PyStr.of_chars (map ascii_upper (PyStr.chars s)) else unicode_upper s.

Definition py_lower (s : string) : string :=
  if is_ascii s then PyStr.of_chars (map ascii_lower (PyStr.chars s)) else unicode_lower s.

Definition in_list (s : string) (l : list string) : bool := existsb (String.eqb s) l.

(** ** Layer 1: type coercion *)

Definition string_types : list string :=
  ["VARCHAR2"; "CHAR"; "CLOB"; "NVARCHAR2"; "NCHAR"; "NCLOB"].
Definition numeric_types : list string :=
  ["NUMBER"; "NUMERIC"; "DECIMAL"; "INTEGER"; "INT"; "FLOAT"].
Definition datetime_types : list string :=
  ["DATE"; "TIMESTAMP"; "TIMESTAMP WITH TIME ZONE"; "TIMESTAMP WITH LOCAL TIME ZONE"].
Definition binary_types : list string := ["RAW"; "LONG RAW"; "BLOB"].

(** The type [coerce_value] infers when the metadata gives none. *)
Definition infer_type (value : value) : string :=
  match value with
  | VStr _ => "VARCHAR2"
  | VInt _ | VBool _ | VFloat _ => "NUMBER"
  | VOther Datetime _ _ | VOther Date _ _ => "DATE"
  | _ => "VARCHAR2"
  end.

(** The handler of [coerce_value]: [str(value) if value is not None else
    None], on the value as it stands when the exception is caught. *)
Definition coerce_fallback (value : value) : Py.value := VStr (py_str value).

(** The numeric branch of [coerce_value] on a string. *)
Definition coerce_numeric_string (s : string) : value :=
  let value := remove_char "," (PyStr.strip s) in
  if is_empty value then VNone
  else
    let parsed :=
      if negb (contains_char "." value) && negb (contains_char "e" (py_lower value))
      then option_map VInt (int_of_string value)
      else option_map VFloat (float_of_string value) in
    match parsed with
    | Some v => v
    | None =>
        match decimal_of_string value with
        | Some d => d
        | None => coerce_fallback (VStr value)
        end
    end.

(** [TypeCoercionLayer.coerce_value] *)
Definition coerce_value (value : value) (oracle_type : option string) : Py.value :=
  match value with
  | VNone => VNone
  | _ =>
      let oracle_type := py_upper (default (infer_type value) oracle_type) in
      if in_list oracle_type string_types then
        if py_truthy value
        then
          let result := PyStr.strip (py_str value) in
          if is_empty result then VNone else VStr result
        else VNone
      else if in_list oracle_type numeric_types then
        match value with
        | VInt z => VInt z
        | VBool b => VInt (if b then 1 else 0)
        | VFloat x => if is_integer x then VInt (int_of_float x) else VFloat x
        | VStr s => coerce_numeric_string s
        | _ =>
            match decimal_of_string (py_str value) with
            | Some d => d
            | None => coerce_fallback value
            end
        end
      else if in_list oracle_type datetime_types then
        match value with
        | VOther Datetime _ _ | VOther Date _ _ => VStr (obj_isoformat value)
        | VStr s => VStr (PyStr.strip s)
        | _ => VStr (py_str value)
        end
      else if in_list oracle_type binary_types then
        match value with
        | VOther Bytes _ _ => VStr (obj_hex value)
        | _ => VStr (py_str value)
        end
      else if in_list oracle_type ["BOOLEAN"] then
        match value with
        | VBool b => VBool b
        | VStr s =>
            let upper := PyStr.strip (py_upper s) in
            if in_list upper ["TRUE"; "T"; "YES"; "Y"; "1"] then VBool true
            else if in_list upper ["FALSE"; "F"; "NO"; "N"; "0"] then VBool false
            else VBool (py_truthy value)
        | _ => VBool (py_truthy value)
        end
      else VStr (py_str value)
  end.

(** [TypeCoercionLayer.normalize_row] *)
Fixpoint layer_1 (items : list (string * value)) (metadata : dict string)
    (normalized : dict value) : dict value :=
  match items with
  | [] => normalized
  | (field_name, field_value) :: rest =>
      layer_1 rest metadata
        (dict_set normalized field_name
           (coerce_value field_value (dict_get metadata field_name)))
  end.

(** ** Layer 2: string normalization *)

(** [StringNormalizationLayer.normalize_string] *)
Definition normalize_string (value : string) : option string :=
  let value := strip_chars (PyStr.chars value) in
  match value with
  | [] => None
  | _ =>
      let value := List.filter (fun c => negb (is_control c)) value in
      let value := cr_to_lf (crlf_to_lf value) in
      let lines := split_on LF value in
      let normalized_lines :=
        List.filter (fun line => match line with [] => false | _ => true end)
          (map (fun line => strip_chars (collapse_ws false line)) lines) in
      match normalized_lines with
      | [] => None
      | _ =>
          let value := join_with LF normalized_lines in
          match value, strip_chars value with
          | _ :: _, [] => None
          | _, _ => Some (PyStr.of_chars value)
          end
      end
  end.

Definition normalize_string_value (field_value : value) : value :=
  match field_value with
  | VStr s =>
      match normalize_string s with
      | Some s' => VStr s'
      | None => VNone
      end
  | _ => field_value
  end.

(** [StringNormalizationLayer.normalize_row] *)
Fixpoint layer_2 (items : list (string * value)) (normalized : dict value) : dict value :=
  match items with
  | [] => normalized
  | (field_name, field_value) :: rest =>
      layer_2 rest (dict_set normalized field_name (normalize_string_value field_value))
  end.

(** ** Layer 3: numeric normalization *)

(** The parsing of [normalize_numeric] on a string. *)
Definition parse_numeric_string (s : string) : value :=
  let value := PyStr.strip s in
  if is_empty value then VNone
  else
    let value := remove_char "," value in
    let value := PyStr.strip (remove_sub "£" (remove_sub "€" (remove_char "$" value))) in
    let value :=
      match PyStr.chars value with
      | c :: rest =>
          if Ascii.eqb c "(" && (match rev rest with l :: _ => Ascii.eqb l ")" | [] => false end)
          then PyStr.of_chars ("-"%char :: removelast rest)
          else value
      | [] => value
      end in
    if contains_char "." value || contains_char "e" (py_lower value)
    then
      match float_of_string value with
      | Some num => if is_integer num then VInt (int_of_float num) else VFloat num
      | None => VNone
      end
    else
      match int_of_string value with
      | Some n => VInt n
      | None => VNone
      end.

Definition is_number (v : value) : bool :=
  match v with
  | VInt _ | VBool _ | VFloat _ | VOther Decimal _ _ => true
  | _ => false
  end.

(** [NumericNormalizationLayer.normalize_numeric] *)
Definition normalize_numeric (value : value) : Py.value :=
  match value with
  | VNone => VNone
  | VStr s => parse_numeric_string s
  | _ => if is_number value then value else VNone
  end.

(** The auto-detection test of layer 3 on a string. *)
Definition looks_numeric (s : string) : bool :=
  str_isdigit (remove_char "-" (remove_char "." (remove_char "," (PyStr.strip s)))).

Definition layer_3_value (numeric_fields : list string) (field_name : string)
    (field_value : value) : value :=
  if in_list field_name numeric_fields || is_number field_value
  then normalize_numeric field_value
  else
    match field_value with
    | VStr s => if looks_numeric s then normalize_numeric field_value else field_value
    | _ => field_value
    end.

(** [NumericNormalizationLayer.normalize_row] *)
Fixpoint layer_3 (items : list (string * value)) (numeric_fields : list string)
    (normalized : dict value) : dict value :=
  match items with
  | [] => normalized
  | (field_name, field_value) :: rest =>
      layer_3 rest numeric_fields
        (dict_set normalized field_name (layer_3_value numeric_fields field_name field_value))
  end.

(** ** Layer 4: date and time normalization *)

Definition DATE_FORMATS : list string :=
  ["%Y-%m-%d"; "%Y/%m/%d"; "%d-%m-%Y"; "%d/%m/%Y"; "%m-%d-%Y"; "%m/%d/%Y";
   "%Y%m%d"; "%d.%m.%Y"].

Definition DATETIME_FORMATS : list string :=
  ["%Y-%m-%d %H:%M:%S"; "%Y-%m-%dT%H:%M:%S"; "%Y-%m-%d %H:%M:%S.%f";
   "%Y-%m-%dT%H:%M:%S.%f"; "%d-%m-%Y %H:%M:%S"; "%m-%d-%Y %H:%M:%S"].

(** The first format of the list that parses the value. *)
Fixpoint try_formats (value : string) (formats : list string) : option string :=
  match formats with
  | [] => None
  | fmt :: rest =>
      match strptime_iso value fmt with
      | Some iso => Some iso
      | None => try_formats value rest
      end
  end.

(** [DateTimeNormalizationLayer.normalize_datetime] *)
Definition normalize_datetime (value : value) : Py.value :=
  match value with
  | VNone => VNone
  | VOther Datetime _ _ => VStr (obj_isoformat value)
  | VOther Date _ _ => VStr (obj_isoformat value +:+ "T00:00:00")
  | VStr s =>
      let value := PyStr.strip s in
      if is_empty value then VNone
      else
        match try_formats value DATETIME_FORMATS with
        | Some iso => VStr iso
        | None =>
            match try_formats value DATE_FORMATS with
            | Some iso => VStr iso
            | None =>
                match dateutil_iso value with
                | Some iso => VStr iso
                | None => VStr value
                end
            end
        end
  | _ => VStr (py_str value)
  end.

(** [s.split(sep)[0]] *)
Definition before_char (sep : ascii) (s : string) : string :=
  match split_on sep (PyStr.chars s) with
  | first :: _ => PyStr.of_chars first
  | [] => s
  end.

(** [DateTimeNormalizationLayer.normalize_date_only] *)
Definition normalize_date_only (value : value) : Py.value :=
  match normalize_datetime value with
  | VStr dt_str =>
      if contains_char "T" dt_str then VStr (before_char "T" dt_str)
      else if contains_char " " dt_str then VStr (before_char " " dt_str)
      else VStr dt_str
  | other => other
  end.

Definition layer_4_value (datetime_fields date_fields : list string)
    (field_name : string) (field_value : value) : value :=
  if in_list field_name datetime_fields then normalize_datetime field_value
  else if in_list field_name date_fields then normalize_date_only field_value
  else
    match field_value with
    | VOther Datetime _ _ | VOther Date _ _ => normalize_datetime field_value
    | _ => field_value
    end.

(** [DateTimeNormalizationLayer.normalize_row] *)
Fixpoint layer_4 (items : list (string * value)) (datetime_fields date_fields : list string)
    (normalized : dict value) : dict value :=
  match items with
  | [] => normalized
  | (field_name, field_value) :: rest =>
      layer_4 rest datetime_fields date_fields
        (dict_set normalized field_name
           (layer_4_value datetime_fields date_fields field_name field_value))
  end.

(** ** Layer 5: field mapping *)

(** One entry of [field_mappings]; an absent key reads as [None]. *)
Record mapping := {
  source_field : option string;
  target_field : option string;
  transformation : option string;
  default_value : option value;
  is_required : bool
}.

Definition truthy_str (x : option string) : bool :=
  match x with
  | Some s => negb (is_empty s)
  | None => false
  end.

(** The lookup tables [FieldMappingLayer.__init__] builds. *)
Record mapping_tables := {
  _source_to_target : dict string;
  _transformations : dict string;
  _default_values : dict value
}.

Fixpoint build_tables (mappings : list mapping) (tables : mapping_tables) : mapping_tables :=
  match mappings with
  | [] => tables
  | m :: rest =>
      if truthy_str (source_field m) && truthy_str (target_field m)
      then
        let source := default "" (source_field m) in
        let target := default "" (target_field m) in
        build_tables rest
          {| _source_to_target := dict_set (_source_to_target tables) source target;
             _transformations :=
               if truthy_str (transformation m)
               then dict_set (_transformations tables) source (default "" (transformation m))
               else _transformations tables;
             _default_values :=
               match default_value m with
               | Some d =>
                   if py_truthy d then dict_set (_default_values tables) source d
                   else _default_values tables
               | None => _default_values tables
               end |}
      else build_tables rest tables
  end.

Definition FieldMappingLayer (mappings : list mapping) : mapping_tables :=
  build_tables mappings
    {| _source_to_target := []; _transformations := []; _default_values := [] |}.

(** [FieldMappingLayer.apply_transformation] *)
Definition apply_transformation (value : value) (transformation : string) : Py.value :=
  match value with
  | VNone => VNone
  | _ =>
      let s := py_str value in
      if String.eqb transformation "uppercase" then VStr (py_upper s)
      else if String.eqb transformation "lowercase" then VStr (py_lower s)
      else if String.eqb transformation "trim" then VStr (PyStr.strip s)
      else if String.eqb transformation "title_case" then VStr (str_title s)
      else if String.eqb transformation "capitalize" then VStr (str_capitalize s)
      else if String.eqb transformation "strip_whitespace"
      then VStr (PyStr.of_chars (remove_ws (PyStr.chars s)))
      else if String.eqb transformation "remove_special_chars"
      then VStr (PyStr.of_chars (keep_alnum_ws (PyStr.chars s)))
      else value
  end.

(** The loop of [FieldMappingLayer.map_row] over [row.items()]. *)
Fixpoint map_items (tables : mapping_tables) (items : list (string * value))
    (mapped : dict value) : dict value :=
  match items with
  | [] => mapped
  | (source_field, source_value) :: rest =>
      let target_field :=
        default source_field (dict_get (_source_to_target tables) source_field) in
      let source_value :=
        match dict_get (_transformations tables) source_field with
        | Some transformation => apply_transformation source_value transformation
        | None => source_value
        end in
      let source_value :=
        match source_value, dict_get (_default_values tables) source_field with
        | VNone, Some d => d
        | _, _ => source_value
        end in
      map_items tables rest (dict_set mapped target_field source_value)
  end.

(** [FieldMappingLayer.map_row] *)
Definition map_row (tables : mapping_tables) (row : dict value) : dict value :=
  map_items tables row [].

(** ** The engine *)

Record NormalizationEngine := {
  field_mappings : list mapping;
  oracle_metadata : dict string;
  numeric_fields : list string;
  datetime_fields : list string;
  date_fields : list string
}.

(** [NormalizationEngine.normalize_row] *)
Definition normalize_row (engine : NormalizationEngine) (row : dict value) : dict value :=
  let row := layer_1 row (oracle_metadata engine) [] in
  let row := layer_2 row [] in
  let row := layer_3 row (numeric_fields engine) [] in
  let row := layer_4 row (datetime_fields engine) (date_fields engine) [] in
  map_row (FieldMappingLayer (field_mappings engine)) row.

End Layers.
End Normalization.

(* ================================================================== *)
(** * Batches and checks of the identity hashes ([identity/bk_hash.py],
      [identity/data_hash.py]) *)
(* ================================================================== *)

Module IdentityTools.
Import Py.

(** A byte of the form [10xxxxxx]: inside the UTF-8 encoding of a code
    point, not at its start. *)
Definition is_continuation_byte (c : ascii) : bool :=
  let n := N_of_ascii c in
  ((128 <=? n) && (n <? 192))%N.

(** [len(s)]: the number of code points of [s]. *)
Definition py_len (s : string) : nat :=
  length (List.filter (fun c => negb (is_continuation_byte c)) (PyStr.chars s)).

(** [int(s, 16)]; [None] when it raises [ValueError]. *)
Class IntLib := {
  int_base16 : string -> option Z
}.

Section Tools.
Context `{PyRuntime} `{HashLib} `{IntLib}.

(** The loop of [BKHashGenerator.generate_batch]: a record whose hash
    raises [ValueError] is counted and left out. *)
Fixpoint generate_batch_loop (records : list (dict value))
    (business_key_fields : list string) (entity_name : option string)
    (results : list (dict value * string)) (errors : nat)
    : result (list (dict value * string) * nat) :=
  match records with
  | [] => Ok (results, errors)
  | record :: rest =>
      match BKHash.generate record business_key_fields entity_name with
      | Ok bk_hash =>
          generate_batch_loop rest business_key_fields entity_name
            (results ++ [(record, bk_hash)]) errors
      | Raise (ValueError _) =>
          generate_batch_loop rest business_key_fields entity_name results (errors + 1)
      | Raise e => Raise e
      end
  end.

(** [BKHashGenerator.generate_batch] *)
Definition generate_batch (records : list (dict value))
    (business_key_fields : list string) (entity_name : option string)
    : result (list (dict value * string)) :=
  bind (generate_batch_loop records business_key_fields entity_name [] 0)
       (fun out => Ok out.1).

(** [BKHashGenerator.validate] *)
Definition validate (bk_hash : string) : bool :=
  if String.eqb bk_hash "" then false
  else if negb (py_len bk_hash =? 32)%nat then false
  else
    match int_base16 bk_hash with
    | Some _ => true
    | None => false
    end.

(** [DataHashGenerator.compare_data_hashes] *)
Definition compare_data_hashes (hash1 hash2 : string) : bool := String.eqb hash1 hash2.

(** [DataHashGenerator.has_data_changed] *)
Definition has_data_changed (current_row : dict value) (stored_data_hash : string)
    (exclude_fields : option (list string)) : bool :=
  let current_hash := DataHash.generate_data_hash current_row exclude_fields in
  negb (String.eqb current_hash stored_data_hash).

End Tools.
End IdentityTools.

(* ================================================================== *)
(** * More of the delta strategies ([identity/rowversion.py],
      [delta/rowversion_strategy.py], [delta/hash_strategy.py],
      [delta/engine.py]) *)
(* ================================================================== *)

Module DeltaTools.
Import Py Rowversion Delta.

Section Tools.
Context `{RowversionLib}.

(** [RowversionHandler.is_equal] *)
Definition is_equal (rv1 rv2 : option string) : bool :=
  compare_rowversions rv1 rv2 =? 0.

(** The loop of [RowversionDeltaStrategy.get_max_rowversion]. *)
Fixpoint get_max_rowversion_loop (records : list record) (max_rv : option string)
    : option string :=
  match records with
  | [] => max_rv
  | record :: rest =>
      let rv := erp_rowversion record in
      if truthy rv
      then
        match max_rv with
        | None => get_max_rowversion_loop rest rv
        | Some _ =>
            if is_newer rv max_rv
            then get_max_rowversion_loop rest rv
            else get_max_rowversion_loop rest max_rv
        end
      else get_max_rowversion_loop rest max_rv
  end.

(** [RowversionDeltaStrategy.get_max_rowversion] *)
Definition get_max_rowversion (records : list record) : option string :=
  get_max_rowversion_loop records None.

(** The loop of [HashDeltaStrategy.detect_unchanged_records]. *)
Fixpoint detect_unchanged_records_loop (incoming_records : list record)
    (stored_records_map : gmap string record) (changed_records : list record)
    : list record :=
  match incoming_records with
  | [] => changed_records
  | record :: rest =>
      let bk_hash := erp_key_hash record in
      let data_hash := erp_data_hash record in
      if negb (truthy bk_hash) || negb (truthy data_hash)
      then detect_unchanged_records_loop rest stored_records_map (changed_records ++ [record])
      else
        match stored_records_map !! default "" bk_hash with
        | None =>
            detect_unchanged_records_loop rest stored_records_map (changed_records ++ [record])
        | Some stored_record =>
            if negb (bool_decide (data_hash = erp_data_hash stored_record))
            then detect_unchanged_records_loop rest stored_records_map
                   (changed_records ++ [record])
            else detect_unchanged_records_loop rest stored_records_map changed_records
        end
  end.

(** [HashDeltaStrategy.detect_unchanged_records]: despite its name it
    returns the records that have changed. *)
Definition detect_unchanged_records (incoming_records : list record)
    (stored_records_map : gmap string record) : list record :=
  detect_unchanged_records_loop incoming_records stored_records_map [].

(** [DeltaEngine.get_actionable_records] *)
Definition get_actionable_records (categorized : categories) : list DeltaRecord :=
  insert categorized ++ update categorized ++ delete categorized.

End Tools.
End DeltaTools.

(* ================================================================== *)
(** * Resolving a failed record ([repositories/failed_record_repository.py]) *)
(* ================================================================== *)

Module FailedRecordOps.
Import FailedRecords.

(** [FailedRecordRepository.resolve_failed_record]: the statement
    [delete(failed_records).where(uid == failed_uid)] run on the rows of
    the table.  A [uid] that no row has deletes nothing and raises
    nothing. *)
Definition resolve_failed_record (table : list failed_record) (failed_uid : string)
    : list failed_record :=
  filter (fun r => uid r <> failed_uid) table.

End FailedRecordOps.

(* ================================================================== *)
(** * Parent references and business-key values
      ([orchestrator/engine.py], [identity/engine.py]) *)
(* ================================================================== *)

Module ParentRefs.
Import Py.

(** One entry of [parent_refs_config]; an absent key reads as [None]. *)
Record ref_config := {
  parent_entity : option string;
  parent_field : option string;
  child_field : option string
}.

(** [all([parent_entity, parent_field, child_field])] *)
Definition complete (c : ref_config) : bool :=
  Delta.truthy (parent_entity c) && Delta.truthy (parent_field c)
  && Delta.truthy (child_field c).

Section Stage.
Context `{PyRuntime} `{HashLib}.

(** The inner loop of [BatchOrchestrator._stage_parent_refs], over
    [parent_refs_config.items()], for one record. *)
Fixpoint parent_refs_loop (config : list (string * ref_config)) (record : dict value)
    (parent_refs : dict (option string)) : result (dict (option string)) :=
  match config with
  | [] => Ok parent_refs
  | (ref_name, ref_config) :: rest =>
      if negb (complete ref_config)
      then parent_refs_loop rest record parent_refs
      else
        let parent_entity := default "" (parent_entity ref_config) in
        let parent_field := default "" (parent_field ref_config) in
        let child_field := default "" (child_field ref_config) in
        match default VNone (dict_get record child_field) with
        | VNone => parent_refs_loop rest record (dict_set parent_refs ref_name None)
        | child_value =>
            bind (BKHash.generate [(parent_field, child_value)] [parent_field]
                    (Some parent_entity))
                 (fun parent_bk_hash =>
                    parent_refs_loop rest record
                      (dict_set parent_refs ref_name (Some parent_bk_hash)))
        end
  end.

(** The references as the record holds them: a JSON object. *)
Definition refs_value (parent_refs : dict (option string)) : value :=
  VDict (map (fun e : string * option string =>
                (e.1, match e.2 with Some h => JStr h | None => JNull end))
             parent_refs).

(** The outer loop, over the records. *)
Fixpoint enrich_loop (config : list (string * ref_config)) (records : list (dict value))
    (enriched_records : list (dict value)) : result (list (dict value)) :=
  match records with
  | [] => Ok enriched_records
  | record :: rest =>
      bind (parent_refs_loop config record []) (fun parent_refs =>
        enrich_loop config rest
          (enriched_records ++ [dict_set record "parent_refs" (refs_value parent_refs)]))
  end.

(** [BatchOrchestrator._stage_parent_refs], given the
    [parent_refs_config] of the entity ([None] when the entity has no
    configuration or none for parent references). *)
Definition _stage_parent_refs (parent_refs_config : option (list (string * ref_config)))
    (records : list (dict value)) : result (list (dict value)) :=
  match parent_refs_config with
  | None | Some [] => Ok records
  | Some config => enrich_loop config records []
  end.

(** The loop of [IdentityEngine.get_business_key_values]. *)
Fixpoint get_business_key_values_loop (business_key_fields : list string)
    (row : dict value) (bk_values : dict value) : dict value :=
  match business_key_fields with
  | [] => bk_values
  | field :: rest =>
      match dict_get row field with
      | Some v => get_business_key_values_loop rest row (dict_set bk_values field v)
      | None => get_business_key_values_loop rest row bk_values
      end
  end.

(** [IdentityEngine.get_business_key_values] *)
Definition get_business_key_values (business_key_fields : list string) (row : dict value)
    : dict value :=
  get_business_key_values_loop business_key_fields row [].

End Stage.
End ParentRefs.

(* ================================================================== *)
(** * Fetching all pages ([connector_client/client.py]) *)
(* ================================================================== *)

Module Pagination.

Section Pages.
Context {A E : Type}.

(** What [execute_api] comes back with for one page: the ["data"] of the
    response and the ["total_rows"] of its metadata ([0] when the response
    has none), or the exception it raises. *)
Inductive reply :=
  | Page (data : list A) (total_rows : Z)
  | Failure (e : E).

Inductive outcome :=
  | Returned (all_records : list A)
  | Raised (e : E).

(** [if max_pages and page > max_pages] *)
Definition past_limit (max_pages : option Z) (page : Z) : bool :=
  match max_pages with
  | Some m => negb (m =? 0) && (m <? page)
  | None => false
  end.

(** The [while True] loop of [APISmithClient.execute_api_all_pages];
    [fuel] bounds the number of iterations, and [None] tells that it ran
    out. *)
Fixpoint all_pages_loop (fuel : nat) (execute_api : Z -> reply) (max_pages : option Z)
    (page : Z) (all_records : list A) : option outcome :=
  match fuel with
  | O => None
  | S fuel' =>
      if past_limit max_pages page then Some (Returned all_records)
      else
        match execute_api page with
        | Failure e => Some (Raised e)
        | Page [] _ => Some (Returned all_records)
        | Page data total_rows =>
            let all_records := all_records ++ data in
            if total_rows <=? Z.of_nat (length all_records)
            then Some (Returned all_records)
            else all_pages_loop fuel' execute_api max_pages (page + 1) all_records
        end
  end.

(** [APISmithClient.execute_api_all_pages] *)
Definition execute_api_all_pages (fuel : nat) (execute_api : Z -> reply)
    (max_pages : option Z) : option outcome :=
  all_pages_loop fuel execute_api max_pages 1 [].

End Pages.
Arguments reply : clear implicits.
Arguments outcome : clear implicits.

End Pagination.

(* ================================================================== *)
(** * Facts about strings and dictionaries *)
(* ================================================================== *)

Module PyFacts.
Import Py.

Lemma length_app (s t : string) :
  String.length (s +:+ t) = (String.length s + String.length t)%nat.
Proof. induction s as [|c s IH]; simpl; [done|]. by rewrite <- IH. Qed.

Lemma chars_app (s t : string) :
  PyStr.chars (s +:+ t) = PyStr.chars s ++ PyStr.chars t.
Proof. induction s as [|c s IH]; simpl; [done|]. by f_equal. Qed.

Lemma hex_fixed_length (w : nat) (n : N) : String.length (PyStr.hex_fixed w n) = w.
Proof.
  revert n. induction w as [|w IH]; intros n; simpl; [done|].
  rewrite length_app, IH. simpl. lia.
Qed.

Lemma hex_digit_lower (n : N) : PyStr.is_lower_hex (PyStr.hex_digit n) = true.
Proof.
  destruct n as [|p]; [done|].
  do 4 (try destruct p as [p|p|]); done.
Qed.

Lemma forallb_chars_app (f : ascii -> bool) (s t : string) :
  forallb f (PyStr.chars (s +:+ t)) = forallb f (PyStr.chars s) && forallb f (PyStr.chars t).
Proof. by rewrite chars_app, forallb_app. Qed.

Lemma hex_fixed_lower (w : nat) (n : N) : PyStr.all_lower_hex (PyStr.hex_fixed w n) = true.
Proof.
  unfold PyStr.all_lower_hex. revert n.
  induction w as [|w IH]; intros n; simpl; [done|].
  rewrite forallb_chars_app, IH. simpl. by rewrite hex_digit_lower.
Qed.

(** ** Dictionaries *)

Lemma dict_get_Some_In {V} (d : dict V) k v : dict_get d k = Some v -> In (k, v) d.
Proof.
  induction d as [|[k' v'] d IH]; simpl; [done|].
  destruct (String.eqb_spec k k') as [->|Hne]; [intros [= ->]; by left|].
  intros Hg. right. by apply IH.
Qed.

Lemma dict_get_None_keys {V} (d : dict V) k : dict_get d k = None <-> ~ In k (keys d).
Proof.
  induction d as [|[k' v'] d IH]; simpl; [tauto|].
  destruct (String.eqb_spec k k') as [->|Hne]; [split; [done|tauto]|].
  rewrite IH. split; [intros Hn [Heq|Hin]; [congruence|tauto]|tauto].
Qed.

Lemma In_dict_get {V} (d : dict V) k v : dict_wf d -> In (k, v) d -> dict_get d k = Some v.
Proof.
  unfold dict_wf, keys.
  induction d as [|[k' v'] d IH]; simpl; [done|].
  intros Hnd [Heq|Hin].
  - injection Heq as -> ->. by rewrite String.eqb_refl.
  - apply NoDup_cons in Hnd as [Hnotin Hnd].
    destruct (String.eqb_spec k k') as [->|Hne]; [|by apply IH].
    exfalso. apply Hnotin. apply list_elem_of_In. apply in_map_iff. by exists (k', v).
Qed.

Lemma dict_wf_Permutation {V} (d d' : dict V) : Permutation d d' -> dict_wf d -> dict_wf d'.
Proof.
  unfold dict_wf, keys. intros Hp Hnd.
  by rewrite <- (Permutation_map fst Hp).
Qed.

(** Two dictionaries with the same entries, inserted in any order, answer
    every lookup alike. *)
Lemma dict_get_Permutation {V} (d d' : dict V) k :
  dict_wf d -> Permutation d d' -> dict_get d' k = dict_get d k.
Proof.
  intros Hwf Hp.
  assert (Hwf' : dict_wf d') by (by eapply dict_wf_Permutation).
  destruct (dict_get d k) as [v|] eqn:Hg.
  - apply In_dict_get; [done|]. eapply Permutation_in; [exact Hp|].
    by apply dict_get_Some_In.
  - apply dict_get_None_keys. apply dict_get_None_keys in Hg.
    intros Hin. apply Hg. unfold keys in *.
    eapply Permutation_in; [|exact Hin]. apply Permutation_map. by symmetry.
Qed.

End PyFacts.

(* ================================================================== *)
(** * Stand-ins for the library functions, to run examples *)
(* ================================================================== *)

Module Sample.
Import Py.

(** A string between double quotes. *)
Definition quoted (s : string) : string :=
  String (ascii_of_N 34) s +:+ String (ascii_of_N 34) "".

(** The examples below never render a float through [repr] or a container
    through [str], quote only plain ASCII strings, and never depend on the
    digest's value: any instance would do. *)
Definition runtime : PyRuntime :=
  {| float_repr := fun _ => "0.0";
     container_str := fun _ => "[]";
     json_quote := fun s => quoted s |}.

Definition hashes : HashLib :=
  {| xxh128_intdigest := fun s => N.of_nat (String.length s);
     blake3_intdigest := fun s => N.of_nat (String.length s) |}.

Definition is_digit (c : ascii) : bool :=
  ((48 <=? N_of_ascii c) && (N_of_ascii c <=? 57))%N.

(** The value of a non-empty run of ASCII digits. *)
Definition digits_value (l : list ascii) : option Z :=
  match l with
  | [] => None
  | _ =>
      if forallb is_digit l
      then Some (fold_left (fun acc c => 10 * acc + Z.of_N (N_of_ascii c - 48)) l 0)
      else None
  end.

Definition decimal_int (s : string) : option Z :=
  match PyStr.chars s with
  | "-"%char :: digits => Z.opp <$> digits_value digits
  | digits => digits_value digits
  end.

(** The library of the normalizer, cut down to what the examples need:
    case changes are the identity, [int] reads plain decimal numerals, and
    neither [float], [Decimal] nor the date parsers accept anything. *)
Definition library : Normalization.NormLib :=
  {| Normalization.unicode_upper := fun s => s;
     Normalization.unicode_lower := fun s => s;
     Normalization.str_title := fun s => s;
     Normalization.str_capitalize := fun s => s;
     Normalization.str_isdigit := fun s =>
       match PyStr.chars s with [] => false | l => forallb is_digit l end;
     Normalization.int_of_string := decimal_int;
     Normalization.float_of_string := fun _ => None;
     Normalization.decimal_of_string := fun _ => None;
     Normalization.strptime_iso := fun _ _ => None;
     Normalization.dateutil_iso := fun _ => None;
     Normalization.obj_isoformat := @py_str runtime;
     Normalization.obj_hex := @py_str runtime |}.

(** The value of a hexadecimal digit. *)
Definition hex_value (c : ascii) : option Z :=
  let n := Z.of_N (N_of_ascii c) in
  if (48 <=? n) && (n <=? 57) then Some (n - 48)
  else if (97 <=? n) && (n <=? 102) then Some (n - 87)
  else if (65 <=? n) && (n <=? 70) then Some (n - 55)
  else None.

Fixpoint hex_digits (l : list ascii) (acc : Z) : option Z :=
  match l with
  | [] => Some acc
  | c :: rest =>
      match hex_value c with
      | Some d => hex_digits rest (16 * acc + d)
      | None => None
      end
  end.

(** [int(s, 16)] cut down to the non-empty strings of hexadecimal digits:
    signs, prefixes, underscores and surrounding white space are not
    read. *)
Definition hex : IdentityTools.IntLib :=
  {| IdentityTools.int_base16 := fun s =>
       match PyStr.chars s with
       | [] => None
       | l => hex_digits l 0
       end |}.

End Sample.

(* ================================================================== *)
(** * Facts about the business-key hash *)
(* ================================================================== *)

Module BKHashFacts.
Import Py BKHash PyFacts.

Section Facts.
Context `{PyRuntime} `{HashLib}.

Lemma extract_key_values_ok (record : dict value) fields acc :
  Forall (fun f => bk_field_ok record f = true) fields ->
  extract_key_values record fields acc = Ok (acc ++ map (bk_pair record) fields).
Proof.
  intros Hall. revert acc.
  induction Hall as [|f fields Hf _ IH]; intros acc; simpl.
  - by rewrite app_nil_r.
  - unfold bk_field_ok in Hf. unfold bk_pair at 1.
    destruct (dict_get record f) as [v|]; [|done].
    destruct v; try done; simpl; rewrite IH, <- app_assoc; done.
Qed.

Lemma extract_key_values_raise (record : dict value) fields acc :
  Exists (fun f => bk_field_ok record f = false) fields ->
  exists msg, extract_key_values record fields acc = Raise (ValueError msg).
Proof.
  intros Hex. revert acc.
  induction fields as [|f fields IH]; intros acc; [by apply Exists_nil in Hex|].
  simpl. unfold bk_field_ok in Hex.
  destruct (dict_get record f) as [v|] eqn:Hg; [|eauto].
  destruct v; eauto;
    (apply Exists_cons in Hex as [Hf|Hrest]; [by rewrite Hg in Hf|by apply IH]).
Qed.

Lemma extract_key_values_ext (record record' : dict value) fields acc :
  (forall f, In f fields -> dict_get record' f = dict_get record f) ->
  extract_key_values record' fields acc = extract_key_values record fields acc.
Proof.
  revert acc. induction fields as [|f fields IH]; intros acc Hsame; simpl; [done|].
  rewrite (Hsame f) by (by left).
  destruct (dict_get record f) as [v|]; [|done].
  destruct v; try done; apply IH; intros; apply Hsame; by right.
Qed.

Lemma generate_ext (record record' : dict value) fields entity_name :
  (forall f, In f fields -> dict_get record' f = dict_get record f) ->
  generate record' fields entity_name = generate record fields entity_name.
Proof.
  intros Hsame. unfold generate. destruct fields as [|f fields]; [done|].
  by rewrite (extract_key_values_ext record record').
Qed.

Lemma bk_field_ok_true (record : dict value) f :
  bk_field_ok record f = true <-> exists v, dict_get record f = Some v /\ v <> VNone.
Proof.
  unfold bk_field_ok. destruct (dict_get record f) as [v|].
  - destruct v; split; try done; try (intros _; eexists; split; [done|done]).
    intros (v & [= <-] & Hv). done.
  - split; [done|]. by intros (v & ? & _).
Qed.

Lemma bk_field_ok_false (record : dict value) f :
  bk_field_ok record f = false <->
  dict_get record f = None \/ dict_get record f = Some VNone.
Proof.
  unfold bk_field_ok. destruct (dict_get record f) as [v|].
  - destruct v; split; try done; try (by right); intros [?|?]; done.
  - split; [by left|done].
Qed.

Lemma generate_ok (record : dict value) fields entity_name :
  fields <> [] ->
  Forall (fun f => bk_field_ok record f = true) fields ->
  generate record fields entity_name
  = Ok (xxh128_hexdigest (bk_canonical record fields entity_name)).
Proof.
  intros Hne Hall. unfold generate, bk_canonical.
  destruct fields as [|f fields]; [done|].
  rewrite extract_key_values_ok by done. simpl bind.
  destruct entity_name as [n|]; simpl; [|done].
  by destruct (String.eqb n "").
Qed.

(** C1.  Whenever every business-key field is present and not null,
    [generate] returns the xxHash128 [hexdigest] of the canonical string:
    the ['field=value'] pairs of exactly the configured fields, sorted and
    joined by ['|'], behind ['entity_name|'] when a name is given.  The
    digest has 32 lowercase hexadecimal characters.  The result depends on
    the record only through the values of the business-key fields, so it
    is the same for any insertion order of the record's fields. *)
Theorem generate_digest_of_canonical (record : dict value) (fields : list string)
    (entity_name : option string) :
  fields <> [] ->
  Forall (fun f => bk_field_ok record f = true) fields ->
  let pairs := map (bk_pair record) fields in
  let digest := xxh128_hexdigest (bk_canonical record fields entity_name) in
  generate record fields entity_name = Ok digest
  /\ String.length digest = 32%nat
  /\ PyStr.all_lower_hex digest = true
  /\ Sorted String.le (PyStr.sorted pairs)
  /\ Permutation (PyStr.sorted pairs) pairs
  /\ (forall record' : dict value,
        (forall f, In f fields -> dict_get record' f = dict_get record f) ->
        generate record' fields entity_name = Ok digest)
  /\ (forall record' : dict value,
        dict_wf record -> Permutation record record' ->
        generate record' fields entity_name = Ok digest).
Proof.
  intros Hne Hall pairs digest.
  assert (Hgen : generate record fields entity_name = Ok digest)
    by (by apply generate_ok).
  split_and!.
  - exact Hgen.
  - apply hex_fixed_length.
  - apply hex_fixed_lower.
  - apply Sorted_merge_sort. apply _.
  - apply merge_sort_Permutation.
  - intros record' Hsame. by rewrite (generate_ext record record').
  - intros record' Hwf Hp. rewrite (generate_ext record record'); [done|].
    intros f _. by apply dict_get_Permutation.
Qed.

(** C6.  For a non-empty field list, [generate] raises exactly when some
    business-key field is absent from the record or holds [None]; what it
    raises is a [ValueError]; otherwise it returns a hash. *)
Theorem generate_raises_iff_missing_or_null (record : dict value)
    (fields : list string) (entity_name : option string) :
  fields <> [] ->
  ((exists e, generate record fields entity_name = Raise e) <->
   Exists (fun f => dict_get record f = None \/ dict_get record f = Some VNone) fields)
  /\ (forall e, generate record fields entity_name = Raise e -> exists msg, e = ValueError msg)
  /\ (Forall (fun f => exists v, dict_get record f = Some v /\ v <> VNone) fields ->
      exists h, generate record fields entity_name = Ok h).
Proof.
  intros Hne.
  destruct (decide (Forall (fun f => bk_field_ok record f = true) fields)) as [Hall|Hnall].
  - pose proof (generate_ok record fields entity_name Hne Hall) as Hgen.
    repeat split.
    + intros [e He]. by rewrite Hgen in He.
    + intros Hex. exfalso. apply Exists_exists in Hex as (f & Hin & Hf).
      rewrite Forall_forall in Hall. apply bk_field_ok_false in Hf.
      specialize (Hall f Hin). congruence.
    + intros e He. by rewrite Hgen in He.
    + eauto.
  - apply not_Forall_Exists in Hnall; [|apply _].
    assert (Hex : Exists (fun f => bk_field_ok record f = false) fields).
    { eapply Exists_impl; [exact Hnall|]. intros f Hf. simpl in Hf.
      by destruct (bk_field_ok record f). }
    assert (Hraise : exists msg, generate record fields entity_name = Raise (ValueError msg)).
    { unfold generate. destruct fields as [|f fields]; [done|].
      destruct (extract_key_values_raise record (f :: fields) [] Hex) as [msg ->].
      by exists msg. }
    destruct Hraise as [msg Hraise].
    split_and!; [split|..].
    + intros _. eapply Exists_impl; [exact Hex|].
      intros f Hf. by apply bk_field_ok_false.
    + intros _. eauto.
    + intros e He. rewrite Hraise in He. injection He as <-. eauto.
    + intros Hall. exfalso.
      apply Exists_exists in Hex as (f & Hin & Hf).
      rewrite Forall_forall in Hall.
      apply Hall, bk_field_ok_true in Hin. congruence.
Qed.

End Facts.

(** The specification's first scenario: entity [inventory_items] with
    business key [item_id]. *)
Definition item_A : dict value := [("item_id", VStr "A"); ("qty", VInt 1)].

Example generate_item_A :
  @generate Sample.runtime Sample.hashes item_A ["item_id"] (Some "inventory_items")
  = Ok (@xxh128_hexdigest Sample.hashes "inventory_items|item_id=A").
Proof. reflexivity. Qed.

Example generate_pairs_are_sorted :
  @generate Sample.runtime Sample.hashes
    [("site", VStr "S1"); ("item", VInt 7)] ["site"; "item"] None
  = Ok (@xxh128_hexdigest Sample.hashes "item=7|site=S1").
Proof. reflexivity. Qed.

Example generate_null_key :
  @generate Sample.runtime Sample.hashes [("item_id", VNone)] ["item_id"] None
  = Raise (ValueError "Business key field 'item_id' is NULL").
Proof. reflexivity. Qed.

Example generate_missing_key :
  @generate Sample.runtime Sample.hashes item_A ["site"] None
  = Raise (ValueError "Business key field 'site' not found in record").
Proof. reflexivity. Qed.

Lemma generate_digest_of_canonical_witness :
  @generate Sample.runtime Sample.hashes item_A ["item_id"] (Some "inventory_items")
  = Ok (@xxh128_hexdigest Sample.hashes "inventory_items|item_id=A")
  /\ String.length (@xxh128_hexdigest Sample.hashes "inventory_items|item_id=A") = 32%nat.
Proof.
  pose proof (@generate_digest_of_canonical Sample.runtime Sample.hashes
                item_A ["item_id"] (Some "inventory_items")
                ltac:(discriminate) ltac:(repeat constructor)) as (Hg & Hl & _).
  split; [exact Hg|exact Hl].
Defined.

Lemma generate_raises_iff_missing_or_null_witness :
  (exists e, @generate Sample.runtime Sample.hashes item_A ["item_id"; "site"] None = Raise e)
  <-> Exists (fun f => dict_get item_A f = None \/ dict_get item_A f = Some VNone)
        ["item_id"; "site"].
Proof.
  exact (proj1 (@generate_raises_iff_missing_or_null Sample.runtime Sample.hashes
                  item_A ["item_id"; "site"] None ltac:(discriminate))).
Defined.

End BKHashFacts.

(* ================================================================== *)
(** * Facts about the data hash *)
(* ================================================================== *)

Module DataHashFacts.
Import Py DataHash PyFacts.

Lemma dict_set_fresh {V} (d : dict V) k v :
  dict_get d k = None -> dict_set d k v = d ++ [(k, v)].
Proof.
  induction d as [|[k' v'] d IH]; simpl; [done|].
  destruct (String.eqb k k'); [done|]. intros Hg. by rewrite IH.
Qed.

Lemma keys_app {V} (d1 d2 : dict V) : keys (d1 ++ d2) = keys d1 ++ keys d2.
Proof. apply map_app. Qed.

Lemma StronglySorted_filter {A} (R : relation A) (P : A -> Prop)
    `{!forall x, Decision (P x)} (l : list A) :
  StronglySorted R l -> StronglySorted R (filter P l).
Proof.
  induction 1 as [|x l Hl IH Hx]; [constructor|].
  rewrite filter_cons. destruct (decide (P x)); [|done].
  constructor; [done|].
  rewrite Forall_forall in Hx |- *. intros y Hy.
  apply list_elem_of_filter in Hy as [_ Hy]. by apply Hx.
Qed.

(** Sorting and filtering a list of strings commute. *)
Lemma sorted_filter (P : string -> Prop) `{!forall x, Decision (P x)} (l : list string) :
  filter P (PyStr.sorted l) = PyStr.sorted (filter P l).
Proof.
  unfold PyStr.sorted.
  apply (Sorted_unique String.le).
  - apply StronglySorted_Sorted, StronglySorted_filter.
    apply StronglySorted_merge_sort; apply _.
  - apply Sorted_merge_sort. apply _.
  - rewrite !merge_sort_Permutation. done.
Qed.

Lemma omap_filter_map {A B} (g : A -> option B) (d : A -> B) (l : list A) :
  (forall x b, g x = Some b -> d x = b) ->
  omap g l = map d (filter (fun x => is_Some (g x)) l).
Proof.
  intros Hd. induction l as [|x l IH]; [done|].
  rewrite filter_cons.
  change (omap g (x :: l)) with (match g x with Some y => y :: omap g l | None => omap g l end).
  destruct (g x) as [b|] eqn:Hg.
  - rewrite decide_True by eauto. simpl. by rewrite (Hd x b), IH.
  - rewrite decide_False by (by intros [? ?]). done.
Qed.

Lemma keys_filter {V} (P : string -> Prop) `{!forall x, Decision (P x)} (d : dict V) :
  keys (filter (fun e => P e.1) d) = filter P (keys d).
Proof.
  unfold keys. induction d as [|[k v] d IH]; [done|].
  rewrite filter_cons. simpl. rewrite filter_cons.
  destruct (decide (P k)); simpl; by rewrite IH.
Qed.

Lemma dict_get_filter {V} (P : string -> Prop) `{!forall x, Decision (P x)} (d : dict V) k :
  dict_get (filter (fun e => P e.1) d) k = if decide (P k) then dict_get d k else None.
Proof.
  induction d as [|[k' v] d IH]; simpl; [by destruct (decide (P k))|].
  rewrite filter_cons. simpl.
  destruct (String.eqb_spec k k') as [->|Hne].
  - destruct (decide (P k')); simpl; [by rewrite String.eqb_refl|done].
  - destruct (decide (P k')); simpl; [|done].
    destruct (String.eqb_spec k k'); [done|]. done.
Qed.

Lemma dict_get_map {V W} (h : V -> W) (d : dict V) k :
  dict_get (map (fun e => (e.1, h e.2)) d) k = h <$> dict_get d k.
Proof.
  induction d as [|[k' v] d IH]; simpl; [done|].
  by destruct (String.eqb k k').
Qed.

Section Facts.
Context `{PyRuntime} `{HashLib}.

Definition not_excluded (exclude : list string) (f : string) : Prop :=
  in_fields f exclude = false.

#[local] Instance not_excluded_dec exclude f : Decision (not_excluded exclude f).
Proof. unfold not_excluded. apply _. Defined.

Definition normalized (d : dict value) : dict (option string) :=
  map (fun e => (e.1, _normalize_value e.2)) d.

Lemma keys_normalized d : keys (normalized d) = keys d.
Proof. unfold keys, normalized. rewrite map_map. done. Qed.

Lemma normalize_fields_eq (items : dict value) exclude acc :
  NoDup (keys acc ++ keys items) ->
  normalize_fields items exclude acc
  = acc ++ normalized (filter (fun e => not_excluded exclude e.1) items).
Proof.
  revert acc. induction items as [|[f v] items IH]; intros acc Hnd; simpl.
  - by rewrite app_nil_r.
  - rewrite filter_cons. simpl.
    apply NoDup_app in Hnd as (Hacc & Hdisj & Hitems).
    apply NoDup_cons in Hitems as [Hf Hitems].
    destruct (decide (not_excluded exclude f)) as [Hex|Hex]; unfold not_excluded in Hex.
    2:{ apply not_false_iff_true in Hex. rewrite Hex. apply IH.
      apply NoDup_app. split_and!; [done| |done].
      intros x Hx Hin. apply (Hdisj x Hx). by right. }
    + rewrite Hex.
      rewrite dict_set_fresh.
      2:{ apply dict_get_None_keys. intros Hin. apply (Hdisj f).
          - by apply list_elem_of_In.
          - by left. }
      rewrite IH.
      * simpl. by rewrite <- app_assoc.
      * rewrite keys_app. simpl. rewrite <- app_assoc. simpl.
        apply NoDup_app. split_and!; [done| |].
        -- intros x Hx Hin. apply (Hdisj x Hx). done.
        -- by apply NoDup_cons.
Qed.

(** What the second loop appends for one field. *)
Definition pair_of (data_to_hash : dict (option string)) (f : string) : option string :=
  match dict_get data_to_hash f with
  | Some (Some s) => Some (f +:+ "=" +:+ s)
  | _ => None
  end.

Lemma collect_key_values_eq fields data_to_hash acc :
  collect_key_values fields data_to_hash acc = acc ++ omap (pair_of data_to_hash) fields.
Proof.
  revert acc. induction fields as [|f fields IH]; intros acc.
  - by rewrite app_nil_r.
  - change (omap (pair_of data_to_hash) (f :: fields))
      with (match pair_of data_to_hash f with
            | Some y => y :: omap (pair_of data_to_hash) fields
            | None => omap (pair_of data_to_hash) fields
            end).
    simpl. unfold pair_of at 1.
    destruct (dict_get data_to_hash f) as [[s|]|]; rewrite IH; [|done..].
    by rewrite <- app_assoc.
Qed.

(** The code computes the canonical string of the specification's shape,
    for the exclusion set and the normalization it uses. *)
Lemma canonical_eq (row : dict value) (exclude : option (list string)) :
  dict_wf row ->
  canonical row exclude
  = spec_canonical (default default_exclude_fields exclude) _normalize_value row.
Proof.
  intros Hwf. unfold canonical, spec_canonical.
  set (ex := default default_exclude_fields exclude).
  rewrite normalize_fields_eq by done. rewrite app_nil_l.
  set (D := normalized _).
  rewrite collect_key_values_eq, app_nil_l. f_equal.
  assert (HD : forall f, dict_get D f
             = if decide (not_excluded ex f)
               then _normalize_value <$> dict_get row f else None).
  { intros f. unfold D, normalized. rewrite dict_get_map.
    rewrite (dict_get_filter (not_excluded ex)).
    by destruct (decide (not_excluded ex f)). }
  unfold D at 2. rewrite keys_normalized, (keys_filter (not_excluded ex)).
  rewrite (omap_filter_map _
             (fun f => f +:+ "=" +:+ default "" (dict_get row f ≫= _normalize_value))).
  2:{ intros f b. unfold pair_of. rewrite HD.
      destruct (decide (not_excluded ex f)); [|done].
      destruct (dict_get row f) as [v|]; simpl; [|done].
      destruct (_normalize_value v); [|done]. by intros [= <-]. }
  f_equal. rewrite sorted_filter. f_equal.
  rewrite list_filter_filter. apply list_filter_iff.
  intros f. unfold pair_of. rewrite HD, andb_True, bool_decide_spec.
  destruct (decide (not_excluded ex f)) as [Hex|Hex]; unfold not_excluded in *.
  2:{ apply not_false_iff_true in Hex. rewrite Hex. simpl.
      split; [intros [Hs _]|intros [[] _]]. by apply is_Some_None in Hs. }
  rewrite Hex. simpl.
  destruct (dict_get row f) as [v|]; simpl; [destruct (_normalize_value v); simpl|];
    (split; [intros [Hs _]|intros [_ Hs]]);
    try (by apply is_Some_None in Hs); split; eauto.
Qed.

Lemma spec_canonical_ext exclusion (n1 n2 : value -> option string) (row : dict value) :
  (forall f v, dict_get row f = Some v -> in_fields f exclusion = false -> n1 v = n2 v) ->
  spec_canonical exclusion n1 row = spec_canonical exclusion n2 row.
Proof.
  intros Hagree. unfold spec_canonical.
  assert (Hr : forall f, in_fields f exclusion = false ->
                 dict_get row f ≫= n1 = dict_get row f ≫= n2).
  { intros f Hf. destruct (dict_get row f) as [v|] eqn:Hg; simpl; [|done]. eauto. }
  f_equal.
  rewrite (list_filter_iff _
    (fun f => negb (in_fields f exclusion) && bool_decide (is_Some (dict_get row f ≫= n2)))).
  2:{ intros f. destruct (in_fields f exclusion) eqn:Hex; simpl; [done|].
      by rewrite Hr. }
  apply map_ext_in. intros f Hin.
  apply (Permutation_in _ (merge_sort_Permutation _ _)) in Hin.
  apply list_elem_of_In, list_elem_of_filter in Hin as [Hk _].
  destruct (in_fields f exclusion) eqn:Hex; simpl in Hk; [done|].
  by rewrite Hr.
Qed.

Lemma normalize_agrees_off_booleans (v : value) :
  (forall b, v <> VBool b) -> _normalize_value v = claimed_normalize v.
Proof. intros Hb. destruct v; try done. by destruct (Hb b). Qed.

(** The slip of [_normalize_value]: a boolean is rendered by [str]. *)
Lemma normalize_boolean (b : bool) :
  _normalize_value (VBool b) = Some (if b then "True" else "False").
Proof. by destruct b. Qed.

(** C2, as the code has it.  For every row without a boolean among the
    hashed fields, the data hash is the BLAKE3 [hexdigest], 64 lowercase
    hexadecimal characters, of the canonical string built from all fields
    but the nine of [default_exclude_fields], sorted by name, nulls
    omitted, with reals in at most six fractional digits without trailing
    zeros, integers without a decimal point, strings trimmed and composite
    values as compact JSON with sorted keys. *)
Theorem data_hash_of_canonical (row : dict value) :
  dict_wf row ->
  (forall f b, dict_get row f = Some (VBool b) ->
               in_fields f default_exclude_fields = true) ->
  let digest :=
    blake3_hexdigest (spec_canonical default_exclude_fields claimed_normalize row) in
  generate_data_hash row None = digest
  /\ String.length digest = 64%nat
  /\ PyStr.all_lower_hex digest = true.
Proof.
  intros Hwf Hbool digest. split_and!.
  - unfold generate_data_hash, digest. f_equal.
    rewrite canonical_eq by done. simpl default.
    apply spec_canonical_ext. intros f v Hg Hex.
    apply normalize_agrees_off_booleans. intros b ->.
    specialize (Hbool f b Hg). congruence.
  - apply hex_fixed_length.
  - apply hex_fixed_lower.
Qed.

End Facts.

(** ** Rendering of reals *)

Lemma dec_fixed_length (w : nat) (n : Z) : String.length (PyStr.dec_fixed w n) = w.
Proof.
  revert n. induction w as [|w IH]; intros n; simpl; [done|].
  rewrite length_app, IH. simpl. lia.
Qed.

(** [rstrip] removes a run of the character at the end, and nothing else. *)
Lemma rstrip_chars_run (c : ascii) (l : list ascii) :
  exists k, l = PyStr.rstrip_chars c l ++ replicate k c.
Proof.
  induction l as [|x l [k IH]]; [by exists 0%nat|]. simpl.
  destruct (PyStr.rstrip_chars c l) as [|y r] eqn:Hr.
  - simpl in IH. destruct (Ascii.eqb_spec x c) as [->|Hne].
    + exists (S k). simpl. by rewrite <- IH.
    + exists k. simpl. by rewrite <- IH.
  - exists k. simpl. f_equal. exact IH.
Qed.

(** What [rstrip] leaves does not end with the character. *)
Lemma rstrip_chars_no_trailing (c : ascii) (l l' : list ascii) :
  PyStr.rstrip_chars c l <> l' ++ [c].
Proof.
  revert l'. induction l as [|x l IH]; intros l'; simpl.
  - by destruct l'.
  - destruct (PyStr.rstrip_chars c l) as [|y r] eqn:Hr.
    + destruct (Ascii.eqb_spec x c) as [->|Hne]; [by destruct l'|].
      destruct l' as [|z [|? ?]]; simpl; congruence.
    + destruct l' as [|z l']; simpl; [done|].
      intros [= -> Heq]. by apply (IH l').
Qed.

(** The specification's 10.5, and a whole number. *)
Example normalize_float_10_5 :
  @_normalize_value Sample.runtime (VFloat (S754_finite false 21 (-1))) = Some "10.5".
Proof. reflexivity. Qed.

Example normalize_float_100 :
  @_normalize_value Sample.runtime (VFloat (S754_finite false 100 0)) = Some "100".
Proof. reflexivity. Qed.

Example normalize_string :
  @_normalize_value Sample.runtime (VStr "  Widget ") = Some "Widget".
Proof. reflexivity. Qed.

Example normalize_true :
  @_normalize_value Sample.runtime (VBool true) = Some "True".
Proof. reflexivity. Qed.

Definition widget : dict value :=
  [ ("name", VStr " Widget "); ("price", VFloat (S754_finite false 21 (-1)));
    ("tags", VList [JStr "a"; JInt 1]);
    ("meta", VDict [("b", JNull); ("a", JBool true)]);
    ("note", VNone); ("uid", VStr "0195") ].

Example canonical_widget :
  @canonical Sample.runtime widget None
  = PyStr.join "|"
      [ "meta={" +:+ Sample.quoted "a" +:+ ":true," +:+ Sample.quoted "b" +:+ ":null}";
        "name=Widget"; "price=10.5";
        "tags=[" +:+ Sample.quoted "a" +:+ ",1]" ].
Proof. vm_compute. reflexivity. Qed.

Definition audited : dict value :=
  [ ("created_at_utc", VStr "2025-01-01"); ("name", VStr "w") ].

Example canonical_audited : @canonical Sample.runtime audited None = "name=w".
Proof. vm_compute. reflexivity. Qed.

(** C2 as the specification words it fails: a field named
    [created_at_utc] is outside the set of seven the specification lists,
    yet the code leaves it out of the canonical string. *)
Lemma canonical_differs_from_claimed_exclusion :
  @canonical Sample.runtime audited None
  <> spec_canonical claimed_exclusion_set (@claimed_normalize Sample.runtime) audited.
Proof. vm_compute. discriminate. Qed.

Lemma data_hash_of_canonical_witness :
  @generate_data_hash Sample.runtime Sample.hashes widget None
  = @blake3_hexdigest Sample.hashes
      (spec_canonical default_exclude_fields (@claimed_normalize Sample.runtime) widget).
Proof.
  refine (proj1 (@data_hash_of_canonical Sample.runtime Sample.hashes widget _ _)).
  - apply (bool_decide_unpack _). vm_compute. exact I.
  - intros f b Hg%dict_get_Some_In. simpl in Hg.
    repeat (destruct Hg as [Hg|Hg]; [discriminate|]). destruct Hg.
Defined.

End DataHashFacts.

(* ================================================================== *)
(** * Facts about delta detection *)
(* ================================================================== *)

Module DeltaFacts.
Import Py Rowversion Delta PyFacts.

Lemma omap_cons {A B} (f : A -> option B) (x : A) (l : list A) :
  omap f (x :: l) = match f x with Some y => y :: omap f l | None => omap f l end.
Proof. done. Qed.

Definition actionable_or_skip (dr : DeltaRecord) : Prop :=
  operation dr <> DELETE.



Lemma truthy_Some (x : option string) :
  truthy x = true -> exists s, x = Some s /\ s <> "".
Proof.
  destruct x as [s|]; [|done]. simpl. intros Hs. exists s. split; [done|].
  intros ->. done.
Qed.

Section Facts.
Context `{RowversionLib}.

Lemma detect_operation_Ok record stored use_rowversion dr :
  detect_operation record stored use_rowversion = Ok dr ->
  truthy (erp_key_hash record) = true
  /\ truthy (erp_data_hash record) = true
  /\ Some (bk_hash dr) = erp_key_hash record
  /\ dr_record dr = record
  /\ operation dr <> DELETE.
Proof.
  unfold detect_operation.
  destruct (truthy (erp_key_hash record)) eqn:Hbk; [|done].
  destruct (truthy (erp_data_hash record)) eqn:Hdh; [|done]. simpl.
  apply truthy_Some in Hbk as (bk & Hbk & _). rewrite Hbk. simpl.
  intros Hdr.
  assert (Some (bk_hash dr) = Some bk /\ dr_record dr = record /\ operation dr <> DELETE);
    [|naive_solver].
  destruct stored as [stored|]; [|by injection Hdr as <-].
  destruct (use_rowversion && _ && _).
  - destruct (_is_rowversion_newer _ _); by injection Hdr as <-.
  - destruct (negb _); [|by injection Hdr as <-].
    destruct (erp_data_hash stored); [|done]. by injection Hdr as <-.
Qed.

(** What the loop of a strategy returns: one delta record, in order, for
    each incoming record that has a business-key hash, none of them a
    DELETE. *)
Lemma detect_batch_loop_Ok incoming stored_map use_rowversion acc delta_records :
  detect_batch_loop incoming stored_map use_rowversion acc = Ok delta_records ->
  exists new_records,
    delta_records = acc ++ new_records
    /\ map bk_hash new_records = omap bk_of incoming
    /\ Forall actionable_or_skip new_records.
Proof.
  revert acc. induction incoming as [|r incoming IH]; intros acc.
  - simpl. intros [= <-]. exists []. by rewrite app_nil_r.
  - rewrite omap_cons. simpl. unfold bk_of at 1.
    destruct (truthy (erp_key_hash r)) eqn:Hbk; simpl; [|by apply IH].
    destruct (detect_operation r _ use_rowversion) as [dr|e] eqn:Hop; simpl; [|done].
    intros Hloop. apply IH in Hloop as (new & -> & Hbks & Hall).
    apply detect_operation_Ok in Hop as (_ & _ & Hbkdr & _ & Hnd).
    exists (dr :: new). rewrite <- app_assoc. split_and!; [done| |by constructor].
    simpl. rewrite <- Hbkdr. by f_equal.
Qed.

Lemma dom_build_stored_map_loop stored stored_map :
  dom (_build_stored_map_loop stored stored_map) = dom stored_map ∪ bk_hash_set stored.
Proof.
  revert stored_map. induction stored as [|r stored IH]; intros stored_map.
  - unfold bk_hash_set. simpl. by rewrite union_empty_r_L.
  - unfold bk_hash_set. rewrite omap_cons. simpl. unfold bk_of at 1.
    destruct (truthy (erp_key_hash r)) eqn:Hbk.
    + apply truthy_Some in Hbk as (bk & Hbk & _). rewrite Hbk. simpl.
      rewrite IH, dom_insert_L. unfold bk_hash_set. set_solver.
    + by rewrite IH.
Qed.

Lemma dom_build_stored_map stored : dom (_build_stored_map stored) = bk_hash_set stored.
Proof. unfold _build_stored_map. rewrite dom_build_stored_map_loop. set_solver. Qed.

Lemma create_delete_records_bk_hashes deleted stored_map :
  Forall (fun bk => bk ∈ dom stored_map) deleted ->
  map bk_hash (_create_delete_records deleted stored_map) = deleted.
Proof.
  unfold _create_delete_records.
  induction 1 as [|bk deleted Hbk _ IH]; [done|].
  apply elem_of_dom in Hbk as [st Hst].
  rewrite omap_cons, Hst. simpl. by f_equal.
Qed.

Lemma create_delete_records_operation deleted stored_map :
  Forall (has_operation DELETE) (_create_delete_records deleted stored_map).
Proof.
  unfold _create_delete_records. apply Forall_forall. intros dr Hdr.
  apply list_elem_of_omap in Hdr as (bk & _ & Hdr).
  destruct (stored_map !! bk); [|done]. by injection Hdr as <-.
Qed.

Lemma filter_app_only {A} (P : A -> Prop) `{!forall x, Decision (P x)} (l1 l2 : list A) :
  Forall (fun x => ~ P x) l1 -> Forall P l2 -> filter P (l1 ++ l2) = l2.
Proof.
  intros H1 H2. rewrite filter_app.
  replace (filter P l1) with (@nil A).
  - simpl. induction H2 as [|x l Hx _ IH]; [done|].
    rewrite filter_cons, decide_True by done. by f_equal.
  - symmetry. induction H1 as [|x l Hx _ IH]; [done|].
    by rewrite filter_cons, decide_False.
Qed.

Lemma filter_app_none {A} (P : A -> Prop) `{!forall x, Decision (P x)} (l1 l2 : list A) :
  Forall (fun x => ~ P x) l2 -> filter P (l1 ++ l2) = filter P l1.
Proof.
  intros H2. rewrite filter_app.
  replace (filter P l2) with (@nil A); [by rewrite app_nil_r|].
  symmetry. induction H2 as [|x l Hx _ IH]; [done|].
  by rewrite filter_cons, decide_False.
Qed.



Lemma build_stored_map_loop_lookup stored stored_map k r :
  _build_stored_map_loop stored stored_map !! k = Some r ->
  r ∈ stored \/ stored_map !! k = Some r.
Proof.
  revert stored_map. induction stored as [|r' stored IH]; intros stored_map; simpl.
  - by right.
  - destruct (truthy (erp_key_hash r')).
    + intros [Hin|Hl]%IH; [left; by right|].
      apply lookup_insert_Some in Hl as [[_ <-]|[_ Hl]]; [left; by left|by right].
    + intros [Hin|Hl]%IH; [left; by right|by right].
Qed.

Lemma build_stored_map_lookup stored k r :
  _build_stored_map stored !! k = Some r -> r ∈ stored.
Proof.
  intros [Hin|Hl]%build_stored_map_loop_lookup; [done|].
  by rewrite lookup_empty in Hl.
Qed.

(** The shape of every result of [detect_delta]. *)
Lemma detect_delta_Ok strategy incoming stored cat m :
  detect_delta strategy incoming stored = Ok (cat, m) ->
  exists new_records,
    map bk_hash new_records = omap bk_of incoming
    /\ Forall actionable_or_skip new_records
    /\ cat = categorize_records
              (new_records
               ++ _create_delete_records (_detect_deletes incoming stored)
                    (_build_stored_map stored))
    /\ m = get_metrics cat (_should_use_rowversion strategy incoming) incoming stored.
Proof.
  unfold detect_delta, hash_detect_batch, rowversion_detect_batch.
  set (use := _should_use_rowversion strategy incoming).
  intros Hd.
  assert (Hloop : exists drs,
             detect_batch_loop incoming (_build_stored_map stored) use [] = Ok drs
             /\ Ok (cat, m)
                = (let cz := categorize_records
                               (drs ++ _create_delete_records (_detect_deletes incoming stored)
                                         (_build_stored_map stored)) in
                   Ok (cz, get_metrics cz use incoming stored))).
  { destruct use; simpl in Hd.
    - destruct (detect_batch_loop incoming _ true []) as [drs|]; [|done]. eauto.
    - destruct (detect_batch_loop incoming _ false []) as [drs|]; [|done]. eauto. }
  destruct Hloop as (drs & Hloop & Heq). simpl in Heq. injection Heq as -> ->.
  apply detect_batch_loop_Ok in Hloop as (new & -> & Hbk & Hall).
  exists new. by rewrite app_nil_l.
Qed.

Lemma delete_records_not (op : DeltaOperation) deleted stored_map :
  op <> DELETE ->
  Forall (fun dr => ~ has_operation op dr) (_create_delete_records deleted stored_map).
Proof.
  intros Hop. eapply Forall_impl; [apply create_delete_records_operation|].
  unfold has_operation. intros dr -> ?. done.
Qed.

(** The buckets of a result, in terms of the records of the strategy and
    the DELETE records. *)
Lemma detect_delta_buckets strategy incoming stored cat m :
  detect_delta strategy incoming stored = Ok (cat, m) ->
  exists new_records,
    map bk_hash new_records = omap bk_of incoming
    /\ Forall actionable_or_skip new_records
    /\ insert cat = filter (has_operation INSERT) new_records
    /\ update cat = filter (has_operation UPDATE) new_records
    /\ skip cat = filter (has_operation SKIP) new_records
    /\ delete cat = _create_delete_records (_detect_deletes incoming stored)
                      (_build_stored_map stored).
Proof.
  intros (new & Hbk & Hall & -> & _)%detect_delta_Ok.
  exists new. unfold categorize_records. simpl.
  rewrite !filter_app_none by (by apply delete_records_not).
  rewrite filter_app_only; [done| |apply create_delete_records_operation].
  eapply Forall_impl; [exact Hall|]. done.
Qed.

Lemma detect_deletes_in_dom incoming stored :
  Forall (fun bk => bk ∈ dom (_build_stored_map stored)) (_detect_deletes incoming stored).
Proof.
  rewrite dom_build_stored_map. apply Forall_forall. intros bk Hbk.
  unfold _detect_deletes, detect_deletes in Hbk.
  apply elem_of_elements in Hbk. set_solver.
Qed.

(** The DELETE bucket holds one record per stored business-key hash that no
    incoming record has. *)
Lemma delete_bucket_is_set_difference strategy incoming stored cat m :
  detect_delta strategy incoming stored = Ok (cat, m) ->
  map bk_hash (delete cat) = elements (bk_hash_set stored ∖ bk_hash_set incoming)
  /\ Forall (has_operation DELETE) (delete cat).
Proof.
  intros (new & _ & _ & _ & _ & _ & ->)%detect_delta_buckets. split.
  - rewrite create_delete_records_bk_hashes by apply detect_deletes_in_dom. done.
  - apply create_delete_records_operation.
Qed.



(** ** Totality *)

(** A record stamped by the identity stage carries both hashes. *)
Definition stamped (r : record) : Prop :=
  truthy (erp_key_hash r) = true /\ truthy (erp_data_hash r) = true.






(** ** Strategy selection *)

(** The first incoming record carries a row-version. *)
Definition first_has_rowversion (incoming : list record) : Prop :=
  exists sample rest, incoming = sample :: rest /\ erp_rowversion sample <> None.

(** C3, as the code has it.  Under the [auto] strategy a delta run uses
    the row-version strategy exactly when there is an incoming record and
    the first one carries a non-null row-version; otherwise it uses the
    hash strategy; the metrics name the strategy that was chosen. *)
Theorem auto_samples_first_record (incoming stored : list record) :
  (_should_use_rowversion AUTO incoming = true <-> first_has_rowversion incoming)
  /\ detect_delta AUTO incoming stored
     = bind (if _should_use_rowversion AUTO incoming
             then rowversion_detect_batch incoming (_build_stored_map stored) true
             else hash_detect_batch incoming (_build_stored_map stored))
            (fun delta_records =>
               let categorized :=
                 categorize_records
                   (delta_records
                    ++ _create_delete_records (_detect_deletes incoming stored)
                         (_build_stored_map stored)) in
               Ok (categorized,
                   get_metrics categorized (_should_use_rowversion AUTO incoming)
                     incoming stored))
  /\ (forall cat m,
        detect_delta AUTO incoming stored = Ok (cat, m) ->
        strategy_used m
        = if _should_use_rowversion AUTO incoming then "rowversion" else "hash").
Proof.
  split_and!.
  - unfold first_has_rowversion. destruct incoming as [|sample rest]; simpl.
    + split; [done|]. by intros (? & ? & ? & _).
    + rewrite bool_decide_eq_true. split.
      * intros Hrv. by exists sample, rest.
      * by intros (? & ? & [= <- <-] & Hrv).
  - reflexivity.
  - intros cat m (new & _ & _ & _ & ->)%detect_delta_Ok. done.
Qed.

(** ** Row-version comparison *)

Lemma compare_rowversions_range (rv1 rv2 : option string) :
  compare_rowversions rv1 rv2 = -1 \/ compare_rowversions rv1 rv2 = 0
  \/ compare_rowversions rv1 rv2 = 1.
Proof.
  unfold compare_rowversions.
  destruct rv1 as [s1|], rv2 as [s2|]; auto.
  destruct (compare_as_datetimes s1 s2) as [c|] eqn:Hd.
  { unfold compare_as_datetimes in Hd.
    destruct (_parse_datetime s1), (_parse_datetime s2); try done.
    destruct (datetime_compare _ _) as [[]|]; try done; injection Hd as <-; auto. }
  destruct (compare_as_numbers s1 s2) as [c|] eqn:Hn.
  { unfold compare_as_numbers in Hn.
    destruct (float_of_string s1), (float_of_string s2); try done.
    repeat (destruct (SFltb _ _)); injection Hn as <-; auto. }
  unfold compare_as_strings. repeat (destruct (String.ltb _ _)); auto.
Qed.

Lemma is_newer_false (rv1 rv2 : option string) :
  is_newer rv1 rv2 = false <-> compare_rowversions rv1 rv2 <= 0.
Proof. unfold is_newer. rewrite Z.ltb_ge. done. Qed.

(** C10.  When the row-version comparison is in use, that is when it is
    enabled and both records carry a non-empty row-version, an incoming
    record whose row-version is not newer than the stored one, equal or
    older, is classified SKIP. *)
Theorem stale_rowversion_is_skipped (record stored : record) :
  stamped record ->
  truthy (erp_rowversion record) = true ->
  truthy (erp_rowversion stored) = true ->
  compare_rowversions (erp_rowversion record) (erp_rowversion stored) <= 0 ->
  exists dr,
    detect_operation record (Some stored) true = Ok dr
    /\ operation dr = SKIP
    /\ dr_record dr = record.
Proof.
  intros [Hbk Hdh] Hrv Hsrv Hcmp%is_newer_false.
  unfold detect_operation, _is_rowversion_newer.
  rewrite Hbk, Hdh, Hrv, Hsrv, Hcmp. simpl. eauto.
Qed.

End Facts.

(** ** Examples *)

(** A stand-in library that parses neither dates nor numbers, so that
    row-versions compare as strings. *)
Definition strings_only : RowversionLib :=
  {| datetime := unit;
     dateutil_parse := fun _ => None;
     datetime_compare := fun _ _ => Some Eq;
     float_of_string := fun _ => None |}.

Definition rec (bk dh : string) (rv : option string) : record :=
  {| erp_key_hash := Some bk; erp_data_hash := Some dh; erp_rowversion := rv;
     uid := None; payload := [] |}.

Definition with_rowversion : record := rec "bk-a" "dh-1" (Some "0x07D4").
Definition without_rowversion : record := rec "bk-b" "dh-2" None.
Definition stored_a : record := rec "bk-a" "dh-0" (Some "0x07D3").
Definition stored_c : record := rec "bk-c" "dh-3" None.

Example auto_on_mixed_batch :
  _should_use_rowversion AUTO [with_rowversion; without_rowversion] = true.
Proof. reflexivity. Qed.

Example auto_on_empty_batch : _should_use_rowversion AUTO [] = false.
Proof. reflexivity. Qed.

(** C3 as the specification words it fails: in a batch whose first record
    has a row-version and whose second has none, not every record carries
    a row-version, yet [auto] chooses the row-version strategy. *)
Lemma auto_ignores_later_records :
  ~ (_should_use_rowversion AUTO [with_rowversion; without_rowversion] = true
     <-> Forall (fun r => erp_rowversion r <> None) [with_rowversion; without_rowversion]).
Proof.
  intros [Hall _]. specialize (Hall eq_refl).
  apply Forall_cons in Hall as [_ Hall]. apply Forall_cons in Hall as [Hnone _].
  by apply Hnone.
Qed.

(** The specification's fifth scenario at the level of the engine: the
    stored record that no incoming record matches becomes a DELETE. *)
Example delete_for_unmatched_stored :
  match @detect_delta strings_only AUTO [with_rowversion] [stored_a; stored_c] with
  | Ok (cat, m) =>
      map operation (update cat) = [UPDATE] /\ map bk_hash (delete cat) = ["bk-c"]
      /\ strategy_used m = "rowversion"
  | Raise _ => False
  end.
Proof. vm_compute. done. Qed.


Lemma stale_rowversion_is_skipped_witness :
  exists dr,
    @detect_operation strings_only stored_a (Some with_rowversion) true = Ok dr
    /\ operation dr = SKIP.
Proof.
  destruct (@stale_rowversion_is_skipped strings_only stored_a with_rowversion)
    as (dr & Hd & Hop & _).
  - split; reflexivity.
  - reflexivity.
  - reflexivity.
  - vm_compute. discriminate.
  - exists dr. split; [exact Hd|exact Hop].
Defined.

End DeltaFacts.

(* ================================================================== *)
(** * Facts about the delta stage of the pipeline *)
(* ================================================================== *)

Module OrchestratorFacts.
Import Py Rowversion Delta Orchestrator PyFacts DeltaFacts.

Lemma In_dict_set {V} (d : dict V) k v e :
  In e (dict_set d k v) -> e = (k, v) \/ In e d.
Proof.
  induction d as [|[k' v'] d IH]; simpl; [intros [<-|[]]; auto|].
  destruct (String.eqb_spec k k') as [->|Hne]; simpl.
  - intros [<-|Hin]; auto.
  - intros [<-|Hin]; [auto|]. destruct (IH Hin); auto.
Qed.

(** Whatever [record_map] holds was in the response. *)
Lemma record_map_loop_values records record_map r :
  In r (map snd (record_map_loop records record_map)) ->
  In r records \/ In r (map snd record_map).
Proof.
  revert record_map. induction records as [|r' records IH]; intros record_map; simpl.
  - by right.
  - destruct (truthy (erp_key_hash r')).
    + intros [Hin|Hin]%IH; [left; by right|].
      apply in_map_iff in Hin as (e & <- & [->|Hin]%In_dict_set); simpl; [by left; left|].
      right. apply in_map_iff. by exists e.
    + intros [Hin|Hin]%IH; [left; by right|by right].
Qed.

Lemma elem_of_bk_hash_set (records : list record) (x : string) :
  x ∈ bk_hash_set records <->
  exists r, In r records /\ truthy (erp_key_hash r) = true /\ erp_key_hash r = Some x.
Proof.
  unfold bk_hash_set. rewrite elem_of_list_to_set, list_elem_of_omap. unfold bk_of.
  split.
  - intros (r & Hin%list_elem_of_In & Hr). exists r.
    destruct (truthy (erp_key_hash r)); [done|done].
  - intros (r & Hin%list_elem_of_In & Ht & Hr). exists r. by rewrite Ht.
Qed.

Section Facts.
Context `{RowversionLib}.

(** The stored records of the delta stage are looked up by the incoming
    hashes: a sink that answers with records it was asked for leaves no
    stored hash without an incoming record. *)
Lemma stored_within_incoming (smartplan : sink) entity (incoming : list record) :
  sink_honours_lookup smartplan ->
  bk_hash_set (map snd (get_batch_by_bk_hashes smartplan entity (omap bk_of incoming)))
  ⊆ bk_hash_set incoming.
Proof.
  intros Hsink x (r & Hin & Ht & Hr)%elem_of_bk_hash_set.
  apply record_map_loop_values in Hin as [Hin|[]].
  pose proof (Hsink _ _ _ Hin Ht) as Hreq. rewrite Hr in Hreq. simpl in Hreq.
  unfold bk_hash_set. apply elem_of_list_to_set. by apply list_elem_of_In.
Qed.

(** C5.  Stage 6 of a run never yields a DELETE, whatever the sync type
    and so for an incremental run, as long as the sink answers the batch
    lookup with records it was asked for: the stored set then lies within
    the incoming one.  DELETE records are the stored business-key hashes
    without an incoming record, and they arise in the engine when it is
    handed a stored set that reaches beyond the incoming one. *)
Theorem lookup_stage_never_deletes (smartplan : sink) (entity_name : string)
    (sync_type : sync_type) (incoming : list record) :
  sink_honours_lookup smartplan ->
  (forall cat m,
      sync_entity_delta smartplan entity_name sync_type incoming = Ok (cat, m) ->
      delete cat = [] /\ m_delete m = 0%nat)
  /\ (forall strategy stored cat m,
        detect_delta strategy incoming stored = Ok (cat, m) ->
        map bk_hash (delete cat) = elements (bk_hash_set stored ∖ bk_hash_set incoming)
        /\ Forall (has_operation DELETE) (delete cat)).
Proof.
  intros Hsink. split.
  - intros cat m Hd. unfold sync_entity_delta, _stage_delta in Hd.
    pose proof (delete_bucket_is_set_difference _ _ _ _ _ Hd) as [Hdel _].
    pose proof (stored_within_incoming smartplan entity_name incoming Hsink) as Hsub.
    apply detect_delta_Ok in Hd as (new & _ & _ & _ & ->).
    assert (Hempty : bk_hash_set (map snd (get_batch_by_bk_hashes smartplan entity_name
                                             (omap bk_of incoming)))
                     ∖ bk_hash_set incoming = ∅) by set_solver.
    rewrite Hempty, elements_empty in Hdel.
    assert (delete cat = []) as Hnil by (by destruct (delete cat)).
    simpl. by rewrite Hnil.
  - intros strategy stored cat m Hd. by eapply delete_bucket_is_set_difference.
Qed.

End Facts.

(** A sink that answers a batch lookup from the records it stores. *)
Definition sink_of (store : list record) : sink :=
  fun _ bk_hashes =>
    List.filter (fun r => existsb (String.eqb (default "" (erp_key_hash r))) bk_hashes) store.

Lemma sink_of_honours_lookup (store : list record) : sink_honours_lookup (sink_of store).
Proof.
  intros entity bks r [_ Hin]%filter_In _.
  apply existsb_exists in Hin as (bk & Hin & ->%String.eqb_eq). done.
Qed.

(** An incremental run whose fetch returned one of the two stored
    records: the other one is not looked up, and nothing is deleted. *)
Example incremental_partial_fetch :
  match @sync_entity_delta strings_only (sink_of [stored_a; stored_c]) "items"
          Incremental [with_rowversion] with
  | Ok (cat, m) => map operation (update cat) = [UPDATE] /\ delete cat = []
  | Raise _ => False
  end.
Proof. vm_compute. done. Qed.

Lemma lookup_stage_never_deletes_witness :
  exists cat m,
    @sync_entity_delta strings_only (sink_of [stored_a; stored_c]) "items"
      Incremental [with_rowversion] = Ok (cat, m)
    /\ delete cat = [] /\ m_delete m = 0%nat.
Proof.
  destruct (@sync_entity_delta strings_only (sink_of [stored_a; stored_c]) "items"
              Incremental [with_rowversion]) as [[cat m]|e] eqn:Hd.
  - exists cat, m. split; [reflexivity|].
    exact (proj1 (@lookup_stage_never_deletes strings_only (sink_of [stored_a; stored_c])
                    "items" Incremental [with_rowversion]
                    (sink_of_honours_lookup [stored_a; stored_c])) cat m Hd).
  - vm_compute in Hd. discriminate Hd.
Defined.

End OrchestratorFacts.

(* ================================================================== *)
(** * Facts about the sync window *)
(* ================================================================== *)

Module SchedulerFacts.
Import Py Scheduler.

Ltac compare_cases :=
  repeat match goal with
         | |- context [?a ?= ?b] => destruct (Z.compare_spec a b)
         | H : context [?a ?= ?b] |- _ => destruct (Z.compare_spec a b)
         end.

Lemma time_compare_antisym (a b : time) :
  time_compare a b = CompOpp (time_compare b a).
Proof.
  unfold time_compare.
  rewrite (Z.compare_antisym (hour a)), (Z.compare_antisym (minute a)),
    (Z.compare_antisym (second a)), (Z.compare_antisym (microsecond a)).
  destruct (hour a ?= hour b), (minute a ?= minute b), (second a ?= second b),
    (microsecond a ?= microsecond b); reflexivity.
Qed.

Lemma time_ge_le (a b : time) : time_ge a b = time_le b a.
Proof.
  unfold time_ge, time_le. rewrite (time_compare_antisym b a).
  by destruct (time_compare a b).
Qed.

(** Microseconds since midnight. *)
Definition micros (t : time) : Z :=
  ((hour t * 60 + minute t) * 60 + second t) * 1000000 + microsecond t.

(** On valid times the order is that of the instants of the day. *)
Lemma time_le_micros (a b : time) :
  valid a -> valid b -> (time_le a b = true <-> micros a <= micros b).
Proof.
  unfold valid, time_le, time_compare, micros.
  intros (? & ? & ? & ?) (? & ? & ? & ?).
  compare_cases; split; intros; try done; try lia.
Qed.

Lemma midnight_le (t : time) : valid t -> time_le midnight t = true.
Proof.
  intros Hv. apply time_le_micros; [unfold valid, midnight; simpl; lia|done|].
  unfold valid, micros, midnight in *. simpl. lia.
Qed.

Lemma le_end_of_day (t : time) : valid t -> time_le t end_of_day = true.
Proof.
  intros Hv. apply time_le_micros; [done|unfold valid, end_of_day; simpl; lia|].
  unfold valid, micros, end_of_day in *. simpl. lia.
Qed.

Lemma le_last_second (t : time) :
  valid t -> microsecond t = 0 -> time_le t last_second = true.
Proof.
  intros Hv Hus. apply time_le_micros; [done|unfold valid, last_second; simpl; lia|].
  unfold valid, micros, last_second in *. simpl. lia.
Qed.

(** C7.  For a window with [start <= end] the predicate holds exactly
    when [start <= now <= end]; for an overnight window, [start > end],
    exactly when [now >= start] or [now <= end], that is when [now] lies
    in [[start, end of day]] or in [[midnight, end]] (the end of the day
    being 23:59:59 for a time in whole seconds).  The window check of the
    manual trigger, when [force] is false, passes exactly when the same
    predicate holds, and always passes when [force] is true. *)
Theorem window_correctness (now window_start window_end : time) :
  (time_le window_start window_end = true ->
   (_is_within_window now window_start window_end = true
    <-> time_le window_start now = true /\ time_le now window_end = true))
  /\ (time_le window_start window_end = false ->
      (_is_within_window now window_start window_end = true
       <-> time_ge now window_start = true \/ time_le now window_end = true))
  /\ (time_le window_start window_end = false -> valid now ->
      (_is_within_window now window_start window_end = true
       <-> (time_le window_start now = true /\ time_le now end_of_day = true)
           \/ (time_le midnight now = true /\ time_le now window_end = true)))
  /\ (time_le window_start window_end = false -> valid now -> microsecond now = 0 ->
      (_is_within_window now window_start window_end = true
       <-> (time_le window_start now = true /\ time_le now last_second = true)
           \/ (time_le midnight now = true /\ time_le now window_end = true)))
  /\ (trigger_sync_window_check false now window_start window_end = Ok tt
      <-> _is_within_window now window_start window_end = true)
  /\ trigger_sync_window_check true now window_start window_end = Ok tt.
Proof.
  split_and!.
  - intros Hle. unfold _is_within_window. rewrite Hle. apply andb_true_iff.
  - intros Hle. unfold _is_within_window. rewrite Hle. apply orb_true_iff.
  - intros Hle Hv. unfold _is_within_window. rewrite Hle, orb_true_iff, time_ge_le.
    rewrite (le_end_of_day now Hv), (midnight_le now Hv). tauto.
  - intros Hle Hv Hus. unfold _is_within_window. rewrite Hle, orb_true_iff, time_ge_le.
    rewrite (le_last_second now Hv Hus), (midnight_le now Hv). tauto.
  - unfold trigger_sync_window_check, _is_within_window. simpl.
    destruct (if time_le window_start window_end then _ else _); simpl; split; done.
  - reflexivity.
Qed.

(** The specification's sixth scenario: a window from 19:00 to 07:00. *)
Definition t (h m : Z) : time := mk_time h m 0 0.

Example overnight_inside : _is_within_window (t 2 30) (t 19 0) (t 7 0) = true.
Proof. reflexivity. Qed.

Example overnight_outside : _is_within_window (t 10 0) (t 19 0) (t 7 0) = false.
Proof. reflexivity. Qed.

Example trigger_outside_window :
  trigger_sync_window_check false (t 10 0) (t 19 0) (t 7 0)
  = Raise (HTTPException 400 "Outside sync window. Use force=true to override.").
Proof. reflexivity. Qed.

Example trigger_forced : trigger_sync_window_check true (t 10 0) (t 19 0) (t 7 0) = Ok tt.
Proof. reflexivity. Qed.

Lemma window_correctness_witness :
  _is_within_window (t 2 30) (t 19 0) (t 7 0) = true
  <-> (time_le (t 19 0) (t 2 30) = true /\ time_le (t 2 30) last_second = true)
      \/ (time_le midnight (t 2 30) = true /\ time_le (t 2 30) (t 7 0) = true).
Proof.
  refine (proj1 (proj2 (proj2 (proj2 (window_correctness (t 2 30) (t 19 0) (t 7 0)))))
            _ _ _).
  - reflexivity.
  - unfold valid. simpl. lia.
  - reflexivity.
Defined.

End SchedulerFacts.

(* ================================================================== *)
(** * Facts about the dead-letter queue *)
(* ================================================================== *)

Module FailedRecordsFacts.
Import FailedRecords.

#[local] Instance created_before_trans : Transitive created_before.
Proof. intros a b c. unfold created_before. lia. Qed.

#[local] Instance created_before_total : Total created_before.
Proof. intros a b. unfold created_before. lia. Qed.






Definition row (id : string) (retries : Z) (resolved : option Z) (created : Z)
    : failed_record :=
  {| uid := id; entity_name := "items"; stage_failed := "ingest";
     error_type := "insert_error"; retry_count := retries; max_retries := 3;
     next_retry_at := None; resolved_at := resolved; created_at := created |}.

Definition resolved_row : failed_record := row "r1" 0 (Some 1700) 1000.

Example selection_in_creation_order :
  map uid (get_retryable_records
             [row "c" 1 None 30; row "a" 0 None 10; row "x" 3 None 5; row "b" 2 None 20] 3 2)
  = ["a"; "b"].
Proof. reflexivity. Qed.


End FailedRecordsFacts.

(* ================================================================== *)
(** * Facts about the normalization pipeline *)
(* ================================================================== *)

Module NormalizationFacts.
Import Py Normalization PyFacts.

(** ** White space, byte by byte *)

(** A white-space code point of two or three bytes starts the list. *)
Definition wide_ws_at (l : list ascii) : bool :=
  match l with
  | c1 :: c2 :: r2 =>
      PyStr.is_space2 c1 c2
      || match r2 with c3 :: _ => PyStr.is_space3 c1 c2 c3 | [] => false end
  | _ => false
  end.

(** A byte of the ASCII range. *)
Definition low (c : ascii) : bool := (N_of_ascii c <? 128)%N.

Ltac bytes_of H :=
  repeat first
    [ rewrite andb_true_iff in H | rewrite orb_true_iff in H
    | rewrite N.leb_le in H | rewrite N.eqb_eq in H ].

Lemma space1_low c : PyStr.is_space1 c = true -> low c = true.
Proof. unfold PyStr.is_space1, low. intros Hs. bytes_of Hs. apply N.ltb_lt. lia. Qed.

Lemma space2_high c1 c2 :
  PyStr.is_space2 c1 c2 = true -> low c1 = false /\ low c2 = false.
Proof.
  unfold PyStr.is_space2, low. intros Hs. bytes_of Hs.
  split; apply N.ltb_ge; lia.
Qed.

Lemma space3_high c1 c2 c3 :
  PyStr.is_space3 c1 c2 c3 = true -> low c1 = false /\ low c2 = false /\ low c3 = false.
Proof.
  unfold PyStr.is_space3, low. intros Hs. bytes_of Hs.
  split_and!; apply N.ltb_ge; lia.
Qed.

Lemma space2_low_l c1 c2 : low c1 = true -> PyStr.is_space2 c1 c2 = false.
Proof.
  intros Hl. destruct (PyStr.is_space2 c1 c2) eqn:Hs; [|done].
  apply space2_high in Hs as [? _]. congruence.
Qed.

Lemma space2_low_r c1 c2 : low c2 = true -> PyStr.is_space2 c1 c2 = false.
Proof.
  intros Hl. destruct (PyStr.is_space2 c1 c2) eqn:Hs; [|done].
  apply space2_high in Hs as [_ ?]. congruence.
Qed.

Lemma space3_low_1 c1 c2 c3 : low c1 = true -> PyStr.is_space3 c1 c2 c3 = false.
Proof.
  intros Hl. destruct (PyStr.is_space3 c1 c2 c3) eqn:Hs; [|done].
  apply space3_high in Hs as (? & _ & _). congruence.
Qed.

Lemma space3_low_2 c1 c2 c3 : low c2 = true -> PyStr.is_space3 c1 c2 c3 = false.
Proof.
  intros Hl. destruct (PyStr.is_space3 c1 c2 c3) eqn:Hs; [|done].
  apply space3_high in Hs as (_ & ? & _). congruence.
Qed.

Lemma space3_low_3 c1 c2 c3 : low c3 = true -> PyStr.is_space3 c1 c2 c3 = false.
Proof.
  intros Hl. destruct (PyStr.is_space3 c1 c2 c3) eqn:Hs; [|done].
  apply space3_high in Hs as (_ & _ & ?). congruence.
Qed.

Lemma low_SP : low SP = true. Proof. reflexivity. Qed.
Lemma low_LF : low LF = true. Proof. reflexivity. Qed.
Lemma space1_SP : PyStr.is_space1 SP = true. Proof. reflexivity. Qed.
Lemma space1_LF : PyStr.is_space1 LF = true. Proof. reflexivity. Qed.
Lemma space1_CR : PyStr.is_space1 CR = true. Proof. reflexivity. Qed.

Lemma wide_low_head c r : low c = true -> wide_ws_at (c :: r) = false.
Proof.
  intros Hl. destruct r as [|c2 [|c3 r]]; simpl; [done| |].
  - by rewrite space2_low_l.
  - by rewrite space2_low_l, space3_low_1.
Qed.

(** The scan does not look past a byte of the ASCII range. *)
Lemma wide_app_low l x r : low x = true -> wide_ws_at (l ++ x :: r) = wide_ws_at l.
Proof.
  intros Hl. destruct l as [|c1 [|c2 [|c3 l]]]; simpl.
  - by apply wide_low_head.
  - rewrite space2_low_r by done. destruct r; [done|]. by rewrite space3_low_2.
  - by rewrite space3_low_3.
  - done.
Qed.

Lemma wide_prefix l l' : wide_ws_at (l ++ l') = false -> wide_ws_at l = false.
Proof.
  destruct l as [|c1 [|c2 [|c3 l]]]; simpl; try done.
  intros Hw. apply orb_false_iff in Hw as [-> _]. done.
Qed.

(** ** [lstrip] and [collapse_ws] at a plain byte *)

Lemma lstrip_plain c r :
  PyStr.is_space1 c = false -> wide_ws_at (c :: r) = false ->
  PyStr.lstrip_chars (c :: r) = c :: r.
Proof.
  intros Hs Hw. simpl. rewrite Hs. destruct r as [|c2 [|c3 r]]; simpl in *; [done| |].
  - apply orb_false_iff in Hw as [-> _]. done.
  - apply orb_false_iff in Hw as [-> ->]. done.
Qed.

Lemma collapse_plain b c r :
  PyStr.is_space1 c = false -> wide_ws_at (c :: r) = false ->
  collapse_ws b (c :: r) = c :: collapse_ws false r.
Proof.
  intros Hs Hw. simpl. rewrite Hs. destruct r as [|c2 [|c3 r]]; simpl in *; [done| |].
  - apply orb_false_iff in Hw as [-> _]. done.
  - apply orb_false_iff in Hw as [-> ->]. done.
Qed.

(** [collapse_ws] with three bytes in sight. *)
Lemma collapse_three b c1 c2 c3 r :
  collapse_ws b (c1 :: c2 :: c3 :: r)
  = let space := if b then [] else [SP] in
    if PyStr.is_space1 c1 then space ++ collapse_ws true (c2 :: c3 :: r)
    else if PyStr.is_space2 c1 c2 then space ++ collapse_ws true (c3 :: r)
    else if PyStr.is_space3 c1 c2 c3 then space ++ collapse_ws true r
    else c1 :: collapse_ws false (c2 :: c3 :: r).
Proof. reflexivity. Qed.

(** The two ways [collapse_ws] can start: with a white-space code point,
    after which it goes on in a run, or with a plain byte. *)
Lemma collapse_head b c r :
  (exists k r', r = k ++ r'
                /\ collapse_ws b (c :: r) = (if b then [] else [SP]) ++ collapse_ws true r')
  \/ (PyStr.is_space1 c = false /\ wide_ws_at (c :: r) = false
      /\ collapse_ws b (c :: r) = c :: collapse_ws false r).
Proof.
  destruct (PyStr.is_space1 c) eqn:Hs.
  { left. exists [], r. split; [done|]. simpl. by rewrite Hs. }
  destruct (wide_ws_at (c :: r)) eqn:Hw.
  2:{ right. split_and!; [done..|]. by apply collapse_plain. }
  left. destruct r as [|c2 [|c3 r]]; simpl in Hw; [done| |].
  - rewrite orb_false_r in Hw. exists [c2], []. split; [done|]. simpl. by rewrite Hs, Hw.
  - destruct (PyStr.is_space2 c c2) eqn:H2.
    + exists [c2], (c3 :: r). split; [done|].
      rewrite collapse_three. cbv zeta. by rewrite Hs, H2.
    + simpl in Hw. exists [c2; c3], r. split; [done|].
      rewrite collapse_three. cbv zeta. by rewrite Hs, H2, Hw.
Qed.

(** ** Text with single separators *)

(** [text lf after l]: the white space of [l] is made of single
    separators, no two of them adjacent: spaces, and line feeds when [lf]
    is set.  [after] tells that [l] follows a separator (or starts the
    text), so that it does not start with one. *)
Inductive text (lf : bool) : bool -> list ascii -> Prop :=
  | text_nil after : text lf after []
  | text_sep s r :
      s = SP \/ (lf = true /\ s = LF) -> text lf true r -> text lf false (s :: r)
  | text_plain after c r :
      PyStr.is_space1 c = false -> wide_ws_at (c :: r) = false ->
      text lf false r -> text lf after (c :: r).

(** The last byte, if any, is not white space. *)
Definition ends_plain (l : list ascii) : Prop :=
  forall k x, l = k ++ [x] -> PyStr.is_space1 x = false.

Definition no_control (l : list ascii) : Prop :=
  Forall (fun c => is_control c = false) l.

Lemma sep_space1 lf s : s = SP \/ (lf = true /\ s = LF) -> PyStr.is_space1 s = true.
Proof. by intros [->|[_ ->]]. Qed.

Lemma sep_low lf s : s = SP \/ (lf = true /\ s = LF) -> low s = true.
Proof. by intros [->|[_ ->]]. Qed.

Lemma text_weaken lf after l : text lf after l -> text lf false l.
Proof.
  destruct 1 as [|s r Hs Hr|after c r Hc Hw Hr].
  - constructor.
  - by constructor.
  - by constructor.
Qed.

Lemma text_mono after l : text false after l -> text true after l.
Proof.
  induction 1 as [|s r Hs Hr IH|after c r Hc Hw Hr IH].
  - constructor.
  - constructor; [|done]. destruct Hs as [->|[? _]]; [by left|done].
  - by constructor.
Qed.

Lemma ends_plain_nil : ends_plain [].
Proof. intros k x Hk. by destruct k. Qed.

Lemma ends_plain_tail c l : ends_plain (c :: l) -> ends_plain l.
Proof. intros Hl k x ->. apply (Hl (c :: k) x). done. Qed.

Lemma ends_plain_cons c l : l <> [] -> ends_plain l -> ends_plain (c :: l).
Proof.
  intros Hne Hl k x Hk. destruct k as [|c' k]; simpl in Hk.
  - injection Hk as _ Hk. congruence.
  - injection Hk as _ Hk. by apply (Hl k x).
Qed.

Lemma ends_plain_single c : PyStr.is_space1 c = false -> ends_plain [c].
Proof.
  intros Hc k x Hk. destruct k as [|c' k]; simpl in Hk.
  - by injection Hk as <-.
  - injection Hk as _ Hk. by destruct k.
Qed.

Lemma ends_plain_app l1 l2 : l2 <> [] -> ends_plain l2 -> ends_plain (l1 ++ l2).
Proof.
  intros Hne Hl. induction l1 as [|c l1 IH]; [done|].
  simpl. apply ends_plain_cons; [|done]. by destruct l1, l2.
Qed.

(** *** What [collapse_ws] returns *)

Lemma wide_collapse c r :
  PyStr.is_space1 c = false -> wide_ws_at (c :: r) = false ->
  wide_ws_at (c :: collapse_ws false r) = false.
Proof.
  intros Hc Hw. destruct r as [|c2 r2]; [done|].
  destruct (collapse_head false c2 r2) as [(k & r' & _ & ->)|(H2 & Hw2 & ->)].
  { change (wide_ws_at ([c] ++ SP :: collapse_ws true r') = false).
    by rewrite wide_app_low. }
  destruct r2 as [|c3 r3].
  { simpl in *. by rewrite orb_false_r in Hw |- *. }
  simpl in Hw. apply orb_false_iff in Hw as [Hw Hw3].
  destruct (collapse_head false c3 r3) as [(k & r' & _ & ->)|(H3 & _ & ->)]; simpl.
  - by rewrite Hw, space3_low_3.
  - by rewrite Hw, Hw3.
Qed.

Lemma collapse_text_bounded n : forall l after,
  (length l <= n)%nat -> text false after (collapse_ws after l).
Proof.
  induction n as [|n IH]; intros l after Hlen.
  { destruct l; [constructor|simpl in Hlen; lia]. }
  destruct l as [|c r]; [constructor|]. simpl in Hlen.
  destruct (collapse_head after c r) as [(k & r' & Hr' & ->)|(Hc & Hw & ->)].
  - assert (length r' <= n)%nat by (subst r; rewrite List.length_app in Hlen; lia).
    destruct after; simpl.
    + by apply IH.
    + constructor; [by left|]. by apply IH.
  - constructor; [done|by apply wide_collapse|]. apply IH. lia.
Qed.

Lemma collapse_text l after : text false after (collapse_ws after l).
Proof. by apply (collapse_text_bounded (length l)). Qed.

Lemma collapse_no_control_bounded n : forall l after,
  (length l <= n)%nat -> no_control l -> no_control (collapse_ws after l).
Proof.
  unfold no_control.
  induction n as [|n IH]; intros l after Hlen Hl.
  { destruct l; [constructor|simpl in Hlen; lia]. }
  destruct l as [|c r]; [constructor|]. simpl in Hlen.
  apply Forall_cons in Hl as [Hc Hr].
  destruct (collapse_head after c r) as [(k & r' & Hr' & ->)|(_ & _ & ->)].
  - subst r. rewrite List.length_app in Hlen. apply Forall_app in Hr as [_ Hr].
    apply Forall_app. split; [by destruct after; repeat constructor|].
    apply IH; [lia|done].
  - constructor; [done|]. apply IH; [lia|done].
Qed.

Lemma collapse_no_control l after : no_control l -> no_control (collapse_ws after l).
Proof. by apply (collapse_no_control_bounded (length l)). Qed.

(** [collapse_ws] leaves such a text as it is. *)
Lemma collapse_fixed lf after l :
  text lf after l -> lf = false ->
  forall in_run, (in_run = true -> after = true) -> collapse_ws in_run l = l.
Proof.
  induction 1 as [|s r Hs Hr IH|after c r Hc Hw Hr IH]; intros -> in_run Hrun.
  - done.
  - destruct in_run; [by specialize (Hrun eq_refl)|].
    destruct Hs as [->|[? _]]; [|done].
    simpl. f_equal. by apply IH.
  - rewrite collapse_plain by done. f_equal. by apply IH.
Qed.

(** *** Stripping a text *)

Lemma lstrip_fixed lf l : text lf true l -> PyStr.lstrip_chars l = l.
Proof. inversion 1; subst; [done|]. by apply lstrip_plain. Qed.

Lemma lstrip_text lf after l :
  text lf after l ->
  text lf true (PyStr.lstrip_chars l) /\ exists k, l = k ++ PyStr.lstrip_chars l.
Proof.
  destruct 1 as [|s r Hs Hr|after c r Hc Hw Hr].
  - split; [constructor|by exists []].
  - simpl. rewrite (sep_space1 _ _ Hs), (lstrip_fixed _ _ Hr).
    split; [done|by exists [s]].
  - rewrite lstrip_plain by done. split; [by constructor|by exists []].
Qed.

(** No white-space code point of several bytes starts anywhere in a
    text. *)
Lemma text_no_wide lf after l :
  text lf after l -> forall k1 k2, l = k1 ++ k2 -> wide_ws_at k2 = false.
Proof.
  induction 1 as [|s r Hs Hr IH|after c r Hc Hw Hr IH]; intros k1 k2 Hk.
  - by destruct k1, k2.
  - destruct k1 as [|c1 k1]; simplify_eq/=.
    + apply wide_low_head. by eapply sep_low.
    + by eapply IH.
  - destruct k1 as [|c1 k1]; simplify_eq/=; [done|]. by eapply IH.
Qed.

Lemma rstrip_plain l x :
  (forall k1 k2, l ++ [x] = k1 ++ k2 -> wide_ws_at k2 = false) ->
  PyStr.is_space1 x = false ->
  PyStr.lstrip_rev_chars (rev (l ++ [x])) = rev (l ++ [x]).
Proof.
  intros Hw Hx. rewrite rev_unit.
  destruct (rev l) as [|c2 [|c3 k]] eqn:Hl; simpl; rewrite Hx; [done| |].
  - apply (f_equal (@rev ascii)) in Hl. rewrite rev_involutive in Hl. simpl in Hl. subst l.
    specialize (Hw [] [c2; x] eq_refl). simpl in Hw. rewrite orb_false_r in Hw.
    by rewrite Hw.
  - apply (f_equal (@rev ascii)) in Hl. rewrite rev_involutive in Hl. simpl in Hl. subst l.
    assert (Hw2 : wide_ws_at [c2; x] = false).
    { apply (Hw (rev k ++ [c3])). by rewrite <- !app_assoc. }
    assert (Hw3 : wide_ws_at [c3; c2; x] = false).
    { apply (Hw (rev k)). by rewrite <- !app_assoc. }
    simpl in Hw2, Hw3. rewrite orb_false_r in Hw2. apply orb_false_iff in Hw3 as [_ Hw3].
    by rewrite Hw2, Hw3.
Qed.

(** A text without its last byte. *)
Lemma text_snoc_inv lf l : forall after x,
  text lf after (l ++ [x]) ->
  text lf after l
  /\ (PyStr.is_space1 x = true -> ends_plain l /\ (after = true -> l <> [])).
Proof.
  induction l as [|a l IH]; intros after x Ht.
  - split; [constructor|]. intros Hx. split; [apply ends_plain_nil|].
    intros ->. inversion Ht; subst. congruence.
  - simpl in Ht. inversion Ht as [|s r Hs Hr|after' c r Hc Hw Hr]; subst.
    + apply IH in Hr as [Hl Hx]. split; [by constructor|].
      intros Hsp. destruct (Hx Hsp) as [He Hne]. split; [|done].
      apply ends_plain_cons; auto.
    + apply IH in Hr as [Hl Hx]. split.
      * constructor; [done| |done]. by apply (wide_prefix (a :: l) [x]).
      * intros Hsp. split; [|done]. destruct (Hx Hsp) as [He _].
        destruct l as [|a' l]; [by apply ends_plain_single|].
        by apply ends_plain_cons.
Qed.

Lemma rstrip_text lf l :
  text lf true l ->
  let stripped := rev (PyStr.lstrip_rev_chars (rev l)) in
  text lf true stripped /\ ends_plain stripped /\ exists k, l = stripped ++ k.
Proof.
  intros Ht. destruct l as [|x l _] using rev_ind.
  { simpl. split_and!; [constructor|apply ends_plain_nil|by exists []]. }
  destruct (PyStr.is_space1 x) eqn:Hx.
  - apply text_snoc_inv in Ht as [Hl Hend]. destruct (Hend Hx) as [He Hne].
    specialize (Hne eq_refl).
    rewrite rev_unit. simpl. rewrite Hx.
    destruct l as [|y l _] using rev_ind; [done|].
    rewrite rstrip_plain, rev_involutive.
    + split_and!; [done..|]. by exists [x].
    + by apply (text_no_wide _ _ _ Hl).
    + by apply (He l y).
  - rewrite rstrip_plain, rev_involutive.
    + split_and!; [done| |exists []; by rewrite app_nil_r].
      intros k y Hk. apply app_inj_tail in Hk as [_ <-]. done.
    + by apply (text_no_wide _ _ _ Ht).
    + done.
Qed.

Lemma strip_text lf after l :
  text lf after l ->
  text lf true (strip_chars l) /\ ends_plain (strip_chars l)
  /\ exists k1 k2, l = k1 ++ strip_chars l ++ k2.
Proof.
  intros Ht. apply lstrip_text in Ht as [Ht [k1 Hk1]].
  apply rstrip_text in Ht as (Hs & He & k2 & Hk2).
  split_and!; [done..|]. exists k1, k2. unfold strip_chars. by rewrite <- Hk2.
Qed.

(** Stripping leaves a text that starts and ends with a plain byte as it
    is. *)
Lemma strip_fixed lf l :
  text lf true l -> ends_plain l -> strip_chars l = l.
Proof.
  intros Ht He. unfold strip_chars. rewrite (lstrip_fixed _ _ Ht).
  destruct l as [|x l _] using rev_ind; [done|].
  rewrite rstrip_plain, rev_involutive; [done| |].
  - by apply (text_no_wide _ _ _ Ht).
  - by apply (He l x).
Qed.


(** *** The bytes of a text *)

Lemma text_bytes lf after l :
  text lf after l ->
  Forall (fun c => c = SP \/ (lf = true /\ c = LF) \/ PyStr.is_space1 c = false) l.
Proof.
  induction 1 as [|s r Hs Hr IH|after c r Hc Hw Hr IH]; constructor; tauto.
Qed.

Lemma text_no_CR lf after l : text lf after l -> ~ In CR l.
Proof.
  intros Ht Hin. apply text_bytes in Ht.
  rewrite Forall_forall in Ht. apply list_elem_of_In, Ht in Hin.
  by destruct Hin as [?|[[_ ?]|?]].
Qed.

Lemma text_no_LF after l : text false after l -> ~ In LF l.
Proof.
  intros Ht Hin. apply text_bytes in Ht.
  rewrite Forall_forall in Ht. apply list_elem_of_In, Ht in Hin.
  by destruct Hin as [?|[[? _]|?]].
Qed.

Lemma crlf_fixed l : ~ In CR l -> crlf_to_lf l = l.
Proof.
  induction l as [|c1 [|c2 r] IH]; intros Hin; [done..|].
  change (crlf_to_lf (c1 :: c2 :: r))
    with (if Ascii.eqb c1 CR && Ascii.eqb c2 LF then LF :: crlf_to_lf r
          else c1 :: crlf_to_lf (c2 :: r)).
  destruct (Ascii.eqb_spec c1 CR) as [->|_].
  { destruct Hin. by left. }
  simpl andb. cbv iota. f_equal. apply IH. intros ?. apply Hin. by right.
Qed.

Lemma cr_fixed l : ~ In CR l -> cr_to_lf l = l.
Proof.
  unfold cr_to_lf. induction l as [|c r IH]; intros Hin; [done|].
  simpl. destruct (Ascii.eqb_spec c CR) as [->|_].
  { destruct Hin. by left. }
  f_equal. apply IH. intros ?. apply Hin. by right.
Qed.

Lemma filter_control_fixed l :
  no_control l -> List.filter (fun c => negb (is_control c)) l = l.
Proof. induction 1 as [|c r Hc Hr IH]; simpl; [done|]. by rewrite Hc, IH. Qed.

Lemma filter_no_control l : no_control (List.filter (fun c => negb (is_control c)) l).
Proof.
  unfold no_control. induction l as [|c r IH]; simpl; [constructor|].
  destruct (is_control c) eqn:Hc; simpl; [done|]. by constructor.
Qed.

Lemma crlf_no_control l : no_control l -> no_control (crlf_to_lf l).
Proof.
  unfold no_control. remember (length l) as n eqn:Hn.
  assert (Hlen : (length l <= n)%nat) by lia. clear Hn. revert l Hlen.
  induction n as [|n IH]; intros [|c1 [|c2 r]] Hlen Hl; simpl in Hlen; try done; try lia.
  change (crlf_to_lf (c1 :: c2 :: r))
    with (if Ascii.eqb c1 CR && Ascii.eqb c2 LF then LF :: crlf_to_lf r
          else c1 :: crlf_to_lf (c2 :: r)).
  apply Forall_cons in Hl as [H1 Hl]. pose proof Hl as Hl'.
  apply Forall_cons in Hl' as [H2 Hr].
  destruct (Ascii.eqb c1 CR && Ascii.eqb c2 LF).
  - constructor; [done|]. apply IH; [lia|done].
  - constructor; [done|]. apply IH; [simpl; lia|done].
Qed.

Lemma cr_no_control l : no_control l -> no_control (cr_to_lf l).
Proof.
  unfold no_control, cr_to_lf. induction 1 as [|c r Hc Hr IH]; simpl; constructor; [|done].
  by destruct (Ascii.eqb c CR).
Qed.

(** *** Lines *)

Lemma split_on_line p : ~ In LF p -> split_on LF p = [p].
Proof.
  induction p as [|c p IH]; intros Hin; [done|].
  simpl. destruct (Ascii.eqb_spec c LF) as [->|_].
  { destruct Hin. by left. }
  rewrite IH; [done|]. intros ?. apply Hin. by right.
Qed.

Lemma split_on_app p rest :
  ~ In LF p -> split_on LF (p ++ LF :: rest) = p :: split_on LF rest.
Proof.
  induction p as [|c p IH]; intros Hin.
  - reflexivity.
  - simpl. destruct (Ascii.eqb_spec c LF) as [->|_].
    { destruct Hin. by left. }
    rewrite IH; [done|]. intros ?. apply Hin. by right.
Qed.

Lemma split_join ls :
  ls <> [] -> Forall (fun p => ~ In LF p) ls -> split_on LF (join_with LF ls) = ls.
Proof.
  intros Hne Hls. induction Hls as [|p ls Hp Hls IH]; [done|].
  destruct ls as [|q ls].
  - simpl. by apply split_on_line.
  - change (join_with LF (p :: q :: ls)) with (p ++ LF :: join_with LF (q :: ls)).
    rewrite split_on_app by done. f_equal. by apply IH.
Qed.

Lemma split_no_control l : no_control l -> Forall no_control (split_on LF l).
Proof.
  unfold no_control. induction 1 as [|c r Hc Hr IH]; simpl.
  { repeat constructor. }
  destruct (Ascii.eqb c LF).
  - constructor; [constructor|done].
  - destruct (split_on LF r) as [|p ps]; [repeat constructor; done|].
    apply Forall_cons in IH as [? ?]. constructor; [by constructor|done].
Qed.

(** A normalized line: single spaces between words, none at the ends. *)
Definition clean_line (l : list ascii) : Prop :=
  text false true l /\ ends_plain l /\ l <> [] /\ no_control l.

Definition nonempty (l : list ascii) : bool :=
  match l with [] => false | _ => true end.

Lemma normalized_line p :
  no_control p -> nonempty (strip_chars (collapse_ws false p)) = true ->
  clean_line (strip_chars (collapse_ws false p)).
Proof.
  intros Hp Hne.
  destruct (strip_text _ _ _ (collapse_text p false)) as (Ht & He & k1 & k2 & Hk).
  split_and!; [done..| |].
  - by destruct (strip_chars _).
  - apply (collapse_no_control _ false) in Hp. rewrite Hk in Hp.
    unfold no_control in *. rewrite !Forall_app in Hp. tauto.
Qed.

Lemma line_fixed p : clean_line p -> strip_chars (collapse_ws false p) = p.
Proof.
  intros (Ht & He & _ & _).
  rewrite (collapse_fixed _ _ _ Ht) by done. by eapply strip_fixed.
Qed.

Lemma text_app_line l : forall after rest,
  text true after l -> l <> [] -> ends_plain l -> text true true rest ->
  text true after (l ++ LF :: rest).
Proof.
  intros after rest Ht. induction Ht as [|s r Hs Hr IH|after c r Hc Hw Hr IH];
    intros Hne He Hrest; [done| |].
  - destruct r as [|c' r].
    { specialize (He [] s eq_refl). by rewrite (sep_space1 _ _ Hs) in He. }
    simpl. constructor; [done|]. apply IH; [done|by eapply ends_plain_tail|done].
  - simpl. constructor; [done| |].
    + change (wide_ws_at ((c :: r) ++ LF :: rest) = false). by rewrite wide_app_low.
    + destruct r as [|c' r].
      * simpl. constructor; [by right|done].
      * apply IH; [done|by eapply ends_plain_tail|done].
Qed.

Lemma join_lines ls :
  ls <> [] -> Forall clean_line ls ->
  let joined := join_with LF ls in
  text true true joined /\ ends_plain joined /\ joined <> [] /\ no_control joined.
Proof.
  intros Hne Hls. induction Hls as [|p ls Hp Hls IH]; [done|].
  destruct Hp as (Ht & He & Hp & Hc).
  destruct ls as [|q ls].
  { simpl. split_and!; [by apply text_mono|done..]. }
  change (join_with LF (p :: q :: ls)) with (p ++ LF :: join_with LF (q :: ls)).
  destruct IH as (Ht' & He' & Hne' & Hc'); [done|]. cbv zeta. split_and!.
  - apply text_app_line; [by apply text_mono|done..].
  - apply ends_plain_app; [done|]. by apply ends_plain_cons.
  - by destruct p.
  - apply Forall_app. split; [done|]. by constructor.
Qed.

(** *** [normalize_string] *)

Definition normalized_lines (value : list ascii) : list (list ascii) :=
  List.filter nonempty
    (map (fun l => strip_chars (collapse_ws false l))
       (split_on LF
          (cr_to_lf (crlf_to_lf (List.filter (fun c => negb (is_control c)) value))))).

Lemma normalize_string_lines s :
  normalize_string s =
  match strip_chars (PyStr.chars s) with
  | [] => None
  | value =>
      match normalized_lines value with
      | [] => None
      | lines =>
          match join_with LF lines, strip_chars (join_with LF lines) with
          | _ :: _, [] => None
          | _, _ => Some (PyStr.of_chars (join_with LF lines))
          end
      end
  end.
Proof.
  unfold normalize_string, normalized_lines, nonempty. cbv zeta.
  destruct (strip_chars (PyStr.chars s)); [done|].
  destruct (List.filter _ _); [done|].
  by destruct (join_with _ _).
Qed.

Lemma normalized_lines_are_lines value : Forall clean_line (normalized_lines value).
Proof.
  unfold normalized_lines.
  set (cleaned := cr_to_lf _).
  assert (Hc : no_control cleaned).
  { apply cr_no_control, crlf_no_control, filter_no_control. }
  apply split_no_control in Hc. revert Hc.
  generalize (split_on LF cleaned). intros parts Hparts.
  induction Hparts as [|p parts Hp Hparts IH]; simpl; [constructor|].
  destruct (nonempty (strip_chars (collapse_ws false p))) eqn:Hne; [|done].
  constructor; [|done]. by apply normalized_line.
Qed.

Lemma normalized_lines_fixed ls :
  ls <> [] -> Forall clean_line ls -> normalized_lines (join_with LF ls) = ls.
Proof.
  intros Hne Hls. destruct (join_lines ls Hne Hls) as (Ht & He & _ & Hc).
  unfold normalized_lines.
  rewrite filter_control_fixed by done.
  rewrite crlf_fixed by (by eapply text_no_CR).
  rewrite cr_fixed by (by eapply text_no_CR).
  rewrite split_join; [|done|].
  2:{ eapply Forall_impl; [exact Hls|]. intros p (Hp & _). by eapply text_no_LF. }
  clear Hne Ht He Hc. induction Hls as [|p ls Hp Hls IH]; [done|].
  simpl. rewrite (line_fixed _ Hp), IH.
  destruct Hp as (_ & _ & Hp & _). by destruct p.
Qed.

Lemma chars_of_chars l : PyStr.chars (PyStr.of_chars l) = l.
Proof. apply list_ascii_of_string_of_list_ascii. Qed.

Lemma of_chars_chars s : PyStr.of_chars (PyStr.chars s) = s.
Proof. apply string_of_list_ascii_of_string. Qed.

(** What [normalize_string] returns is a text that it leaves as it is. *)
Lemma normalize_string_result s r :
  normalize_string s = Some r ->
  exists ls, ls <> [] /\ Forall clean_line ls /\ r = PyStr.of_chars (join_with LF ls).
Proof.
  rewrite normalize_string_lines. intros Hs.
  destruct (strip_chars (PyStr.chars s)) as [|c value]; [done|].
  pose proof (normalized_lines_are_lines (c :: value)) as Hls.
  destruct (normalized_lines (c :: value)) as [|p ls] eqn:Hlines; [done|].
  exists (p :: ls). split_and!; [done..|].
  cbv zeta in Hs. destruct (join_with LF (p :: ls)); [congruence|].
  destruct (strip_chars _); congruence.
Qed.

Lemma normalize_string_joined ls :
  ls <> [] -> Forall clean_line ls ->
  let r := PyStr.of_chars (join_with LF ls) in
  r <> "" /\ PyStr.strip r = r /\ normalize_string r = Some r.
Proof.
  intros Hne Hls. destruct (join_lines ls Hne Hls) as (Ht & He & Hj & Hc).
  pose proof (strip_fixed _ _ Ht He) as Hstrip. cbv zeta. split_and!.
  - intros Hr. apply (f_equal PyStr.chars) in Hr. by rewrite chars_of_chars in Hr.
  - unfold PyStr.strip. rewrite chars_of_chars.
    fold (strip_chars (join_with LF ls)). by rewrite Hstrip.
  - rewrite normalize_string_lines, chars_of_chars, Hstrip.
    destruct (join_with LF ls) as [|c j] eqn:Hjoin; [done|].
    rewrite <- Hjoin, (normalized_lines_fixed ls) by done.
    destruct ls as [|p ls']; [done|].
    cbv zeta. rewrite Hjoin. cbv beta iota. by rewrite Hstrip.
Qed.

Lemma normalize_string_fixed s r :
  normalize_string s = Some r ->
  r <> "" /\ PyStr.strip r = r /\ normalize_string r = Some r.
Proof.
  intros Hs. apply normalize_string_result in Hs as (ls & Hne & Hls & ->).
  by apply normalize_string_joined.
Qed.

(** ** The layers as maps over the entries *)

(** The loop every layer runs: each entry is written to the new dictionary
    under its own key. *)
Definition rebuild (g : string -> value -> value) (items : list (string * value))
    (normalized : dict value) : dict value :=
  fold_left (fun acc e => dict_set acc e.1 (g e.1 e.2)) items normalized.

Definition map_values (g : string -> value -> value) (d : dict value) : dict value :=
  map (fun e => (e.1, g e.1 e.2)) d.

Lemma keys_map_values g d : keys (map_values g d) = keys d.
Proof. unfold keys, map_values. rewrite map_map. done. Qed.

Lemma map_values_compose g1 g2 d :
  map_values g2 (map_values g1 d) = map_values (fun k v => g2 k (g1 k v)) d.
Proof. unfold map_values. rewrite map_map. done. Qed.


Lemma rebuild_eq g items : forall acc,
  NoDup (keys acc ++ keys items) -> rebuild g items acc = acc ++ map_values g items.
Proof.
  induction items as [|[k v] items IH]; intros acc Hnd; simpl.
  - by rewrite app_nil_r.
  - apply NoDup_app in Hnd as (Hacc & Hdisj & Hitems).
    apply NoDup_cons in Hitems as [Hk Hitems].
    rewrite DataHashFacts.dict_set_fresh.
    2:{ apply dict_get_None_keys. intros Hin. apply (Hdisj k).
        - by apply list_elem_of_In.
        - by left. }
    rewrite IH.
    + by rewrite <- app_assoc.
    + rewrite DataHashFacts.keys_app. simpl. rewrite <- app_assoc. simpl.
      apply NoDup_app. split_and!; [done| |by apply NoDup_cons].
      intros x Hx Hin. by apply (Hdisj x Hx).
Qed.

Lemma rebuild_wf g row : dict_wf row -> rebuild g row [] = map_values g row.
Proof. intros Hwf. by rewrite rebuild_eq. Qed.

Section Facts.
Context `{PyRuntime} `{NormLib}.

Lemma layer_1_rebuild items metadata acc :
  layer_1 items metadata acc
  = rebuild (fun k v => coerce_value v (dict_get metadata k)) items acc.
Proof. revert acc. induction items as [|[k v] items IH]; intros acc; simpl; [done|]. apply IH. Qed.

Lemma layer_2_rebuild items acc :
  layer_2 items acc = rebuild (fun _ v => normalize_string_value v) items acc.
Proof. revert acc. induction items as [|[k v] items IH]; intros acc; simpl; [done|]. apply IH. Qed.

Lemma layer_3_rebuild items numeric acc :
  layer_3 items numeric acc = rebuild (layer_3_value numeric) items acc.
Proof. revert acc. induction items as [|[k v] items IH]; intros acc; simpl; [done|]. apply IH. Qed.

Lemma layer_4_rebuild items datetimes dates acc :
  layer_4 items datetimes dates acc = rebuild (layer_4_value datetimes dates) items acc.
Proof. revert acc. induction items as [|[k v] items IH]; intros acc; simpl; [done|]. apply IH. Qed.

(** Without mappings layer 5 copies the row. *)
Lemma map_items_unmapped items acc :
  map_items (FieldMappingLayer []) items acc = rebuild (fun _ v => v) items acc.
Proof.
  revert acc. induction items as [|[k v] items IH]; intros acc; simpl; [done|].
  rewrite IH. by destruct v.
Qed.



(** ** The values the pipeline returns *)



Lemma coerce_bool b : coerce_value (VBool b) None = VInt (if b then 1 else 0).
Proof. reflexivity. Qed.
















(** ** Field mappings are applied on every pass *)

(** Two mappings in a chain: [a] is renamed to [b], and [b] to [c]. *)
Definition rename (source target : string) : mapping :=
  {| source_field := Some source; target_field := Some target;
     transformation := None; default_value := None; is_required := false |}.

Definition renaming : NormalizationEngine :=
  {| field_mappings := [rename "a" "b"; rename "b" "c"];
     oracle_metadata := []; numeric_fields := [];
     datetime_fields := []; date_fields := [] |}.

Example renamed_once : normalize_row renaming [("a", VInt 1)] = [("b", VInt 1)].
Proof. reflexivity. Qed.

Example renamed_twice : normalize_row renaming [("b", VInt 1)] = [("c", VInt 1)].
Proof. reflexivity. Qed.

End Facts.

(** ** Examples *)

Definition quantities : NormalizationEngine :=
  {| field_mappings := []; oracle_metadata := []; numeric_fields := ["qty"];
     datetime_fields := []; date_fields := [] |}.

Definition TAB : string := String (ascii_of_N 9) "".

Definition part : dict value :=
  [("name", VStr ("  Widget " +:+ TAB +:+ "  A  "));
   ("qty", VStr "1,000");
   ("price", VFloat (S754_finite false 5 (-1)));
   ("size", VFloat (S754_finite false 3 0));
   ("active", VBool true);
   ("note", VStr "   ")].

Example part_normalized :
  @normalize_row Sample.runtime Sample.library quantities part
  = [("name", VStr "Widget A");
     ("qty", VInt 1000);
     ("price", VFloat (S754_finite false 5 (-1)));
     ("size", VInt 3);
     ("active", VInt 1);
     ("note", VNone)].
Proof. vm_compute. reflexivity. Qed.



End NormalizationFacts.

(* ================================================================== *)
(** * Facts about the batches and checks of the identity hashes *)
(* ================================================================== *)

Module IdentityToolsFacts.
Import Py BKHash DataHash IdentityTools PyFacts.

(** Plain ASCII has one byte per code point. *)
Lemma py_len_ascii s :
  forallb (fun c => (N_of_ascii c <? 128)%N) (PyStr.chars s) = true ->
  py_len s = String.length s.
Proof.
  unfold py_len, PyStr.chars. induction s as [|c s IH]; [done|].
  intros Hs. apply andb_true_iff in Hs as [Hc Hs]. apply N.ltb_lt in Hc.
  assert (Hcont : is_continuation_byte c = false).
  { unfold is_continuation_byte.
    replace (128 <=? N_of_ascii c)%N with false by (symmetry; apply N.leb_gt; lia).
    done. }
  change (list_ascii_of_string (String c s)) with (c :: list_ascii_of_string s).
  cbn [List.filter]. rewrite Hcont. simpl. by rewrite IH.
Qed.

Lemma lower_hex_is_ascii s :
  PyStr.all_lower_hex s = true ->
  forallb (fun c => (N_of_ascii c <? 128)%N) (PyStr.chars s) = true.
Proof.
  unfold PyStr.all_lower_hex. rewrite !forallb_forall. intros Hs c Hc.
  specialize (Hs c Hc). unfold PyStr.is_lower_hex in Hs. apply N.ltb_lt.
  apply orb_true_iff in Hs as [Hd|Hd]; apply andb_true_iff in Hd as [_ Hd];
    apply N.leb_le in Hd; lia.
Qed.

Section Facts.
Context `{PyRuntime} `{HashLib} `{IntLib}.

(** The business key of the record is usable: every field is there and
    is not null. *)
Definition usable (fields : list string) (record : dict value) : Prop :=
  Forall (fun f => bk_field_ok record f = true) fields.

#[local] Instance usable_dec fields record : Decision (usable fields record).
Proof. unfold usable. apply _. Defined.

Lemma generate_unusable record fields entity_name :
  ~ usable fields record ->
  exists msg, generate record fields entity_name = Raise (ValueError msg).
Proof.
  intros Hnot. apply not_Forall_Exists in Hnot; [|apply _].
  assert (Hex : Exists (fun f => bk_field_ok record f = false) fields).
  { eapply Exists_impl; [exact Hnot|]. intros f Hf. simpl in Hf.
    by destruct (bk_field_ok record f). }
  unfold generate. destruct fields as [|f fields]; [by apply Exists_nil in Hex|].
  destruct (BKHashFacts.extract_key_values_raise record (f :: fields) [] Hex) as [msg ->].
  by exists msg.
Qed.

Lemma generate_batch_loop_eq records fields entity_name :
  fields <> [] ->
  forall results errors,
  exists errors',
    generate_batch_loop records fields entity_name results errors
    = Ok (results
          ++ map (fun r => (r, xxh128_hexdigest (bk_canonical r fields entity_name)))
                 (filter (usable fields) records),
          errors')
    /\ (errors' = errors + length records - length (filter (usable fields) records))%nat.
Proof.
  intros Hne. induction records as [|r records IH]; intros results errors; simpl.
  - exists errors. rewrite app_nil_r. split; [done|lia].
  - rewrite filter_cons. destruct (decide (usable fields r)) as [Hok|Hbad].
    + rewrite (BKHashFacts.generate_ok r fields entity_name Hne Hok).
      destruct (IH (results ++ [(r, xxh128_hexdigest (bk_canonical r fields entity_name))])
                  errors) as (e' & -> & He').
      exists e'. simpl. rewrite <- app_assoc. split; [done|].
      pose proof (length_filter (usable fields) records). lia.
    + destruct (generate_unusable r fields entity_name Hbad) as [msg ->].
      destruct (IH results (errors + 1)%nat) as (e' & -> & He').
      exists e'. split; [done|].
      pose proof (length_filter (usable fields) records). lia.
Qed.

Lemma generate_batch_loop_no_fields records entity_name :
  forall results errors,
    generate_batch_loop records [] entity_name results errors
    = Ok (results, (errors + length records)%nat).
Proof.
  induction records as [|r records IH]; intros results errors; simpl.
  - by rewrite Nat.add_0_r.
  - rewrite IH. do 2 f_equal. lia.
Qed.

(** X1.  [generate_batch] never raises.  It returns, in the order of the input,
    the records whose business key is usable, each with its hash; the
    other records are left out.  With an empty list of business-key fields
    every record fails, and the result is empty. *)
Theorem generate_batch_keeps_usable_records (records : list (dict value))
    (fields : list string) (entity_name : option string) :
  (fields <> [] ->
   generate_batch records fields entity_name
   = Ok (map (fun r => (r, xxh128_hexdigest (bk_canonical r fields entity_name)))
             (filter (usable fields) records)))
  /\ generate_batch records [] entity_name = Ok [].
Proof.
  split.
  - intros Hne. unfold generate_batch.
    destruct (generate_batch_loop_eq records fields entity_name Hne [] 0%nat)
      as (e' & -> & _).
    done.
  - unfold generate_batch. by rewrite generate_batch_loop_no_fields.
Qed.

Lemma validate_hexdigest (c : string) :
  (forall s, s <> "" -> PyStr.all_lower_hex s = true -> is_Some (int_base16 s)) ->
  validate (xxh128_hexdigest c) = true.
Proof.
  intros Hint.
  pose proof (hex_fixed_length 32 (xxh128_intdigest c)) as Hlen.
  pose proof (hex_fixed_lower 32 (xxh128_intdigest c)) as Hlow.
  fold (xxh128_hexdigest c) in Hlen, Hlow.
  assert (Hne : xxh128_hexdigest c <> "").
  { intros Heq. rewrite Heq in Hlen. done. }
  unfold validate.
  destruct (String.eqb_spec (xxh128_hexdigest c) ""); [done|].
  rewrite (py_len_ascii _ (lower_hex_is_ascii _ Hlow)), Hlen. simpl.
  by destruct (Hint _ Hne Hlow) as [z ->].
Qed.

(** X2.  What passes [validate] has 32 code points and is read by
    [int(s, 16)].  Every hash that [generate] returns passes it, as long
    as [int(s, 16)] reads the non-empty strings of lowercase hexadecimal
    digits, as Python's does. *)
Theorem generated_hash_validates (record : dict value) (fields : list string)
    (entity_name : option string) (bk_hash : string) :
  (forall s, validate s = true -> py_len s = 32%nat /\ is_Some (int_base16 s))
  /\ ((forall s, s <> "" -> PyStr.all_lower_hex s = true -> is_Some (int_base16 s)) ->
      generate record fields entity_name = Ok bk_hash ->
      validate bk_hash = true).
Proof.
  split.
  - intros s. unfold validate. destruct (String.eqb s ""); [done|].
    destruct (Nat.eqb_spec (py_len s) 32); simpl; [|done].
    destruct (int_base16 s); [|done]. eauto.
  - intros Hint Hgen.
    assert (Hhash : exists c, bk_hash = xxh128_hexdigest c).
    { unfold generate in Hgen. destruct fields as [|f fields]; [done|].
      destruct (extract_key_values record (f :: fields) []) as [kv|e]; [|done].
      simpl in Hgen. injection Hgen as <-. eauto. }
    destruct Hhash as [c ->]. by apply validate_hexdigest.
Qed.

(** ** The data hash and the content of a row *)

Lemma rendered_in_keys (n : value -> option string) (row : dict value) f :
  is_Some (dict_get row f ≫= n) -> f ∈ keys row.
Proof.
  intros Hs. destruct (dict_get row f) as [v|] eqn:Hg.
  - apply dict_get_Some_In in Hg. apply list_elem_of_In.
    unfold keys. by apply (in_map fst) in Hg.
  - simpl in Hs. by apply is_Some_None in Hs.
Qed.

(** Two rows that render alike outside the exclusion set have the same
    canonical string. *)
Lemma spec_canonical_same_content exclusion (n : value -> option string)
    (row row' : dict value) :
  dict_wf row -> dict_wf row' ->
  (forall f, in_fields f exclusion = false ->
             dict_get row' f ≫= n = dict_get row f ≫= n) ->
  spec_canonical exclusion n row' = spec_canonical exclusion n row.
Proof.
  intros Hwf Hwf' Hsame. unfold spec_canonical. cbv zeta.
  pose (kept := fun (r : dict value) f =>
                  negb (in_fields f exclusion)
                  && bool_decide (is_Some (dict_get r f ≫= n))).
  change (PyStr.join "|"
            (map (fun f => f +:+ "=" +:+ default "" (dict_get row' f ≫= n))
               (PyStr.sorted (filter (fun f => kept row' f) (keys row'))))
          = PyStr.join "|"
              (map (fun f => f +:+ "=" +:+ default "" (dict_get row f ≫= n))
                 (PyStr.sorted (filter (fun f => kept row f) (keys row))))).
  assert (Hkept : forall f, kept row' f = kept row f).
  { intros f. unfold kept. destruct (in_fields f exclusion) eqn:Hex; [done|].
    by rewrite Hsame. }
  assert (Hin : forall r f, kept r f -> in_fields f exclusion = false /\ f ∈ keys r).
  { intros r f Hk. unfold kept in Hk. apply andb_True in Hk as [Hex Hs].
    apply bool_decide_spec in Hs. apply negb_True, Is_true_false in Hex.
    split; [done|]. by eapply rendered_in_keys. }
  assert (Hsorted : PyStr.sorted (filter (fun f => kept row' f) (keys row'))
                    = PyStr.sorted (filter (fun f => kept row f) (keys row))).
  { unfold PyStr.sorted. apply (Sorted_unique String.le).
    - apply Sorted_merge_sort. apply _.
    - apply Sorted_merge_sort. apply _.
    - rewrite !merge_sort_Permutation.
      apply NoDup_Permutation; [by apply NoDup_filter..|].
      intros f. rewrite !list_elem_of_filter, Hkept.
      split; intros [Hk _]; (split; [done|]).
      + by apply Hin.
      + rewrite <- Hkept in Hk. by apply Hin. }
  rewrite Hsorted. f_equal. apply map_ext_in. intros f Hf.
  apply (Permutation_in _ (merge_sort_Permutation _ _)) in Hf.
  apply list_elem_of_In, list_elem_of_filter in Hf as [Hk _].
  apply Hin in Hk as [Hex _]. by rewrite Hsame.
Qed.

(** X3.  A row is not reported as changed against the hash of a row with the
    same content: the same normalized value for every field outside the
    exclusion set, a null counting as an absent field.  So the order of
    the fields, the excluded fields and null-valued fields do not make a
    row count as changed. *)
Theorem has_data_changed_same_content (row row' : dict value)
    (exclude_fields : option (list string)) :
  dict_wf row -> dict_wf row' ->
  (forall f, in_fields f (default default_exclude_fields exclude_fields) = false ->
             dict_get row' f ≫= _normalize_value = dict_get row f ≫= _normalize_value) ->
  has_data_changed row' (generate_data_hash row exclude_fields) exclude_fields = false.
Proof.
  intros Hwf Hwf' Hsame. unfold has_data_changed, generate_data_hash.
  rewrite !DataHashFacts.canonical_eq by done.
  rewrite (spec_canonical_same_content _ _ row row') by done.
  by rewrite String.eqb_refl.
Qed.

End Facts.

(** ** Examples *)

Lemma hex_digits_lower l : forall acc,
  forallb PyStr.is_lower_hex l = true -> is_Some (Sample.hex_digits l acc).
Proof.
  induction l as [|c l IH]; intros acc Hl; simpl; [eauto|].
  simpl in Hl. apply andb_true_iff in Hl as [Hc Hl].
  assert (Hv : is_Some (Sample.hex_value c)).
  { unfold Sample.hex_value, PyStr.is_lower_hex in *. cbv zeta in *.
    set (n := N_of_ascii c) in *.
    destruct ((48 <=? Z.of_N n) && (Z.of_N n <=? 57)) eqn:Hdig; [eauto|].
    destruct ((97 <=? Z.of_N n) && (Z.of_N n <=? 102)) eqn:Hlow; [eauto|].
    exfalso. apply andb_false_iff in Hdig, Hlow. rewrite !Z.leb_gt in Hdig, Hlow.
    apply orb_true_iff in Hc as [Hd|Hd]; apply andb_true_iff in Hd as [Hd1 Hd2];
      apply N.leb_le in Hd1, Hd2; lia. }
  destruct Hv as [d ->]. by apply IH.
Qed.

Lemma hex_reads_lower_hex (s : string) :
  s <> "" -> PyStr.all_lower_hex s = true -> is_Some (@int_base16 Sample.hex s).
Proof.
  intros Hne Hs. unfold PyStr.all_lower_hex in Hs.
  unfold int_base16, Sample.hex.
  destruct (PyStr.chars s) as [|c l] eqn:Hchars.
  - destruct s; [done|discriminate Hchars].
  - by apply (hex_digits_lower (c :: l)).
Qed.

Example generate_batch_without_fields :
  @generate_batch Sample.runtime Sample.hashes [BKHashFacts.item_A] [] None = Ok [].
Proof. reflexivity. Qed.

Example validate_rejects_short : @validate Sample.hex "abc123" = false.
Proof. reflexivity. Qed.

Lemma generate_batch_keeps_usable_records_witness :
  @generate_batch Sample.runtime Sample.hashes
    [BKHashFacts.item_A; [("qty", VInt 2)]; [("item_id", VNone)]]
    ["item_id"] (Some "inventory_items")
  = Ok [(BKHashFacts.item_A,
         @xxh128_hexdigest Sample.hashes "inventory_items|item_id=A")].
Proof.
  rewrite (proj1 (@generate_batch_keeps_usable_records Sample.runtime Sample.hashes
                    [BKHashFacts.item_A; [("qty", VInt 2)]; [("item_id", VNone)]]
                    ["item_id"] (Some "inventory_items"))).
  - reflexivity.
  - discriminate.
Defined.

Lemma generated_hash_validates_witness :
  @validate Sample.hex (@xxh128_hexdigest Sample.hashes "inventory_items|item_id=A") = true.
Proof.
  apply (proj2 (@generated_hash_validates Sample.runtime Sample.hashes Sample.hex
                  BKHashFacts.item_A ["item_id"] (Some "inventory_items") _)).
  - apply hex_reads_lower_hex.
  - reflexivity.
Defined.

Definition widget_before : dict value :=
  [("name", VStr "Widget"); ("qty", VInt 1); ("updated_at", VStr "2025-01-01")].

Definition widget_after : dict value :=
  [("updated_at", VStr "2025-02-02"); ("note", VNone); ("qty", VInt 1);
   ("name", VStr " Widget ")].

Lemma has_data_changed_same_content_witness :
  @has_data_changed Sample.runtime Sample.hashes widget_after
    (@generate_data_hash Sample.runtime Sample.hashes widget_before None) None
  = false.
Proof.
  apply (@has_data_changed_same_content Sample.runtime Sample.hashes).
  - unfold dict_wf. simpl. apply NoDup_ListNoDup. repeat constructor; set_solver.
  - unfold dict_wf. simpl. apply NoDup_ListNoDup. repeat constructor; set_solver.
  - intros f Hf. simpl in Hf |- *. revert Hf.
    repeat match goal with
           | |- context [(f =? ?k)%string] => destruct (String.eqb_spec f k) as [->|?]
           end; first [discriminate | reflexivity].
Defined.

End IdentityToolsFacts.

(* ================================================================== *)
(** * More facts about the delta strategies *)
(* ================================================================== *)

Module DeltaToolsFacts.
Import Py Rowversion Delta DeltaTools PyFacts DeltaFacts.

Section Facts.
Context `{RowversionLib}.

(** ** The newest row-version of a batch *)






(** ** Changed records and the hash comparison *)

(** The hash comparison of [detect_operation] classifies the record as
    SKIP. *)
Definition skipped_by_hash (stored_records_map : gmap string record) (r : record) : bool :=
  match detect_operation r (stored_records_map !! default "" (erp_key_hash r)) false with
  | Ok dr => bool_decide (operation dr = SKIP)
  | Raise _ => false
  end.

Lemma skipped_by_hash_eq stored_records_map r :
  skipped_by_hash stored_records_map r
  = truthy (erp_key_hash r) && truthy (erp_data_hash r)
    && match stored_records_map !! default "" (erp_key_hash r) with
       | Some stored => bool_decide (erp_data_hash r = erp_data_hash stored)
       | None => false
       end.
Proof.
  unfold skipped_by_hash, detect_operation.
  destruct (truthy (erp_key_hash r)); [|done].
  destruct (truthy (erp_data_hash r)); [|done]. simpl.
  destruct (stored_records_map !! _) as [stored|]; [|done].
  destruct (bool_decide (erp_data_hash r = erp_data_hash stored)); simpl; [done|].
  by destruct (erp_data_hash stored).
Qed.

Lemma detect_unchanged_records_loop_eq incoming stored_records_map : forall changed,
  detect_unchanged_records_loop incoming stored_records_map changed
  = changed ++ filter (fun r => skipped_by_hash stored_records_map r = false) incoming.
Proof.
  induction incoming as [|r incoming IH]; intros changed; simpl.
  - by rewrite app_nil_r.
  - rewrite filter_cons, skipped_by_hash_eq.
    destruct (truthy (erp_key_hash r)); simpl.
    2:{ rewrite IH, <- app_assoc. done. }
    destruct (truthy (erp_data_hash r)); simpl.
    2:{ rewrite IH, <- app_assoc. done. }
    destruct (stored_records_map !! _) as [stored|]; simpl.
    2:{ rewrite IH, <- app_assoc. done. }
    destruct (bool_decide (erp_data_hash r = erp_data_hash stored)); simpl.
    + by rewrite IH.
    + rewrite IH, <- app_assoc. done.
Qed.

(** X5.  [detect_unchanged_records] keeps, in their order, the incoming
    records that the hash strategy does not classify SKIP: the new ones,
    those whose data hash differs from the stored one, and those without
    identity; it drops exactly the records classified SKIP. *)
Theorem detect_unchanged_records_drops_skips (incoming : list record)
    (stored_records_map : gmap string record) :
  detect_unchanged_records incoming stored_records_map
  = filter (fun r => skipped_by_hash stored_records_map r = false) incoming.
Proof. unfold detect_unchanged_records. by rewrite detect_unchanged_records_loop_eq. Qed.

(** ** Actionable records *)

Lemma filter_not_skip_Permutation (l : list DeltaRecord) :
  filter (has_operation INSERT) l ++ filter (has_operation UPDATE) l
  ++ filter (has_operation DELETE) l
  ≡ₚ filter (fun dr => operation dr <> SKIP) l.
Proof.
  induction l as [|dr l IH]; [done|].
  rewrite !filter_cons.
  destruct (decide (has_operation INSERT dr)) as [Hi|Hi],
           (decide (has_operation UPDATE dr)) as [Hu|Hu],
           (decide (has_operation DELETE dr)) as [Hd|Hd],
           (decide (operation dr <> SKIP)) as [Hs|Hs];
    unfold has_operation in *; simpl; try congruence;
    try (exfalso; apply Hs; congruence).
  - by f_equiv.
  - rewrite <- IH. symmetry. apply Permutation_middle.
  - rewrite <- IH, !app_assoc. symmetry. apply Permutation_middle.
  - destruct (operation dr); congruence.
Qed.

(** X6.  The actionable records of a categorized batch are its records other
    than the SKIP ones, each once: the INSERT records, then the UPDATE
    records, then the DELETE records, each group in the order of the
    batch. *)
Theorem actionable_records_are_the_non_skipped (delta_records : list DeltaRecord) :
  get_actionable_records (categorize_records delta_records)
  ≡ₚ filter (fun dr => operation dr <> SKIP) delta_records
  /\ get_actionable_records (categorize_records delta_records)
     = filter (has_operation INSERT) delta_records
       ++ filter (has_operation UPDATE) delta_records
       ++ filter (has_operation DELETE) delta_records
  /\ (length (get_actionable_records (categorize_records delta_records))
      + length (skip (categorize_records delta_records)) = length delta_records)%nat.
Proof.
  split_and!.
  - apply filter_not_skip_Permutation.
  - done.
  - unfold get_actionable_records, categorize_records. simpl.
    rewrite filter_not_skip_Permutation.
    induction delta_records as [|dr l IH]; [done|].
    rewrite !filter_cons. unfold has_operation in *.
    destruct (decide (operation dr <> SKIP)) as [Hs|Hs],
             (decide (operation dr = SKIP)) as [Hk|Hk];
      simpl; try congruence; try lia.
    by destruct Hs.
Qed.

(** ** Whole batches of one kind *)

(** When every incoming record has a business-key hash and
    [detect_operation] gives it the operation [op], the loop of a strategy
    returns one record of that operation for each incoming record, in
    order. *)
Lemma detect_batch_loop_uniform (op : DeltaOperation) incoming stored_map use_rowversion :
  Forall (fun r =>
            truthy (erp_key_hash r) = true
            /\ exists dr,
                 detect_operation r (stored_map !! default "" (erp_key_hash r)) use_rowversion
                 = Ok dr
                 /\ operation dr = op)
         incoming ->
  forall acc, exists new_records,
    detect_batch_loop incoming stored_map use_rowversion acc = Ok (acc ++ new_records)
    /\ map dr_record new_records = incoming
    /\ Forall (has_operation op) new_records.
Proof.
  induction 1 as [|r incoming (Hbk & dr & Hdr & Hop) _ IH]; intros acc; simpl.
  - exists []. by rewrite app_nil_r.
  - rewrite Hbk, Hdr. simpl. destruct (IH (acc ++ [dr])) as (new & -> & Hrec & Hall).
    exists (dr :: new). rewrite <- app_assoc. split_and!; [done| |by constructor].
    simpl. apply detect_operation_Ok in Hdr as (_ & _ & _ & -> & _). by f_equal.
Qed.

Lemma filter_all {A} (P : A -> Prop) `{!forall x, Decision (P x)} (l : list A) :
  Forall P l -> filter P l = l.
Proof.
  induction 1 as [|x l Hx _ IH]; [done|]. by rewrite filter_cons, decide_True, IH.
Qed.

Lemma filter_none {A} (P : A -> Prop) `{!forall x, Decision (P x)} (l : list A) :
  Forall (fun x => ~ P x) l -> filter P l = [].
Proof.
  induction 1 as [|x l Hx _ IH]; [done|]. by rewrite filter_cons, decide_False.
Qed.

Lemma filter_other_operation (op op' : DeltaOperation) (l : list DeltaRecord) :
  op <> op' -> Forall (has_operation op) l -> filter (has_operation op') l = [].
Proof.
  intros Hne Hall. apply filter_none. eapply Forall_impl; [exact Hall|].
  unfold has_operation. intros dr -> ?. done.
Qed.

(** The result of [detect_delta] when the strategy's loop gives every
    incoming record the operation [op] and no stored record is left
    over. *)
Lemma detect_delta_uniform (op : DeltaOperation) strategy incoming stored :
  op <> DELETE ->
  Forall (fun r =>
            truthy (erp_key_hash r) = true
            /\ exists dr,
                 detect_operation r
                   (_build_stored_map stored !! default "" (erp_key_hash r))
                   (_should_use_rowversion strategy incoming)
                 = Ok dr
                 /\ operation dr = op)
         incoming ->
  bk_hash_set stored ⊆ bk_hash_set incoming ->
  exists new_records,
    map dr_record new_records = incoming
    /\ Forall (has_operation op) new_records
    /\ detect_delta strategy incoming stored
       = Ok (categorize_records new_records,
             get_metrics (categorize_records new_records)
               (_should_use_rowversion strategy incoming) incoming stored).
Proof.
  intros Hop Hall Hsub.
  destruct (detect_batch_loop_uniform op incoming _ _ Hall []) as (new & Hloop & Hrec & Hops).
  exists new. split_and!; [done..|].
  assert (Hdel : _detect_deletes incoming stored = []).
  { unfold _detect_deletes, detect_deletes.
    replace (bk_hash_set stored ∖ bk_hash_set incoming) with (∅ : gset string)
      by set_solver.
    apply elements_empty. }
  unfold detect_delta, hash_detect_batch, rowversion_detect_batch.
  rewrite Hdel. simpl in Hloop.
  destruct (_should_use_rowversion strategy incoming); rewrite Hloop; simpl;
    by rewrite app_nil_r.
Qed.

(** X7.  A first run, with nothing stored: every identity-stamped incoming
    record is an INSERT, in the order of the batch, and there is no
    UPDATE, SKIP or DELETE, whatever the strategy. *)
Theorem first_sync_inserts_everything (strategy : DeltaStrategy) (incoming : list record) :
  Forall stamped incoming ->
  exists cat m,
    detect_delta strategy incoming [] = Ok (cat, m)
    /\ map dr_record (insert cat) = incoming
    /\ Forall (has_operation INSERT) (insert cat)
    /\ update cat = [] /\ skip cat = [] /\ delete cat = []
    /\ m_insert m = length incoming /\ m_total m = length incoming.
Proof.
  intros Hst.
  destruct (detect_delta_uniform INSERT strategy incoming []) as (new & Hrec & Hops & ->).
  - done.
  - eapply Forall_impl; [exact Hst|]. intros r [Hbk Hdh]. split; [done|].
    unfold _build_stored_map. simpl. rewrite lookup_empty.
    unfold detect_operation. rewrite Hbk, Hdh. simpl. eauto.
  - unfold bk_hash_set at 1. simpl. set_solver.
  - eexists _, _. split; [done|]. simpl.
    rewrite (filter_all _ _ Hops).
    rewrite !(filter_other_operation INSERT) by done.
    assert (Hlen : length new = length incoming).
    { by rewrite <- Hrec, length_map. }
    split_and!; [done..|simpl; lia].
Qed.

(** X8.  A batch that brings what the target already holds: when every
    incoming record is stamped and the stored record with its business-key
    hash has the same data hash and the same row-version, and no other
    record is stored, every record is a SKIP, whatever the strategy.  The
    row-version strategy needs a row-version not to be newer than
    itself. *)
Theorem resync_skips_everything (strategy : DeltaStrategy) (incoming stored : list record) :
  (forall rv, is_newer (Some rv) (Some rv) = false) ->
  Forall stamped incoming ->
  Forall (fun r => exists st,
            _build_stored_map stored !! default "" (erp_key_hash r) = Some st
            /\ erp_data_hash st = erp_data_hash r
            /\ erp_rowversion st = erp_rowversion r)
         incoming ->
  bk_hash_set stored ⊆ bk_hash_set incoming ->
  exists cat m,
    detect_delta strategy incoming stored = Ok (cat, m)
    /\ map dr_record (skip cat) = incoming
    /\ insert cat = [] /\ update cat = [] /\ delete cat = []
    /\ m_skip m = length incoming
    /\ m_insert m = 0%nat /\ m_update m = 0%nat /\ m_delete m = 0%nat.
Proof.
  intros Hirr Hst Hsame Hsub.
  destruct (detect_delta_uniform SKIP strategy incoming stored) as (new & Hrec & Hops & ->).
  - done.
  - rewrite Forall_forall in Hst, Hsame. apply Forall_forall. intros r Hr.
    destruct (Hst r Hr) as [Hbk Hdh].
    destruct (Hsame r Hr) as (st & -> & Hd & Hrv).
    split; [done|]. unfold detect_operation, _is_rowversion_newer.
    rewrite Hbk, Hdh, Hd, Hrv. simpl.
    destruct (_should_use_rowversion strategy incoming && truthy (erp_rowversion r)
              && truthy (erp_rowversion r)) eqn:Huse.
    + apply andb_true_iff in Huse as [_ Ht]. apply truthy_Some in Ht as (rv & -> & _).
      rewrite Hirr. eauto.
    + rewrite bool_decide_eq_true_2 by done. simpl. eauto.
  - done.
  - eexists _, _. split; [done|]. simpl.
    rewrite (filter_all _ _ Hops).
    rewrite !(filter_other_operation SKIP) by done.
    assert (Hlen : length new = length incoming).
    { by rewrite <- Hrec, length_map. }
    split_and!; done.
Qed.

(** X9.  An empty incoming batch: every stored record that has a business-key
    hash becomes a DELETE, one per hash, and nothing else is produced. *)
Theorem empty_batch_deletes_everything (strategy : DeltaStrategy) (stored : list record) :
  exists cat m,
    detect_delta strategy [] stored = Ok (cat, m)
    /\ insert cat = [] /\ update cat = [] /\ skip cat = []
    /\ map bk_hash (delete cat) = elements (bk_hash_set stored)
    /\ Forall (has_operation DELETE) (delete cat)
    /\ Forall (fun dr => dr_record dr ∈ stored) (delete cat)
    /\ m_delete m = size (bk_hash_set stored).
Proof.
  assert (Hd : exists cat m, detect_delta strategy [] stored = Ok (cat, m)).
  { unfold detect_delta, hash_detect_batch, rowversion_detect_batch.
    destruct (_should_use_rowversion strategy []); simpl; eauto. }
  destruct Hd as (cat & m & Hd). exists cat, m. split; [done|].
  pose proof (delete_bucket_is_set_difference _ _ _ _ _ Hd) as [Hbk Hdel].
  pose proof Hd as Hm. apply detect_delta_Ok in Hm as (_ & _ & _ & _ & Hm).
  apply detect_delta_buckets in Hd as (new & Hnew & _ & Hi & Hu & Hs & Hdl).
  simpl in Hnew. apply map_eq_nil in Hnew as ->.
  assert (Hset : bk_hash_set stored ∖ bk_hash_set [] = bk_hash_set stored).
  { unfold bk_hash_set at 2. simpl. set_solver. }
  rewrite Hset in Hbk.
  split_and!; [done..| |].
  - rewrite Hdl. apply Forall_forall. intros dr Hdr.
    unfold _create_delete_records in Hdr.
    apply list_elem_of_omap in Hdr as (bk & _ & Hdr).
    destruct (_build_stored_map stored !! bk) as [st|] eqn:Hl; [|done].
    injection Hdr as <-. simpl. by eapply build_stored_map_lookup.
  - rewrite Hm. simpl. rewrite <- (length_map bk_hash), Hbk. done.
Qed.

(** ** Swapping the arguments of the comparison *)

Lemma SFcompare_antisym (x y : spec_float) :
  SFcompare y x = CompOpp <$> SFcompare x y.
Proof.
  destruct x as [sx|sx| |sx mx ex], y as [sy|sy| |sy my ey]; simpl; try done;
    try (by destruct sx); try (by destruct sy); try (by destruct sx, sy).
  f_equal. destruct sx, sy; try done.
  - rewrite (Z.compare_antisym ex ey). destruct (ex ?= ey); simpl; [|done..].
    by rewrite (Pos.compare_cont_antisym mx my Eq).
  - rewrite (Z.compare_antisym ex ey). destruct (ex ?= ey); simpl; [|done..].
    by rewrite (Pos.compare_cont_antisym mx my Eq).
Qed.

Lemma SFltb_swap (x y : spec_float) :
  SFltb y x = match SFcompare x y with Some Gt => true | _ => false end.
Proof. unfold SFltb. rewrite SFcompare_antisym. by destruct (SFcompare x y) as [[]|]. Qed.

Lemma string_ltb_swap (a b : string) :
  String.ltb b a = match String.compare a b with Gt => true | _ => false end.
Proof.
  unfold String.ltb. rewrite String.compare_antisym. by destruct (String.compare a b).
Qed.

(** X10.  Swapping the two row-versions negates the result of the comparison,
    as long as the comparison of datetimes does so. *)
Theorem compare_rowversions_antisym (rv1 rv2 : option string) :
  (forall d1 d2, datetime_compare d2 d1 = CompOpp <$> datetime_compare d1 d2) ->
  compare_rowversions rv2 rv1 = - compare_rowversions rv1 rv2
  /\ is_equal rv2 rv1 = is_equal rv1 rv2
  /\ (is_newer rv1 rv2 = true -> is_newer rv2 rv1 = false).
Proof.
  intros Hdt.
  assert (Hswap : compare_rowversions rv2 rv1 = - compare_rowversions rv1 rv2).
  { unfold compare_rowversions. destruct rv1 as [s1|], rv2 as [s2|]; try done.
    assert (Hd : compare_as_datetimes s2 s1 = Z.opp <$> compare_as_datetimes s1 s2).
    { unfold compare_as_datetimes.
      destruct (_parse_datetime s1) as [d1|], (_parse_datetime s2) as [d2|]; try done.
      rewrite Hdt. by destruct (datetime_compare d1 d2) as [[]|]. }
    assert (Hn : compare_as_numbers s2 s1 = Z.opp <$> compare_as_numbers s1 s2).
    { unfold compare_as_numbers.
      destruct (float_of_string s1) as [n1|], (float_of_string s2) as [n2|]; try done.
      rewrite (SFltb_swap n1 n2), (SFltb_swap n2 n1), (SFcompare_antisym n2 n1).
      by destruct (SFcompare n2 n1) as [[]|]. }
    assert (Hs : compare_as_strings s2 s1 = - compare_as_strings s1 s2).
    { unfold compare_as_strings.
      rewrite (string_ltb_swap s1 s2), (string_ltb_swap s2 s1), (String.compare_antisym s2 s1).
      by destruct (String.compare s1 s2). }
    rewrite Hd, Hn, Hs.
    destruct (compare_as_datetimes s1 s2); simpl; [done|].
    by destruct (compare_as_numbers s1 s2). }
  split_and!; [done| |].
  - unfold is_equal. rewrite Hswap.
    destruct (Z.eqb_spec (compare_rowversions rv1 rv2) 0),
             (Z.eqb_spec (- compare_rowversions rv1 rv2) 0); try done; lia.
  - unfold is_newer. rewrite Hswap. intros Hn%Z.ltb_lt. apply Z.ltb_ge. lia.
Qed.

End Facts.

(** ** Examples *)

Lemma strings_only_not_newer_than_itself (rv : string) :
  @is_newer strings_only (Some rv) (Some rv) = false.
Proof.
  assert (Hlt : String.ltb rv rv = false).
  { unfold String.ltb. pose proof (String.compare_antisym rv rv) as Ha.
    by destruct (String.compare rv rv). }
  unfold is_newer, compare_rowversions, compare_as_strings.
  assert (Hdt : @compare_as_datetimes strings_only rv rv = None).
  { unfold compare_as_datetimes, _parse_datetime. simpl.
    by destruct (_ || _). }
  by rewrite Hdt, Hlt.
Qed.

Example max_rowversion_of_none : @get_max_rowversion strings_only [without_rowversion] = None.
Proof. reflexivity. Qed.

Example changed_records_of_batch :
  detect_unchanged_records
    [with_rowversion; rec "bk-c" "dh-3" None]
    (_build_stored_map [stored_a; stored_c])
  = [with_rowversion].
Proof. vm_compute. reflexivity. Qed.


Lemma compare_rowversions_antisym_witness :
  @compare_rowversions strings_only (Some "0x07D3") (Some "0x07D4")
  = - @compare_rowversions strings_only (Some "0x07D4") (Some "0x07D3").
Proof.
  apply (@compare_rowversions_antisym strings_only (Some "0x07D4") (Some "0x07D3")).
  intros d1 d2. reflexivity.
Defined.

Lemma first_sync_inserts_everything_witness :
  exists cat m,
    @detect_delta strings_only AUTO [with_rowversion; without_rowversion] [] = Ok (cat, m)
    /\ map dr_record (insert cat) = [with_rowversion; without_rowversion]
    /\ update cat = [] /\ skip cat = [] /\ delete cat = [].
Proof.
  destruct (@first_sync_inserts_everything strings_only AUTO
              [with_rowversion; without_rowversion])
    as (cat & m & Hd & Hins & _ & Hu & Hs & Hdel & _).
  - repeat constructor.
  - exists cat, m. split_and!; assumption.
Defined.

Lemma resync_skips_everything_witness :
  exists cat m,
    @detect_delta strings_only AUTO [with_rowversion; without_rowversion]
      [without_rowversion; with_rowversion]
    = Ok (cat, m)
    /\ map dr_record (skip cat) = [with_rowversion; without_rowversion]
    /\ insert cat = [] /\ update cat = [] /\ delete cat = [].
Proof.
  destruct (@resync_skips_everything strings_only AUTO
              [with_rowversion; without_rowversion] [without_rowversion; with_rowversion])
    as (cat & m & Hd & Hskip & Hi & Hu & Hdel & _).
  - apply strings_only_not_newer_than_itself.
  - apply Forall_cons. split; [done|]. apply Forall_cons. split; [done|]. apply Forall_nil_2.
  - unfold _build_stored_map. cbn [_build_stored_map_loop].
    change (truthy (erp_key_hash without_rowversion)) with true.
    change (truthy (erp_key_hash with_rowversion)) with true.
    change (default "" (erp_key_hash with_rowversion)) with "bk-a".
    change (default "" (erp_key_hash without_rowversion)) with "bk-b".
    cbv iota.
    apply Forall_cons. split; [|apply Forall_cons; split; [|apply Forall_nil_2]].
    + exists with_rowversion. split_and!; [|reflexivity..].
      apply lookup_insert_eq.
    + exists without_rowversion. split_and!; [|reflexivity..].
      rewrite lookup_insert_ne by done. apply lookup_insert_eq.
  - unfold bk_hash_set.
    change (omap bk_of [without_rowversion; with_rowversion]) with ["bk-b"; "bk-a"].
    change (omap bk_of [with_rowversion; without_rowversion]) with ["bk-a"; "bk-b"].
    intros k. rewrite !elem_of_list_to_set, !list_elem_of_In. simpl. tauto.
  - exists cat, m. split_and!; assumption.
Defined.

End DeltaToolsFacts.

(* ================================================================== *)
(** * More facts about the sync window *)
(* ================================================================== *)

Module WindowFacts.
Import Py Scheduler SchedulerFacts.

(** [a < b] *)
Definition time_lt (a b : time) : bool :=
  match time_compare a b with Lt => true | _ => false end.

Lemma time_compare_refl (a : time) : time_compare a a = Eq.
Proof. unfold time_compare. by rewrite !Z.compare_refl. Qed.

Lemma time_le_refl (a : time) : time_le a a = true.
Proof. unfold time_le. by rewrite time_compare_refl. Qed.

Lemma time_compare_Eq (a b : time) : time_compare a b = Eq <-> a = b.
Proof.
  split; [|intros ->; apply time_compare_refl].
  unfold time_compare. destruct a as [h m s u], b as [h' m' s' u']. simpl.
  destruct (Z.compare_spec h h'); [|done..].
  destruct (Z.compare_spec m m'); [|done..].
  destruct (Z.compare_spec s s'); [|done..].
  destruct (Z.compare_spec u u'); [|done..].
  intros _. congruence.
Qed.

(** X11.  Both ends of a window belong to it.  An overnight window, whose start
    is after its end, leaves out exactly the times strictly between its
    end and its start.  A window whose start equals its end holds that
    time only. *)
Theorem window_ends_and_gap (current window_start window_end : time) :
  _is_within_window window_start window_start window_end = true
  /\ _is_within_window window_end window_start window_end = true
  /\ (time_le window_start window_end = false ->
      _is_within_window current window_start window_end
      = negb (time_lt window_end current && time_lt current window_start))
  /\ (_is_within_window current window_start window_start = true <->
      current = window_start).
Proof.
  split_and!.
  - unfold _is_within_window. rewrite time_ge_le, !time_le_refl.
    by destruct (time_le window_start window_end).
  - unfold _is_within_window. rewrite !time_le_refl.
    destruct (time_le window_start window_end); [done|]. apply orb_true_r.
  - intros Hov. unfold _is_within_window. rewrite Hov, time_ge_le.
    unfold time_le, time_lt.
    rewrite (time_compare_antisym window_end current).
    rewrite (time_compare_antisym current window_start).
    by destruct (time_compare current window_end), (time_compare window_start current).
  - unfold _is_within_window. rewrite time_le_refl, <- time_compare_Eq.
    unfold time_le. rewrite (time_compare_antisym window_start current).
    destruct (time_compare current window_start); simpl; split; done.
Qed.


(** ** Examples *)

Example window_single_instant :
  _is_within_window (t 9 0) (t 9 0) (t 9 0) = true
  /\ _is_within_window (t 9 1) (t 9 0) (t 9 0) = false.
Proof. split; reflexivity. Qed.

Lemma window_ends_and_gap_witness :
  _is_within_window (t 12 0) (t 19 0) (t 7 0)
  = negb (time_lt (t 7 0) (t 12 0) && time_lt (t 12 0) (t 19 0)).
Proof.
  apply (proj1 (proj2 (proj2 (window_ends_and_gap (t 12 0) (t 19 0) (t 7 0))))).
  reflexivity.
Defined.

End WindowFacts.

(* ================================================================== *)
(** * Facts about resolving a failed record *)
(* ================================================================== *)

Module FailedRecordOpsFacts.
Import FailedRecords FailedRecordOps FailedRecordsFacts.




(** ** Examples *)

Definition pending_row : failed_record := row "r2" 1 None 2000.

Example resolved_row_is_gone :
  get_retryable_records (resolve_failed_record [resolved_row; pending_row] "r1") 3 10
  = [pending_row].
Proof. vm_compute. reflexivity. Qed.


End FailedRecordOpsFacts.

(* ================================================================== *)
(** * Facts about the single layers of the normalization *)
(* ================================================================== *)

Module LayerFacts.
Import Py Normalization PyFacts NormalizationFacts.

(** ** Layer 2 *)

(** X13.  What [normalize_string] returns, it returns again when applied to it.
    The result is not empty, has no white space at either end, and holds
    no control character and no white-space byte other than the single
    spaces inside a line and the line feeds between lines. *)
Theorem normalize_string_idempotent (s r : string) :
  normalize_string s = Some r ->
  normalize_string r = Some r
  /\ r <> ""
  /\ PyStr.strip r = r
  /\ Forall (fun c => is_control c = false
                      /\ (c = SP \/ c = LF \/ PyStr.is_space1 c = false))
            (PyStr.chars r).
Proof.
  intros Hs. destruct (normalize_string_fixed s r Hs) as (Hne & Hstrip & Hfix).
  split_and!; [done..|].
  apply normalize_string_result in Hs as (ls & Hls & Hall & ->).
  rewrite chars_of_chars.
  destruct (join_lines ls Hls Hall) as (Ht & _ & _ & Hc).
  apply text_bytes in Ht. unfold no_control in Hc.
  rewrite Forall_forall in Ht, Hc |- *. intros c Hin. split; [by apply Hc|].
  destruct (Ht c Hin) as [?|[[_ ?]|?]]; auto.
Qed.

Section Facts.
Context `{PyRuntime} `{NormLib}.

(** ** Layer 3 *)

Lemma parse_numeric_string_number s :
  match parse_numeric_string s with
  | VNone | VInt _ => True
  | VFloat x => is_integer x = false
  | _ => False
  end.
Proof.
  unfold parse_numeric_string. destruct (is_empty (PyStr.strip s)); [done|].
  cbv zeta. destruct (_ || _).
  - destruct (float_of_string _) as [num|]; [|done].
    by destruct (is_integer num) eqn:Hnum.
  - by destruct (int_of_string _).
Qed.

(** X14.  [normalize_numeric] returns a number or [None], never a string or any
    other value, and returns its own results unchanged.  A real number it
    reads from a string has a fractional part: a whole one comes back as an
    integer. *)
Theorem normalize_numeric_gives_numbers (v : value) :
  (normalize_numeric v = VNone \/ is_number (normalize_numeric v) = true)
  /\ normalize_numeric (normalize_numeric v) = normalize_numeric v
  /\ (forall s x, v = VStr s -> normalize_numeric v = VFloat x -> is_integer x = false).
Proof.
  split_and!.
  - destruct v as [|b|z|x|s|items|entries|cls form truth]; simpl; auto.
    + pose proof (parse_numeric_string_number s) as Hp.
      destruct (parse_numeric_string s); simpl; auto; done.
    + destruct cls; simpl; auto.
  - destruct v as [|b|z|x|s|items|entries|cls form truth]; simpl; auto.
    + pose proof (parse_numeric_string_number s) as Hp.
      destruct (parse_numeric_string s); simpl; auto; done.
    + destruct cls; simpl; auto.
  - intros s x -> Hx. simpl in Hx.
    pose proof (parse_numeric_string_number s) as Hp. by rewrite Hx in Hp.
Qed.

(** ** The pipeline, field by field *)

(** What the four first layers make of the value of field [k]. *)
Definition field_pipeline (engine : NormalizationEngine) (k : string) (v : value) : value :=
  layer_4_value (datetime_fields engine) (date_fields engine) k
    (layer_3_value (numeric_fields engine) k
       (normalize_string_value (coerce_value v (dict_get (oracle_metadata engine) k)))).

(** X15.  Without field mappings the pipeline works field by field: the
    normalized row has the fields of the row, in the same order, and the
    value of each is its value in the row taken through the four first
    layers, whatever the other fields hold. *)
Theorem normalize_row_field_by_field (engine : NormalizationEngine) (row : dict value) :
  field_mappings engine = [] -> dict_wf row ->
  normalize_row engine row = map (fun e => (e.1, field_pipeline engine e.1 e.2)) row
  /\ keys (normalize_row engine row) = keys row
  /\ (forall k, dict_get (normalize_row engine row) k
                = field_pipeline engine k <$> dict_get row k).
Proof.
  intros Hm Hwf.
  assert (Heq : normalize_row engine row = map_values (field_pipeline engine) row).
  { unfold normalize_row, map_row. rewrite Hm.
    rewrite layer_1_rebuild, rebuild_wf by done.
    rewrite layer_2_rebuild, rebuild_wf by (unfold dict_wf; by rewrite keys_map_values).
    rewrite map_values_compose.
    rewrite layer_3_rebuild, rebuild_wf by (unfold dict_wf; by rewrite keys_map_values).
    rewrite map_values_compose.
    rewrite layer_4_rebuild, rebuild_wf by (unfold dict_wf; by rewrite keys_map_values).
    rewrite map_values_compose.
    rewrite map_items_unmapped, rebuild_wf by (unfold dict_wf; by rewrite keys_map_values).
    rewrite map_values_compose. done. }
  rewrite Heq. split_and!; [done|apply keys_map_values|].
  intros k. unfold map_values. clear.
  induction row as [|[k' v] row IH]; simpl; [done|].
  destruct (String.eqb_spec k k') as [->|Hne]; [done|]. apply IH.
Qed.

(** ** Layer 5 *)

Lemma dict_get_set {V} (d : dict V) k v k' :
  dict_get (dict_set d k v) k' = if String.eqb k' k then Some v else dict_get d k'.
Proof.
  induction d as [|[k0 v0] d IH]; simpl; [done|].
  destruct (String.eqb_spec k k0) as [->|Hne]; simpl.
  - by destruct (String.eqb_spec k' k0).
  - rewrite IH. destruct (String.eqb_spec k' k0) as [->|?]; [|done].
    destruct (String.eqb_spec k0 k); [congruence|done].
Qed.

(** The mapping is used: it has a source and a target. *)
Definition in_use (m : mapping) : bool :=
  truthy_str (source_field m) && truthy_str (target_field m).

(** A field has an entry in one of the tables only when a mapping in use
    has it as its source. *)
Lemma build_tables_lookup mappings k : forall tables,
  (forall m, m ∈ mappings -> in_use m = true -> source_field m <> Some k) ->
  let built := build_tables mappings tables in
  dict_get (_source_to_target built) k = dict_get (_source_to_target tables) k
  /\ dict_get (_transformations built) k = dict_get (_transformations tables) k
  /\ dict_get (_default_values built) k = dict_get (_default_values tables) k.
Proof.
  induction mappings as [|m mappings IH]; intros tables Hk; simpl; [done|].
  assert (Hrest : forall m0, m0 ∈ mappings -> in_use m0 = true -> source_field m0 <> Some k).
  { intros m0 Hin. apply Hk. by right. }
  specialize (Hk m (list_elem_of_here _ _)). unfold in_use in Hk.
  destruct (truthy_str (source_field m) && truthy_str (target_field m)) eqn:Huse;
    [|by apply IH].
  specialize (Hk eq_refl).
  destruct (source_field m) as [src|] eqn:Hsrc; [|done]. simpl.
  assert (Hne : String.eqb k src = false).
  { apply String.eqb_neq. congruence. }
  destruct (IH {| _source_to_target := dict_set (_source_to_target tables) src
                                         (default "" (target_field m));
                  _transformations :=
                    if truthy_str (transformation m)
                    then dict_set (_transformations tables) src
                           (default "" (transformation m))
                    else _transformations tables;
                  _default_values :=
                    match default_value m with
                    | Some d =>
                        if py_truthy d then dict_set (_default_values tables) src d
                        else _default_values tables
                    | None => _default_values tables
                    end |} Hrest) as (-> & -> & ->).
  simpl. rewrite dict_get_set, Hne. split_and!; [done| |].
  - destruct (truthy_str (transformation m)); [|done]. by rewrite dict_get_set, Hne.
  - destruct (default_value m) as [d|]; [|done].
    destruct (py_truthy d); [|done]. by rewrite dict_get_set, Hne.
Qed.

Lemma map_items_untouched tables items : forall mapped,
  Forall (fun e => dict_get (_source_to_target tables) e.1 = None
                   /\ dict_get (_transformations tables) e.1 = None
                   /\ dict_get (_default_values tables) e.1 = None) items ->
  map_items tables items mapped = rebuild (fun _ v => v) items mapped.
Proof.
  induction items as [|[k v] items IH]; intros mapped Hall; simpl; [done|].
  apply Forall_cons in Hall as [(Hs & Ht & Hd) Hall]. simpl in Hs, Ht, Hd.
  rewrite Hs, Ht, Hd. simpl. rewrite IH by done. by destruct v.
Qed.

(** X16.  [map_row] returns unchanged a row none of whose fields is the source
    of a mapping in use: such a row is neither renamed, transformed nor
    given default values. *)
Theorem map_row_leaves_unmapped_rows (mappings : list mapping) (row : dict value) :
  dict_wf row ->
  (forall m k, m ∈ mappings -> in_use m = true -> source_field m = Some k -> k ∉ keys row) ->
  map_row (FieldMappingLayer mappings) row = row.
Proof.
  intros Hwf Hfree. unfold map_row.
  rewrite map_items_untouched.
  - rewrite rebuild_wf by done. unfold map_values. clear.
    induction row as [|[k v] row IH]; simpl; [done|]. by rewrite IH.
  - apply Forall_forall. intros [k v] Hin. simpl.
    unfold FieldMappingLayer.
    destruct (build_tables_lookup mappings k
                {| _source_to_target := []; _transformations := []; _default_values := [] |})
      as (-> & -> & ->); [|done].
    intros m Hm Huse Hsrc. apply (Hfree m k Hm Huse Hsrc).
    apply list_elem_of_In. unfold keys. apply list_elem_of_In in Hin.
    by apply (in_map fst) in Hin.
Qed.

End Facts.

(** ** Examples *)

Lemma normalize_string_idempotent_witness :
  normalize_string "Widget A" = Some "Widget A".
Proof.
  apply (proj1 (normalize_string_idempotent ("  Widget " +:+ TAB +:+ "  A  ") "Widget A"
                  eq_refl)).
Defined.

Lemma normalize_row_field_by_field_witness :
  keys (@normalize_row Sample.runtime Sample.library quantities part) = keys part.
Proof.
  assert (Hwf : dict_wf part).
  { unfold dict_wf. simpl. apply NoDup_ListNoDup. repeat constructor; set_solver. }
  apply (proj1 (proj2 (@normalize_row_field_by_field Sample.runtime Sample.library
                         quantities part eq_refl Hwf))).
Defined.

Example mapped_field_is_renamed :
  @map_row Sample.runtime Sample.library (FieldMappingLayer [rename "a" "b"])
    [("a", VInt 1); ("c", VInt 2)]
  = [("b", VInt 1); ("c", VInt 2)].
Proof. reflexivity. Qed.

Lemma map_row_leaves_unmapped_rows_witness :
  @map_row Sample.runtime Sample.library (FieldMappingLayer [rename "a" "b"])
    [("b", VInt 1); ("c", VInt 2)]
  = [("b", VInt 1); ("c", VInt 2)].
Proof.
  apply (@map_row_leaves_unmapped_rows Sample.runtime Sample.library).
  - unfold dict_wf. simpl. apply NoDup_ListNoDup. repeat constructor; set_solver.
  - intros m k Hm _ Hsrc. apply list_elem_of_singleton in Hm as ->.
    injection Hsrc as <-. simpl. rewrite list_elem_of_In. simpl.
    intros [?|[?|[]]]; discriminate.
Defined.

End LayerFacts.

(* ================================================================== *)
(** * Facts about parent references and business-key values *)
(* ================================================================== *)

Module ParentRefsFacts.
Import Py BKHash ParentRefs PyFacts.

Lemma dict_get_dict_set {V} (d : dict V) k v k' :
  dict_get (dict_set d k v) k' = if String.eqb k' k then Some v else dict_get d k'.
Proof.
  induction d as [|[k0 v0] d IH]; simpl; [done|].
  destruct (String.eqb_spec k k0) as [->|Hne]; simpl.
  - by destruct (String.eqb_spec k' k0).
  - rewrite IH. destruct (String.eqb_spec k' k0) as [->|?]; [|done].
    destruct (String.eqb_spec k0 k); [congruence|done].
Qed.

Section Facts.
Context `{PyRuntime} `{HashLib}.

(** The reference a complete entry yields for a record. *)
Definition parent_ref (c : ref_config) (record : dict value) : option string :=
  match default VNone (dict_get record (default "" (child_field c))) with
  | VNone => None
  | child_value =>
      Some (xxh128_hexdigest
              (default "" (parent_entity c) +:+ "|" +:+ default "" (parent_field c)
               +:+ "=" +:+ py_str child_value))
  end.

(** The hash of a record with the single key field [field], holding a
    value that is not null. *)
Lemma generate_single_field (record : dict value) field entity v :
  dict_get record field = Some v -> v <> VNone -> entity <> "" ->
  generate record [field] (Some entity)
  = Ok (xxh128_hexdigest (entity +:+ "|" +:+ field +:+ "=" +:+ py_str v)).
Proof.
  intros Hg Hv He.
  rewrite BKHashFacts.generate_ok; [|done|].
  - unfold bk_canonical, bk_pair. simpl. rewrite Hg. simpl.
    destruct (String.eqb_spec entity ""); [done|]. done.
  - constructor; [|constructor]. apply BKHashFacts.bk_field_ok_true. eauto.
Qed.

Lemma generate_own_field field entity v :
  v <> VNone -> entity <> "" ->
  generate [(field, v)] [field] (Some entity)
  = Ok (xxh128_hexdigest (entity +:+ "|" +:+ field +:+ "=" +:+ py_str v)).
Proof.
  intros Hv He. apply generate_single_field; [|done..].
  cbn [dict_get]. by rewrite String.eqb_refl.
Qed.

Lemma truthy_not_empty (x : option string) :
  Delta.truthy x = true -> exists s, x = Some s /\ s <> "".
Proof.
  destruct x as [s|]; [|done]. simpl. intros Hs. exists s. split; [done|].
  intros ->. done.
Qed.

Lemma parent_refs_step (c : ref_config) (record : dict value)
    (k : option string -> result (dict (option string))) :
  complete c = true ->
  match default VNone (dict_get record (default "" (child_field c))) with
  | VNone => k None
  | child_value =>
      bind (generate [(default "" (parent_field c), child_value)]
              [default "" (parent_field c)] (Some (default "" (parent_entity c))))
           (fun parent_bk_hash => k (Some parent_bk_hash))
  end
  = k (parent_ref c record).
Proof.
  intros Hc. unfold complete in Hc. apply andb_true_iff in Hc as [Hc _].
  apply andb_true_iff in Hc as [Hpe _].
  apply truthy_not_empty in Hpe as (pe & Hpe & Hpe').
  assert (Hent : default "" (parent_entity c) <> "") by (by rewrite Hpe).
  unfold parent_ref.
  destruct (default VNone (dict_get record (default "" (child_field c)))) eqn:Hv;
    try done;
    by rewrite generate_own_field.
Qed.

Lemma dict_get_filter_None {V} (P : string * V -> Prop) `{!forall e, Decision (P e)}
    (d : dict V) k :
  k ∉ keys d -> dict_get (filter P d) k = None.
Proof.
  intros Hk. apply dict_get_None_keys. intros Hin. apply Hk.
  apply list_elem_of_In in Hin. unfold keys in *.
  apply list_elem_of_fmap in Hin as (e & -> & Hin).
  apply list_elem_of_filter in Hin as [_ Hin].
  apply list_elem_of_fmap. by exists e.
Qed.

Lemma parent_refs_loop_lookup config record :
  dict_wf config ->
  forall parent_refs, exists refs,
    parent_refs_loop config record parent_refs = Ok refs
    /\ forall name,
         dict_get refs name
         = match dict_get (filter (fun e => complete e.2 = true) config) name with
           | Some c => Some (parent_ref c record)
           | None => dict_get parent_refs name
           end.
Proof.
  unfold dict_wf, keys.
  induction config as [|[ref_name c] config IH]; intros Hwf parent_refs.
  { exists parent_refs. done. }
  simpl in Hwf. apply NoDup_cons in Hwf as [Hname Hwf].
  rewrite filter_cons. cbn [parent_refs_loop snd].
  destruct (decide (complete c = true)) as [Hc|Hc].
  - rewrite Hc. cbn [negb].
    rewrite (parent_refs_step c record
               (fun ref => parent_refs_loop config record (dict_set parent_refs ref_name ref)))
      by done.
    destruct (IH Hwf (dict_set parent_refs ref_name (parent_ref c record)))
      as (refs & -> & Hrefs).
    exists refs. split; [done|]. intros name. rewrite Hrefs. simpl.
    destruct (String.eqb_spec name ref_name) as [->|Hne].
    + rewrite dict_get_filter_None by done.
      by rewrite dict_get_dict_set, String.eqb_refl.
    + rewrite dict_get_dict_set.
      destruct (String.eqb_spec name ref_name); [done|]. done.
  - apply not_true_is_false in Hc. rewrite Hc. cbn [negb]. by apply IH.
Qed.

(** The references of a record, as the configuration asks for them: a
    complete entry gives a null reference when the child field of the
    record is null or absent, and otherwise the business-key hash of the
    parent, that is the hash [generate] gives, under the parent's entity
    name, to any record holding the same value in the parent field as its
    single business key. *)
Definition refs_match (config : list (string * ref_config)) (record : dict value)
    (refs : dict (option string)) : Prop :=
  forall name c,
    dict_get config name = Some c -> complete c = true ->
    let child_value := default VNone (dict_get record (default "" (child_field c))) in
    (child_value = VNone -> dict_get refs name = Some None)
    /\ (child_value <> VNone ->
        forall parent : dict value,
          dict_get parent (default "" (parent_field c)) = Some child_value ->
          exists h,
            dict_get refs name = Some (Some h)
            /\ generate parent [default "" (parent_field c)] (parent_entity c) = Ok h).

Lemma parent_refs_loop_match (config : list (string * ref_config)) (record : dict value) :
  dict_wf config ->
  exists refs, parent_refs_loop config record [] = Ok refs /\ refs_match config record refs.
Proof.
  intros Hwf.
  destruct (parent_refs_loop_lookup config record Hwf []) as (refs & Hloop & Hrefs).
  exists refs. split; [done|]. intros name c Hget Hc child_value.
  assert (Hfil : dict_get (filter (fun e => complete e.2 = true) config) name = Some c).
  { clear -Hget Hc. induction config as [|[k c0] config IH]; [done|].
    simpl in Hget. rewrite filter_cons. simpl.
    destruct (String.eqb_spec name k) as [->|Hne].
    - injection Hget as ->. rewrite decide_True by done. simpl.
      by rewrite String.eqb_refl.
    - destruct (decide _); simpl; [|by apply IH].
      destruct (String.eqb_spec name k); [done|]. by apply IH. }
  rewrite Hrefs, Hfil. unfold parent_ref. fold child_value.
  unfold complete in Hc. apply andb_true_iff in Hc as [Hc _].
  apply andb_true_iff in Hc as [Hpe Hpf].
  apply truthy_not_empty in Hpe as (pe & Hpe & Hpe').
  split.
  - intros ->. done.
  - intros Hv parent Hparent.
    exists (xxh128_hexdigest (default "" (parent_entity c) +:+ "|"
                              +:+ default "" (parent_field c) +:+ "="
                              +:+ py_str child_value)).
    split; [by destruct child_value|].
    rewrite Hpe. simpl. by apply generate_single_field.
Qed.

Lemma enrich_loop_match config records : forall enriched,
  dict_wf config ->
  exists new_records,
    enrich_loop config records enriched = Ok (enriched ++ new_records)
    /\ Forall2 (fun record out =>
                  exists refs,
                    out = dict_set record "parent_refs" (refs_value refs)
                    /\ refs_match config record refs)
               records new_records.
Proof.
  induction records as [|record records IH]; intros enriched Hwf; simpl.
  - exists []. rewrite app_nil_r. split; [done|constructor].
  - destruct (parent_refs_loop_match config record Hwf) as (refs & -> & Hrefs). simpl.
    destruct (IH (enriched ++ [dict_set record "parent_refs" (refs_value refs)]) Hwf)
      as (new & -> & Hall).
    exists (dict_set record "parent_refs" (refs_value refs) :: new).
    rewrite <- app_assoc. split; [done|]. constructor; [|done]. eauto.
Qed.

(** X17.  The parent-reference stage never raises, and returns the records in
    their order, each with a ["parent_refs"] field added.  For every
    complete entry of the configuration, the reference of a record whose
    child field holds a value is the business-key hash of the parent: the
    hash [generate] gives, under the parent's entity name, to any record
    that holds the same value in the parent field as its single business
    key; a record whose child field is null or absent gets a null
    reference.  Without a configuration the records are returned as they
    are. *)
Theorem parent_ref_is_the_parent_key_hash (config : list (string * ref_config))
    (records : list (dict value)) :
  dict_wf config ->
  _stage_parent_refs None records = Ok records
  /\ _stage_parent_refs (Some []) records = Ok records
  /\ (config <> [] ->
      exists enriched,
        _stage_parent_refs (Some config) records = Ok enriched
        /\ Forall2 (fun record out =>
                      exists refs,
                        out = dict_set record "parent_refs" (refs_value refs)
                        /\ refs_match config record refs)
                   records enriched).
Proof.
  intros Hwf. split_and!; [done..|]. intros Hne.
  destruct (enrich_loop_match config records [] Hwf) as (new & Hloop & Hall).
  exists new. split; [|done]. unfold _stage_parent_refs.
  destruct config; [done|]. exact Hloop.
Qed.

(** X18.  [get_business_key_values] returns the row cut down to the
    business-key fields it has: each such field with its value in the row,
    and no other field. *)
Theorem business_key_values_lookup (fields : list string) (row : dict value) :
  forall f,
    dict_get (get_business_key_values fields row) f
    = if decide (f ∈ fields) then dict_get row f else None.
Proof.
  unfold get_business_key_values.
  assert (Hloop : forall acc f,
            dict_get (get_business_key_values_loop fields row acc) f
            = if decide (f ∈ fields)
              then match dict_get row f with Some v => Some v | None => dict_get acc f end
              else dict_get acc f).
  { induction fields as [|g fields IH]; intros acc f.
    { destruct (decide (f ∈ [])) as [Hin|_]; [by apply elem_of_nil in Hin|done]. }
    cbn [get_business_key_values_loop].
    destruct (dict_get row g) as [v|] eqn:Hg; rewrite IH; clear IH.
    - rewrite dict_get_dict_set.
      destruct (String.eqb_spec f g) as [->|Hne].
      + rewrite Hg.
        destruct (decide (g ∈ fields)), (decide (g ∈ g :: fields)); try done; set_solver.
      + destruct (decide (f ∈ fields)), (decide (f ∈ g :: fields)); try done; set_solver.
    - destruct (decide (f ∈ fields)), (decide (f ∈ g :: fields)); try done; [set_solver|].
      assert (f = g) as -> by set_solver. by rewrite Hg. }
  intros f. rewrite Hloop. simpl.
  destruct (decide (f ∈ fields)); [|done]. by destruct (dict_get row f).
Qed.

End Facts.

(** ** Examples *)

Definition to_site : ref_config :=
  {| parent_entity := Some "sites"; parent_field := Some "site_id";
     child_field := Some "site" |}.

Definition stock_line : dict value := [("item", VStr "A"); ("site", VStr "S1")].

Example stock_line_enriched :
  @_stage_parent_refs Sample.runtime Sample.hashes (Some [("site", to_site)]) [stock_line]
  = Ok [[("item", VStr "A"); ("site", VStr "S1");
         ("parent_refs",
          VDict [("site", JStr (@xxh128_hexdigest Sample.hashes "sites|site_id=S1"))])]].
Proof. reflexivity. Qed.

Example parent_hash_of_site :
  @generate Sample.runtime Sample.hashes
    [("site_id", VStr "S1"); ("name", VStr "Main")] ["site_id"] (Some "sites")
  = Ok (@xxh128_hexdigest Sample.hashes "sites|site_id=S1").
Proof. reflexivity. Qed.

Lemma parent_ref_is_the_parent_key_hash_witness :
  exists enriched,
    @_stage_parent_refs Sample.runtime Sample.hashes (Some [("site", to_site)]) [stock_line]
    = Ok enriched
    /\ Forall2 (fun record out =>
                  exists refs,
                    out = dict_set record "parent_refs" (refs_value refs)
                    /\ @refs_match Sample.runtime Sample.hashes [("site", to_site)] record refs)
               [stock_line] enriched.
Proof.
  assert (Hwf : dict_wf [("site", to_site)]).
  { unfold dict_wf. simpl. apply NoDup_ListNoDup. repeat constructor; set_solver. }
  apply (proj2 (proj2 (@parent_ref_is_the_parent_key_hash Sample.runtime Sample.hashes
                         [("site", to_site)] [stock_line] Hwf))).
  discriminate.
Defined.

End ParentRefsFacts.

(* ================================================================== *)
(** * Facts about fetching all pages *)
(* ================================================================== *)

Module PaginationFacts.
Import Pagination.

Section Facts.
Context {A E : Type}.
Implicit Types (execute_api : Z -> reply A E) (max_pages : option Z).










End Facts.

(** ** Examples *)

(** A source of five records in pages of two. *)
Definition five_records (page : Z) : reply nat string :=
  match page with
  | 1 => Page [1; 2]%nat 5
  | 2 => Page [3; 4]%nat 5
  | 3 => Page [5]%nat 5
  | _ => Page [] 5
  end.

Example all_five_records :
  execute_api_all_pages 10 five_records None = Some (Returned [1; 2; 3; 4; 5]%nat).
Proof. reflexivity. Qed.

Example two_pages_at_most :
  execute_api_all_pages 10 five_records (Some 2) = Some (Returned [1; 2; 3; 4]%nat).
Proof. reflexivity. Qed.

Example zero_is_no_limit :
  execute_api_all_pages 10 five_records (Some 0) = Some (Returned [1; 2; 3; 4; 5]%nat).
Proof. reflexivity. Qed.


End PaginationFacts.
